(** * talk-to-oura: the query-to-answer pipeline

    A shallow embedding of the server side of the repository:
    - [server/utils/date-range.ts]  (date-range extraction),
    - [server/routes/query.ts]      (relevance flags and the query handler;
                                     in the sources it follows the data
                                     routes in [server/routes/data.ts]),
    - [server/cache.ts]             (the per-session response cache),
    - [server/utils/gemini.ts]      (model fallback with back-off),
    - [server/oura.ts]              (daily heart-rate statistics, the
                                     session's tokens),
    followed by the properties of the specification that concern them.

    Conventions of the model.
    - A JavaScript string is a [string]: a sequence of code units, each
      below 256.  [toLowerCase], the regular-expression classes and the
      comparison operators are those of JavaScript restricted to that range.
    - A JavaScript number that the code uses as an integer (time values,
      day counts, attempt indices) is a [Z].
    - [new Date()], [Date.now()], [Math.random()], the generative-AI client,
      [JSON.parse], [JSON.stringify] and the wearable vendor's HTTP API are
      inputs of the functions that use them; so is the local time zone,
      whose offset from UTC may change with the time.
    - A call that may throw returns a [Completion]. *)

From Stdlib Require Import ZArith QArith Ascii Lia.
From Stdlib Require String.
From stdpp Require Import base option list gmap strings.

Local Open Scope Z_scope.

(** Let [simpl] compute the concatenation of strings. *)
#[local] Arguments String.append !s1 s2 : simpl nomatch.

(** ** Completions: a value or a thrown error *)

Record JsError := mkError {
  err_name : string;
  err_message : option string
}.

Inductive Completion (A : Type) : Type :=
| Return (a : A)
| Throw (e : JsError).
Arguments Return {A} a.
Arguments Throw {A} e.

Definition bindC {A B} (c : Completion A) (k : A → Completion B) : Completion B :=
  match c with
  | Return a => k a
  | Throw e => Throw e
  end.

Notation "'let*' x ':=' c 'in' k" := (bindC c (fun x => k))
  (at level 10, x name, c at level 100, k at level 200).

(** ** JavaScript strings *)

Module JsString.

Definition code (a : ascii) : N := N_of_ascii a.

Definition inRangeN (lo hi : N) (a : ascii) : bool :=
  ((lo <=? code a) && (code a <=? hi))%N.

(** [\d] *)
Definition isDigit (a : ascii) : bool := inRangeN 48 57 a.

(** [\w] : [A-Za-z0-9_] *)
Definition isWordChar (a : ascii) : bool :=
  inRangeN 97 122 a || inRangeN 65 90 a || isDigit a || (code a =? 95)%N.

(** [\s], and the characters [trim] removes: TAB, LF, VT, FF, CR, space
    and the no-break space. *)
Definition isSpace (a : ascii) : bool :=
  inRangeN 9 13 a || (code a =? 32)%N || (code a =? 160)%N.

(** [[\s\S]] *)
Definition anyChar (_ : ascii) : bool := true.

(** Upper-case letters: A–Z, and À–Þ without the multiplication sign. *)
Definition isUpper (a : ascii) : bool :=
  inRangeN 65 90 a || (inRangeN 192 222 a && negb (code a =? 215)%N).

Definition lowerChar (a : ascii) : ascii :=
  if isUpper a then ascii_of_N (code a + 32) else a.

Fixpoint toLowerCase (s : string) : string :=
  match s with
  | EmptyString => EmptyString
  | String a t => String (lowerChar a) (toLowerCase t)
  end.

(** [s.startsWith(p)] *)
Fixpoint startsWith (s p : string) {struct p} : bool :=
  match p, s with
  | EmptyString, _ => true
  | String b p', String a s' => Ascii.eqb a b && startsWith s' p'
  | String _ _, EmptyString => false
  end.

(** [s.includes(needle)] *)
Fixpoint includes (s needle : string) : bool :=
  startsWith s needle ||
  match s with
  | EmptyString => false
  | String _ t => includes t needle
  end.

(** [s.split(c)[0]] : the part of [s] before the first [c]. *)
Fixpoint beforeChar (c : ascii) (s : string) : string :=
  match s with
  | EmptyString => EmptyString
  | String a t => if Ascii.eqb a c then EmptyString else String a (beforeChar c t)
  end.

(** [s.substring(0, n)] *)
Fixpoint take (n : nat) (s : string) : string :=
  match n, s with
  | S n', String a t => String a (take n' t)
  | _, _ => EmptyString
  end.

Fixpoint dropWhile (p : ascii → bool) (s : string) : string :=
  match s with
  | EmptyString => EmptyString
  | String a t => if p a then dropWhile p t else s
  end.

(** [s.trim()] *)
Definition trim (s : string) : string :=
  String.rev (dropWhile isSpace (String.rev (dropWhile isSpace s))).

(** The relational operators on two strings compare code units
    lexicographically. *)
Definition lt (a b : string) : bool := String.ltb a b.
Definition gt (a b : string) : bool := String.ltb b a.
Definition le (a b : string) : bool := String.leb a b.
Definition ge (a b : string) : bool := String.leb b a.

(** A string is truthy when it is not empty. *)
Definition truthy (s : string) : bool :=
  match s with EmptyString => false | String _ _ => true end.

Definition quote : string := String (ascii_of_N 34) EmptyString.
Definition newline : string := String (ascii_of_N 10) EmptyString.

Definition digitChar (d : Z) : ascii := ascii_of_N (48 + Z.to_N d).

(** The last [width] decimal digits of [z], most significant first:
    a number below [10^width] padded with zeros. *)
Fixpoint padNum (width : nat) (z : Z) : string :=
  match width with
  | O => EmptyString
  | S w => padNum w (z / 10) +:+ String (digitChar (z mod 10)) EmptyString
  end.

(** [Number(s)] for a non-empty string of decimal digits. *)
Fixpoint digitsValue (acc : Z) (s : string) : Z :=
  match s with
  | EmptyString => acc
  | String a t => digitsValue (10 * acc + Z.of_N (code a - 48)) t
  end.
Definition toNumber (s : string) : Z := digitsValue 0 s.

End JsString.

Import JsString.

(** ** Regular expressions

    The fragment of JavaScript's regular expressions that the sources
    use: character tests, sequence, alternation, greedy repetition of a
    character class, the word boundary and numbered groups.  Matching is
    by backtracking, left alternative and longer repetition first, as in
    the language. *)

Module Regex.

Inductive re : Type :=
| Eps
| Cls (p : ascii → bool)
| Cat (a b : re)
| Alt (a b : re)
| Star (p : ascii → bool)
| Bnd
| Grp (n : nat) (r : re).

(** A literal character; under the [i] flag both sides are compared
    after case folding. *)
Definition chr (ci : bool) (c : ascii) : re :=
  Cls (fun a => if ci then Ascii.eqb (lowerChar a) (lowerChar c) else Ascii.eqb a c).

Fixpoint lit (ci : bool) (s : string) : re :=
  match s with
  | EmptyString => Eps
  | String c EmptyString => chr ci c
  | String c t => Cat (chr ci c) (lit ci t)
  end.

Fixpoint seq (rs : list re) : re :=
  match rs with
  | [] => Eps
  | [r] => r
  | r :: rs' => Cat r (seq rs')
  end.

Fixpoint alts (rs : list re) : re :=
  match rs with
  | [] => Eps
  | [r] => r
  | r :: rs' => Alt r (alts rs')
  end.

(** [x?], [x+] and [x{n}] *)
Definition opt (r : re) : re := Alt r Eps.
Definition plus (p : ascii → bool) : re := Cat (Cls p) (Star p).
Fixpoint rep (n : nat) (p : ascii → bool) : re :=
  match n with
  | O => Eps
  | S O => Cls p
  | S n' => Cat (Cls p) (rep n' p)
  end.
Definition words (ci : bool) (ws : list string) : re := alts (lit ci <$> ws).

Definition caps : Type := list (nat * string).

(** The matcher's position: the character before it, when there is
    one, and the text that remains. *)
Definition cont : Type := option ascii → string → caps → option caps.

Definition atBoundary (prev : option ascii) (s : string) : bool :=
  xorb (from_option isWordChar false prev)
       (match s with EmptyString => false | String a _ => isWordChar a end).

Fixpoint star (p : ascii → bool) (k : cont)
    (prev : option ascii) (s : string) (c : caps) : option caps :=
  match s with
  | String a t =>
      if p a then
        match star p k (Some a) t c with
        | Some r => Some r
        | None => k prev s c
        end
      else k prev s c
  | EmptyString => k prev s c
  end.

Fixpoint rmatch (r : re) (k : cont)
    (prev : option ascii) (s : string) (c : caps) : option caps :=
  match r with
  | Eps => k prev s c
  | Cls p =>
      match s with
      | String a t => if p a then k (Some a) t c else None
      | EmptyString => None
      end
  | Cat a b => rmatch a (rmatch b k) prev s c
  | Alt a b =>
      match rmatch a k prev s c with
      | Some r => Some r
      | None => rmatch b k prev s c
      end
  | Star p => star p k prev s c
  | Bnd => if atBoundary prev s then k prev s c else None
  | Grp n g =>
      rmatch g (fun prev' s' c' =>
                  k prev' s' ((n, take (String.length s - String.length s') s) :: c'))
             prev s c
  end.

Definition accept : cont := fun _ _ c => Some c.

(** The leftmost position at which the expression matches. *)
Fixpoint searchFrom (r : re) (prev : option ascii) (s : string) : option caps :=
  match rmatch r accept prev s [] with
  | Some c => Some c
  | None =>
      match s with
      | String a t => searchFrom r (Some a) t
      | EmptyString => None
      end
  end.

(** [s.match(r)] and [r.test(s)] *)
Definition exec (r : re) (s : string) : option caps := searchFrom r None s.
Definition test (r : re) (s : string) : bool := bool_decide (is_Some (exec r s)).

(** [m[n]] for a group that took part in the match. *)
Fixpoint group (n : nat) (c : caps) : string :=
  match c with
  | [] => EmptyString
  | (i, v) :: c' => if Nat.eqb i n then v else group n c'
  end.

End Regex.

Import Regex.

(** ** Dates

    A [Date] object holds a time value: milliseconds since the epoch in
    UTC, or NaN (an invalid date).  The local time zone [tz] gives the
    offset of local time from UTC, in milliseconds, which may change
    with the time (daylight saving, changes of the zone's rules). *)

Module JsDate.

Definition msPerDay : Z := 86400000.
Definition maxTime : Z := 8640000000000000.

(** [None] is the invalid date. *)
Definition Date : Type := option Z.

Definition TimeClip (t : Z) : Date :=
  if Z.abs t <=? maxTime then Some t else None.

Definition Day (t : Z) : Z := t / msPerDay.
Definition TimeWithinDay (t : Z) : Z := t mod msPerDay.

(** Day number of a date of the proleptic Gregorian calendar, month
    [m] in 1..12, and the date of a day number. *)
Definition daysFromCivil (y m d : Z) : Z :=
  let y' := if m <=? 2 then y - 1 else y in
  let era := y' / 400 in
  let yoe := y' - era * 400 in
  let doy := (153 * (if 2 <? m then m - 3 else m + 9) + 2) / 5 + d - 1 in
  let doe := yoe * 365 + yoe / 4 - yoe / 100 + doy in
  era * 146097 + doe - 719468.

Definition civilFromDays (z : Z) : Z * Z * Z :=
  let z' := z + 719468 in
  let era := z' / 146097 in
  let doe := z' - era * 146097 in
  let yoe := (doe - doe / 1460 + doe / 36524 - doe / 146096) / 365 in
  let doy := doe - (365 * yoe + yoe / 4 - yoe / 100) in
  let mp := (5 * doy + 2) / 153 in
  let d := doy - (153 * mp + 2) / 5 + 1 in
  let m := if mp <? 10 then mp + 3 else mp - 9 in
  (yoe + era * 400 + (if m <=? 2 then 1 else 0), m, d).

(** [MakeDay(year, month, date)], month counted from 0 and of any size. *)
Definition MakeDay (year month date : Z) : Z :=
  daysFromCivil (year + month / 12) (month mod 12 + 1) 1 + date - 1.

(** The local time zone, as ECMAScript's [LocalTZA(t, isUTC)]:
    [offsetAtUTC t] is the offset in force at the time value [t] (in
    UTC), [offsetAtLocal t] the offset taken for the local time [t]. *)
Record TimeZone := mkZone {
  offsetAtUTC : Z → Z;
  offsetAtLocal : Z → Z
}.

Section LocalZone.
Variable tz : TimeZone.

Definition LocalTime (t : Z) : Z := t + offsetAtUTC tz t.
Definition UTC (t : Z) : Z := t - offsetAtLocal tz t.

Definition getFullYear (t : Z) : Z := (civilFromDays (Day (LocalTime t))).1.1.
Definition getMonth (t : Z) : Z := (civilFromDays (Day (LocalTime t))).1.2 - 1.
Definition getDate (t : Z) : Z := (civilFromDays (Day (LocalTime t))).2.

(** [d.setDate(dt)] on a valid date with time value [t]. *)
Definition setDate (t : Z) (dt : Z) : Date :=
  TimeClip (UTC (MakeDay (getFullYear t) (getMonth t) dt * msPerDay
                 + TimeWithinDay (LocalTime t))).

(** [new Date(year, month, date)]; a year in 0..99 means 1900 + year. *)
Definition newDate (year month date : Z) : Date :=
  let yr := if (0 <=? year) && (year <=? 99) then 1900 + year else year in
  TimeClip (UTC (MakeDay yr month date * msPerDay)).
End LocalZone.

(** The date part of [toISOString()]: four digits for the years
    0..9999, a sign and six digits otherwise. *)
Definition isoYear (y : Z) : string :=
  if (0 <=? y) && (y <=? 9999) then padNum 4 y
  else (if y <? 0 then "-" else "+") +:+ padNum 6 (Z.abs y).

Definition isoDate (ymd : Z * Z * Z) : string :=
  isoYear ymd.1.1 +:+ "-" +:+ padNum 2 ymd.1.2 +:+ "-" +:+ padNum 2 ymd.2.

(** [formatDate] of a valid time value. *)
Definition formatTime (t : Z) : string := isoDate (civilFromDays (Day t)).

Definition invalidTime : JsError :=
  mkError "RangeError" (Some "Invalid time value").

(** [formatDate(date)] is [date.toISOString().split("T")[0]];
    [toISOString] throws on an invalid date. *)
Definition formatDate (d : Date) : Completion string :=
  match d with
  | Some t => Return (formatTime t)
  | None => Throw invalidTime
  end.

End JsDate.

Import JsDate.

(** ** The generative-AI client

    [ai.models.generateContentStream(request)] either throws or returns
    a stream; iterating the stream yields its chunks and may then fail. *)

Record ConversationTurn := mkTurn {
  role : string;
  parts : list string
}.

Inductive Contents :=
| Prompt (text : string)
| Turns (turns : list ConversationTurn).

Inductive GenConfig :=
| NoConfig
| EmptyConfig
| ThinkingLow.

Record GenRequest := mkRequest {
  req_model : string;
  req_contents : Contents;
  req_config : GenConfig
}.

Record Stream := mkStream {
  chunks : list (option string);
  failure : option JsError
}.

(** [for await (const chunk of stream) fullText += chunk.text || ""] *)
Definition chunkText (c : option string) : string := default "" c.

Definition readAll (s : Stream) : Completion string :=
  match failure s with
  | None => Return (foldl (fun acc c => acc +:+ chunkText c) "" (chunks s))
  | Some e => Throw e
  end.

(** ** server/utils/date-range.ts *)

Record DateRange := mkRange {
  startDate : string;
  endDate : string;
  usesCustomRange : bool
}.

(** What the extraction reads of the model's parsed answer: the two
    fields, at the type the prompt asks for; [None] is a missing field. *)
Record DateReply := mkReply {
  reply_startDate : option string;
  reply_endDate : option string
}.

Module DateRangeTs.

Definition isoDateRe : re :=
  seq [rep 4 isDigit; chr false "-"; rep 2 isDigit; chr false "-"; rep 2 isDigit].

(** [/(\d{4}-\d{2}-\d{2})\s*(to|-)\s*(\d{4}-\d{2}-\d{2})/] *)
Definition rangeRe : re :=
  seq [Grp 1 isoDateRe; Star isSpace; Grp 2 (Alt (lit false "to") (chr false "-"));
       Star isSpace; Grp 3 isoDateRe].

(** [/\b(\d{4}-\d{2}-\d{2})\b/] *)
Definition singleDateRe : re := seq [Bnd; Grp 1 isoDateRe; Bnd].

(** [/\b(today)\b/] and [/\b(yesterday|last night)\b/] *)
Definition todayRe : re := seq [Bnd; Grp 1 (lit false "today"); Bnd].
Definition yesterdayRe : re :=
  seq [Bnd; Grp 1 (words false ["yesterday"; "last night"]); Bnd].

(** [/\b(last|past|previous)\s+(\d+)\s+(days?|weeks?|months?|years?)\b/] *)
Definition unitRe (ci : bool) : re :=
  alts [Cat (lit ci "day") (opt (chr ci "s")); Cat (lit ci "week") (opt (chr ci "s"));
        Cat (lit ci "month") (opt (chr ci "s")); Cat (lit ci "year") (opt (chr ci "s"))].
Definition relativeRe (ci : bool) : re :=
  seq [Bnd; Grp 1 (words ci ["last"; "past"; "previous"]); plus isSpace;
       Grp 2 (plus isDigit); plus isSpace; Grp 3 (unitRe ci); Bnd].

(** [/\bthis\s+week\b/] and its like *)
Definition phraseRe (a b : string) : re :=
  seq [Bnd; lit false a; plus isSpace; lit false b; Bnd].

(** [/\b(20\d{2})\b/] *)
Definition yearRe : re := seq [Bnd; Grp 1 (Cat (lit false "20") (rep 2 isDigit)); Bnd].

Definition DATE_PATTERNS : list re :=
  [ seq [Bnd;
         Grp 1 (words true ["january"; "february"; "march"; "april"; "may"; "june"; "july";
                            "august"; "september"; "october"; "november"; "december"]);
         plus isSpace; rep 4 isDigit; Bnd];
    relativeRe true;
    seq [Bnd; Grp 1 (words true ["this"; "last"; "past"; "previous"]); plus isSpace;
         Grp 2 (words true ["week"; "month"; "year"]); Bnd];
    seq [Bnd; isoDateRe; Bnd];
    seq [Bnd;
         Grp 1 (words true ["jan"; "feb"; "mar"; "apr"; "may"; "jun"; "jul"; "aug"; "sep";
                            "oct"; "nov"; "dec"]);
         plus isSpace; Cls isDigit; opt (Cls isDigit)];
    seq [Bnd; lit false "20"; rep 2 isDigit; Bnd];
    seq [Bnd; Grp 1 (words true ["year"; "yr"]); Bnd] ].

Section WithZone.
Variable tz : TimeZone.

Definition toRange (start end_ : Date) : Completion DateRange :=
  let* s := formatDate start in
  let* e := formatDate end_ in
  Return (mkRange s e true).

Definition parseDateRangeFromQuery (query : string) (today : Z)
    : Completion (option DateRange) :=
  let q := toLowerCase query in
  let todayStr := formatTime today in
  match exec rangeRe q with
  | Some rangeMatch =>
      Return (Some (mkRange (group 1 rangeMatch) (group 3 rangeMatch) true))
  | None =>
  match exec singleDateRe q with
  | Some singleDateMatch =>
      Return (Some (mkRange (group 1 singleDateMatch) (group 1 singleDateMatch) true))
  | None =>
  if test todayRe q then Return (Some (mkRange todayStr todayStr true))
  else if test yesterdayRe q then
    let date := setDate tz today (getDate tz today - 1) in
    let* s := formatDate date in
    let* e := formatDate date in
    Return (Some (mkRange s e true))
  else
  match exec (relativeRe false) q with
  | Some relativeMatch =>
      let amount := toNumber (group 2 relativeMatch) in
      let unit := group 3 relativeMatch in
      let days := amount in
      let days := if startsWith unit "week" then amount * 7 else days in
      let days := if startsWith unit "month" then amount * 30 else days in
      let days := if startsWith unit "year" then amount * 365 else days in
      let start := setDate tz today (getDate tz today - days) in
      let* r := toRange start (Some today) in Return (Some r)
  | None =>
  if test (phraseRe "this" "week") q || test (phraseRe "last" "week") q then
    let start := setDate tz today (getDate tz today - 7) in
    let* r := toRange start (Some today) in Return (Some r)
  else if test (phraseRe "this" "month") q then
    let start := newDate tz (getFullYear tz today) (getMonth tz today) 1 in
    let* r := toRange start (Some today) in Return (Some r)
  else if test (phraseRe "last" "month") q then
    let start := newDate tz (getFullYear tz today) (getMonth tz today - 1) 1 in
    let end_ := newDate tz (getFullYear tz today) (getMonth tz today) 0 in
    let* r := toRange start end_ in Return (Some r)
  else if test (phraseRe "this" "year") q then
    let start := newDate tz (getFullYear tz today) 0 1 in
    let* r := toRange start (Some today) in Return (Some r)
  else if test (phraseRe "last" "year") q then
    let start := newDate tz (getFullYear tz today - 1) 0 1 in
    let end_ := newDate tz (getFullYear tz today - 1) 11 31 in
    let* r := toRange start end_ in Return (Some r)
  else
  match exec yearRe q with
  | Some yearMatch =>
      let year := toNumber (group 1 yearMatch) in
      let start := newDate tz year 0 1 in
      let end_ := newDate tz year 11 31 in
      let* r := toRange start end_ in Return (Some r)
  | None => Return None
  end end end end.

(** The answers of the world outside: the model's reply to the
    extraction request, and [JSON.parse]. *)
Variable ai : GenRequest → Completion Stream.
Variable JSON_parse : string → Completion DateReply.

(** [/\{[\s\S]*\}/] *)
Definition jsonRe : re := Grp 0 (seq [chr false "{"; Star anyChar; chr false "}"]).

Definition quoted (s : string) : string := quote +:+ s +:+ quote.

Definition joinLines (ls : list string) : string :=
  match ls with
  | [] => ""
  | l :: ls' => foldl (fun acc x => acc +:+ newline +:+ x) l ls'
  end.

Definition extractionPrompt (todayStr query : string) : string :=
  joinLines
    [ "Extract the date range from this health data question. Today's date is "
        +:+ todayStr +:+ ".";
      "";
      "Question: " +:+ quoted query;
      "";
      "Return ONLY a JSON object with startDate and endDate in YYYY-MM-DD format. No explanation.";
      "Rules:";
      "- " +:+ quoted "last night" +:+ " or " +:+ quoted "yesterday"
        +:+ ": use yesterday's date for both";
      "- " +:+ quoted "today" +:+ ": use today's date for both";
      "- " +:+ quoted "last week" +:+ ": use 7 days ago to today";
      "- " +:+ quoted "last month" +:+ ": use 30 days ago to today";
      "- " +:+ quoted "year 2025" +:+ " or " +:+ quoted "in 2025" +:+ ": use "
        +:+ quoted "2025-01-01" +:+ " to " +:+ quoted "2025-12-31";
      "- " +:+ quoted "last year" +:+ ": use the full previous calendar year";
      "- " +:+ quoted "last X days" +:+ ": use X days ago to today";
      "";
      "Example response: {" +:+ quoted "startDate" +:+ ": " +:+ quoted "2025-12-01"
        +:+ ", " +:+ quoted "endDate" +:+ ": " +:+ quoted "2025-12-31" +:+ "}" ].

(** The body of the [try] block: [Return None] when it falls
    through to the code after the [catch]. *)
Definition askModel (query todayStr : string) : Completion (option DateRange) :=
  let* stream := ai (mkRequest "gemini-3-flash-preview"
                               (Prompt (extractionPrompt todayStr query)) NoConfig) in
  let* fullText := readAll stream in
  match exec jsonRe (trim fullText) with
  | Some jsonMatch =>
      let* parsed := JSON_parse (group 0 jsonMatch) in
      match reply_startDate parsed, reply_endDate parsed with
      | Some sd, Some ed =>
          if truthy sd && truthy ed then
            let '(startDate, endDate) := if gt sd ed then (ed, sd) else (sd, ed) in
            let endDate := if gt endDate todayStr then todayStr else endDate in
            Return (Some (mkRange startDate endDate true))
          else Return None
      | _, _ => Return None
      end
  | None => Return None
  end.

Definition extractDateRange (query : string) (today : Z) : Completion DateRange :=
  let todayStr := formatTime today in
  let* weekAgo := formatDate (TimeClip (today - 7 * 24 * 60 * 60 * 1000)) in
  let defaultRange := mkRange weekAgo todayStr false in
  let* parsedRange := parseDateRangeFromQuery query today in
  match parsedRange with
  | Some parsedRange =>
      if gt (startDate parsedRange) (endDate parsedRange) then
        Return (mkRange (endDate parsedRange) (startDate parsedRange) true)
      else
        Return (mkRange (startDate parsedRange)
                        (if gt (endDate parsedRange) todayStr then todayStr
                         else endDate parsedRange)
                        (usesCustomRange parsedRange))
  | None =>
      let hasDateReference := existsb (fun pattern => test pattern query) DATE_PATTERNS in
      if negb hasDateReference then Return defaultRange
      else
        match askModel query todayStr with
        | Return (Some range) => Return range
        | Return None => Return defaultRange
        | Throw _ => Return defaultRange
        end
  end.

End WithZone.

End DateRangeTs.

Import DateRangeTs.

(** ** The wearable data (server/oura.ts, shared/schema.ts) *)

(** A daily record of the sleep, activity or readiness category: its
    [day] (YYYY-MM-DD) and the rest of its fields. *)
Record DayRecord := mkDay {
  day : string;
  fields : string
}.

(** A heart-rate sample; the code guards against a missing timestamp. *)
Record Reading := mkReading {
  bpm : Z;
  source : string;
  timestamp : option string
}.

Inductive Num :=
| Finite (z : Z)
| Infinity
| NegInfinity.

Record DailyStat := mkStat {
  stat_readings : list Reading;
  stat_min : Num;
  stat_max : Num;
  stat_avg : Z
}.

(** [dailyStats] is an object keyed by day: its entries in insertion
    order. *)
Record HeartRateResult := mkHeartRate {
  readings : list Reading;
  dailyStats : list (string * DailyStat)
}.

Module OuraData.
Record t := mk {
  sleep : list DayRecord;
  activity : list DayRecord;
  readiness : list DayRecord;
  heartRate : HeartRateResult
}.
End OuraData.

Module DataTypeFlags.
Record t := mk {
  sleep : bool;
  activity : bool;
  readiness : bool;
  heartRate : bool
}.
End DataTypeFlags.

(** ** server/cache.ts *)

Module CacheEntry.
Record t := mk {
  startDate : string;
  endDate : string;
  data : OuraData.t;
  includedTypes : DataTypeFlags.t;
  timestamp : Z
}.
End CacheEntry.

Module OuraCache.

Record t := mk {
  cache : gmap string CacheEntry.t;
  TTL : Z
}.

(** [new OuraCache(ttl)], one hour by default. *)
Definition defaultTTL : Z := 60 * 60 * 1000.
Definition new (ttl : Z) : t := mk ∅ ttl.

Definition expired (c : t) (now : Z) (entry : CacheEntry.t) : bool :=
  TTL c <? now - CacheEntry.timestamp entry.

(** The periodic sweep; [now] is [Date.now()]. *)
Definition cleanup (now : Z) (c : t) : t :=
  mk (filter (fun kv => expired c now kv.2 = false) (cache c)) (TTL c).

Definition get (now : Z) (sessionId : string) (c : t) : option CacheEntry.t * t :=
  match cache c !! sessionId with
  | None => (None, c)
  | Some entry =>
      if expired c now entry
      then (None, mk (delete sessionId (cache c)) (TTL c))
      else (Some entry, c)
  end.

(** [set(sessionId, entry)]; the entry comes without its timestamp. *)
Definition set (now : Z) (sessionId : string)
    (startDate endDate : string) (data : OuraData.t) (includedTypes : DataTypeFlags.t)
    (c : t) : t :=
  mk (<[sessionId := CacheEntry.mk startDate endDate data includedTypes now]> (cache c))
     (TTL c).

Definition clear (sessionId : string) (c : t) : t :=
  mk (delete sessionId (cache c)) (TTL c).

Definition matches (entry : CacheEntry.t) (startDate endDate : string)
    (neededTypes : DataTypeFlags.t) : bool :=
  if negb (truthy (CacheEntry.startDate entry)) || negb (truthy (CacheEntry.endDate entry))
  then false
  else if gt (CacheEntry.startDate entry) startDate || lt (CacheEntry.endDate entry) endDate
  then false
  else if DataTypeFlags.sleep neededTypes
          && negb (DataTypeFlags.sleep (CacheEntry.includedTypes entry)) then false
  else if DataTypeFlags.activity neededTypes
          && negb (DataTypeFlags.activity (CacheEntry.includedTypes entry)) then false
  else if DataTypeFlags.readiness neededTypes
          && negb (DataTypeFlags.readiness (CacheEntry.includedTypes entry)) then false
  else if DataTypeFlags.heartRate neededTypes
          && negb (DataTypeFlags.heartRate (CacheEntry.includedTypes entry)) then false
  else true.

(** [day >= startDate && day <= endDate] *)
Definition within (startDate endDate day : string) : bool :=
  ge day startDate && le day endDate.

Definition filterByDate (startDate endDate : string) (items : list DayRecord)
    : list DayRecord :=
  List.filter (fun item => within startDate endDate (day item)) items.

(** [reading.timestamp?.split('T')[0]]; a comparison with [undefined]
    is false. *)
Definition readingDay (reading : Reading) : option string :=
  beforeChar "T" <$> timestamp reading.

Definition filterHeartRate (startDate endDate : string) (hrData : HeartRateResult)
    : HeartRateResult :=
  let filteredReadings :=
    List.filter (fun reading =>
                   match readingDay reading with
                   | Some d => within startDate endDate d
                   | None => false
                   end) (readings hrData) in
  let filteredStats :=
    List.filter (fun kv => within startDate endDate kv.1) (dailyStats hrData) in
  mkHeartRate filteredReadings filteredStats.

Definition filterData (entry : CacheEntry.t) (startDate endDate : string) : OuraData.t :=
  OuraData.mk
    (filterByDate startDate endDate (OuraData.sleep (CacheEntry.data entry)))
    (filterByDate startDate endDate (OuraData.activity (CacheEntry.data entry)))
    (filterByDate startDate endDate (OuraData.readiness (CacheEntry.data entry)))
    (filterHeartRate startDate endDate (OuraData.heartRate (CacheEntry.data entry))).

End OuraCache.

(** ** server/utils/gemini.ts *)

Module Gemini.

Definition MODELS : list string := ["gemini-3-flash-preview"; "gemini-2.5-flash"].

Record RetryState := mkState {
  lastError : option JsError;
  calls : list GenRequest;
  delays : list Q
}.

Definition initial : RetryState := mkState None [] [].

(** [error?.message?.includes("429") || error?.message?.includes("RESOURCE_EXHAUSTED")] *)
Definition is429 (error : JsError) : bool :=
  match err_message error with
  | Some m => includes m "429" || includes m "RESOURCE_EXHAUSTED"
  | None => false
  end.

(** How the loop over the attempts of one model ends. *)
Inductive Attempted :=
| Got (stream : Stream)
| Exhausted
| Aborted (error : JsError).

Section WithService.
(** [gen k request]: the service's answer to the call that comes
    after [k] earlier ones; [random k]: the value of the draw of
    [Math.random()] that comes after [k] earlier ones. *)
Variable gen : nat → GenRequest → Completion Stream.
Variable random : nat → Q.

Definition configFor (model : string) : GenConfig :=
  if includes model "gemini-3" then ThinkingLow else EmptyConfig.

(** [Math.pow(2, attempt) * 1000 + Math.random() * 1000] *)
Definition backoff (attempt : Z) (r : Q) : Q :=
  (inject_Z (2 ^ attempt * 1000) + r * 1000)%Q.

(** The inner [for] loop, [fuel] bounding the iterations left. *)
Fixpoint attempts (model : string) (contents : Contents) (maxRetries : Z)
    (fuel : nat) (attempt : Z) (st : RetryState) : Attempted * RetryState :=
  match fuel with
  | O => (Exhausted, st)
  | S fuel' =>
      if negb (attempt <? maxRetries) then (Exhausted, st)
      else
        let request := mkRequest model contents (configFor model) in
        let answer := gen (length (calls st)) request in
        let st := mkState (lastError st) (calls st ++ [request]) (delays st) in
        match answer with
        | Return stream => (Got stream, st)
        | Throw error =>
            let st := mkState (Some error) (calls st) (delays st) in
            if is429 error && (attempt <? maxRetries - 1) then
              let delay := backoff attempt (random (length (delays st))) in
              let st := mkState (lastError st) (calls st) (delays st ++ [delay]) in
              attempts model contents maxRetries fuel' (attempt + 1) st
            else if is429 error then (Exhausted, st)
            else (Aborted error, st)
        end
  end.

(** The outer [for] loop over the models. *)
Fixpoint tryModels (models : list string) (contents : Contents) (maxRetries : Z)
    (st : RetryState) : Completion Stream * RetryState :=
  match models with
  | [] =>
      (Throw (default (mkError "Error" (Some "All models failed")) (lastError st)), st)
  | model :: rest =>
      match attempts model contents maxRetries (Z.to_nat maxRetries) 0 st with
      | (Got stream, st') => (Return stream, st')
      | (Exhausted, st') => tryModels rest contents maxRetries st'
      | (Aborted error, st') => (Throw error, st')
      end
  end.

Definition generateWithRetry (contents : Contents) (maxRetries : Z)
    : Completion Stream * RetryState :=
  tryModels MODELS contents maxRetries initial.

Definition defaultMaxRetries : Z := 2.

End WithService.

End Gemini.

(** ** server/routes/query.ts *)

(** The body of the request as the schema sees it: a [query] that is
    not a string is reported with the validator's own message.  The
    handler takes [conversationHistory] from the parsed body; the schema
    puts no condition on it. *)
Inductive QueryField :=
| NotAString (issue : string)
| QueryString (query : string).

Record HistoryMessage := mkMessage {
  msg_role : string;
  msg_content : string
}.

Record Request := mkReq {
  body_query : QueryField;
  body_conversationHistory : option (list HistoryMessage);
  session_connected : bool;
  sessionID : string
}.

Record HeartRateSummary := mkSummary {
  sum_day : string;
  sum_min : option Num;
  sum_max : option Num;
  sum_avg : option Z
}.

Record RelevantData := mkRelevant {
  rel_sleep : option (list DayRecord);
  rel_activity : option (list DayRecord);
  rel_readiness : option (list DayRecord);
  rel_heartRate : option (list HeartRateSummary)
}.

(** The events written to the stream, and the two shapes of a finished
    response: a JSON body with a status, or the closed event stream. *)
Inductive Sse :=
| Content (text : string)
| Done
| Final (ouraData : option RelevantData)
| Failed (error : string).

Inductive Response :=
| Json (status : Z) (error : string) (details : option string)
| EventStream (events : list Sse).

(** The vendor's API as the handler sees it (server/oura.ts): each
    fetcher catches its own failures and answers with an empty result. *)
Record Vendor := mkVendor {
  getSleepDataByDateRange : string → string → list DayRecord;
  getActivityDataByDateRange : string → string → list DayRecord;
  getReadinessDataByDateRange : string → string → list DayRecord;
  getHeartRateDataByDateRange : string → string → HeartRateResult;
  getSleepData : Z → list DayRecord;
  getActivityData : Z → list DayRecord;
  getReadinessData : Z → list DayRecord;
  getHeartRateData : Z → HeartRateResult
}.

(** Everything a request reads from outside the process. *)
Record World := mkWorld {
  tz : TimeZone;
  clock_today : Z;
  clock_get : Z;
  clock_set : Z;
  ai_extract : GenRequest → Completion Stream;
  JSON_parse : string → Completion DateReply;
  ai_generate : nat → GenRequest → Completion Stream;
  random : nat → Q;
  vendor : Vendor;
  stringifyRecords : list DayRecord → string;
  stringifySummary : list HeartRateSummary → string
}.

Module QueryRoute.

Definition detectRelevantDataTypes (query : string) : DataTypeFlags.t :=
  let q := toLowerCase query in
  let wantsSleep :=
    includes q "sleep" || includes q "rest" || includes q "night" || includes q "bed"
    || includes q "rem" || includes q "deep" || includes q "awake" in
  let wantsActivity :=
    includes q "activity" || includes q "step" || includes q "active"
    || includes q "exercise" || includes q "workout" || includes q "calories"
    || includes q "move" in
  let wantsReadiness :=
    includes q "readiness" || includes q "recovery" || includes q "ready"
    || includes q "stress" || includes q "strain" in
  let wantsHeartRate :=
    includes q "heart" || includes q "hr" || includes q "bpm" || includes q "pulse" in
  let noSpecificType :=
    negb wantsSleep && negb wantsActivity && negb wantsReadiness && negb wantsHeartRate in
  DataTypeFlags.mk (wantsSleep || noSpecificType) (wantsActivity || noSpecificType)
                   (wantsReadiness || noSpecificType) wantsHeartRate.

(** The object that the schema [z.object({ query })] parses a body
    into: it has the key of the schema, the other keys of the body are
    stripped. *)
Record ParsedQuery := mkParsed {
  data_query : string
}.

(** [parsed.data.conversationHistory], a key that the parsed object
    does not have: [undefined]. *)
Definition data_conversationHistory (data : ParsedQuery)
    : option (list HistoryMessage) := None.

(** [ouraQuerySchema.safeParse(req.body)]: the first issue's message,
    or the parsed object. *)
Definition safeParse (req : Request) : string + ParsedQuery :=
  match body_query req with
  | NotAString issue => inl issue
  | QueryString query =>
      if (String.length query <? 1)%nat then inl "Please enter a question"
      else if (500 <? String.length query)%nat
      then inl "Please keep your question under 500 characters"
      else inr (mkParsed query)
  end.

(** [getAllOuraDataByDateRange] and [getAllOuraData] for a connected
    session. *)
Definition noHeartRate : HeartRateResult := mkHeartRate [] [].
Definition noData : OuraData.t := OuraData.mk [] [] [] noHeartRate.

Definition getAllOuraDataByDateRange (v : Vendor) (connected : bool)
    (startDate endDate : string)
    (includeSleep includeActivity includeReadiness includeHeartRate : bool) : OuraData.t :=
  if negb connected then noData
  else OuraData.mk
         (if includeSleep then getSleepDataByDateRange v startDate endDate else [])
         (if includeActivity then getActivityDataByDateRange v startDate endDate else [])
         (if includeReadiness then getReadinessDataByDateRange v startDate endDate else [])
         (if includeHeartRate then getHeartRateDataByDateRange v startDate endDate
          else noHeartRate).

Definition getAllOuraData (v : Vendor) (connected : bool) (days : Z) : OuraData.t :=
  if negb connected then noData
  else OuraData.mk (getSleepData v days) (getActivityData v days)
                   (getReadinessData v days) (getHeartRateData v days).

(** [stats.min === Infinity ? null : stats.min] and its like;
    [stats.avg || null]. *)
Definition heartRateSummary (ouraData : OuraData.t) : list HeartRateSummary :=
  (fun kv : string * DailyStat =>
     mkSummary kv.1
       (match stat_min kv.2 with Infinity => None | m => Some m end)
       (match stat_max kv.2 with NegInfinity => None | m => Some m end)
       (if stat_avg kv.2 =? 0 then None else Some (stat_avg kv.2)))
  <$> dailyStats (OuraData.heartRate ouraData).

Section WithWorld.
Variable w : World.

Definition buildDataSections (ouraData : OuraData.t) (dataTypes : DataTypeFlags.t)
    : string :=
  let dataSections := "" in
  let dataSections :=
    if DataTypeFlags.sleep dataTypes
    then dataSections +:+ newline +:+ "SLEEP DATA:" +:+ newline
         +:+ stringifyRecords w (OuraData.sleep ouraData)
    else dataSections in
  let dataSections :=
    if DataTypeFlags.activity dataTypes
    then dataSections +:+ newline +:+ "ACTIVITY DATA:" +:+ newline
         +:+ stringifyRecords w (OuraData.activity ouraData)
    else dataSections in
  let dataSections :=
    if DataTypeFlags.readiness dataTypes
    then dataSections +:+ newline +:+ "READINESS DATA:" +:+ newline
         +:+ stringifyRecords w (OuraData.readiness ouraData)
    else dataSections in
  if DataTypeFlags.heartRate dataTypes
  then dataSections +:+ newline
       +:+ "HEART RATE DAILY SUMMARY (min/max/avg bpm per day):" +:+ newline
       +:+ stringifySummary w (heartRateSummary ouraData)
  else dataSections.

Definition buildSystemContext (dateRangeDescription dataSections : string) : string :=
  joinLines
    [ "You are a helpful health assistant that analyzes Oura ring data.";
      "You have access to the user's sleep, activity, readiness, and heart rate data from their Oura ring.";
      "Provide insightful, personalized responses based on the data.";
      "Be conversational and supportive. Use specific numbers and dates from the data.";
      "If asked about trends, compare recent days. If asked about specific metrics, explain what they mean.";
      "Keep responses concise but informative. Use plain language.";
      "";
      "Here is the user's Oura data " +:+ dateRangeDescription +:+ ":";
      dataSections ].

(** [conversationHistory.slice(-10)] *)
Definition lastTen {A} (l : list A) : list A := drop (length l - 10) l.

Definition buildStreamInput (query systemContext : string)
    (conversationHistory : option (list HistoryMessage)) : Contents :=
  match conversationHistory with
  | Some (m :: ms) =>
      let history := m :: ms in
      Turns
        ([ mkTurn "user"
             [systemContext +:+ newline +:+ newline
              +:+ "Please use the above data context for this conversation."];
           mkTurn "model"
             ["I have the Oura data ready. I'll use it to answer your questions about your health metrics."] ]
         ++ ((fun msg =>
                mkTurn (if String.eqb (msg_role msg) "assistant" then "model" else "user")
                       [msg_content msg]) <$> lastTen history)
         ++ [ mkTurn "user" [query] ])
  | _ =>
      Prompt (systemContext +:+ newline +:+ newline +:+ "USER QUESTION: " +:+ query
              +:+ newline +:+ newline
              +:+ "Please analyze the data and answer the user's question.")
  end.

Definition buildRelevantDataPayload (ouraData : OuraData.t) (dataTypes : DataTypeFlags.t)
    : option RelevantData :=
  let relevantData :=
    mkRelevant
      (if DataTypeFlags.sleep dataTypes then Some (OuraData.sleep ouraData) else None)
      (if DataTypeFlags.activity dataTypes then Some (OuraData.activity ouraData) else None)
      (if DataTypeFlags.readiness dataTypes then Some (OuraData.readiness ouraData) else None)
      (if DataTypeFlags.heartRate dataTypes then Some (heartRateSummary ouraData) else None) in
  if DataTypeFlags.sleep dataTypes || DataTypeFlags.activity dataTypes
     || DataTypeFlags.readiness dataTypes || DataTypeFlags.heartRate dataTypes
  then Some relevantData else None.

(** [error?.message || error?.toString() || "Unknown error"] *)
Definition errorToString (e : JsError) : string :=
  let msg := default "" (err_message e) in
  if negb (truthy (err_name e)) then msg
  else if negb (truthy msg) then err_name e
  else err_name e +:+ ": " +:+ msg.

Definition errorMessage (e : JsError) : string :=
  if truthy (default "" (err_message e)) then default "" (err_message e)
  else if truthy (errorToString e) then errorToString e
  else "Unknown error".

(** The [catch] block: [events] are those written so far;
    [res.headersSent] holds once something was written. *)
Definition fail (events : list Sse) (e : JsError) : Response :=
  match events with
  | [] => Json 500 "Failed to process query" (Some (errorMessage e))
  | _ => EventStream (events ++ [Failed ("Failed to process query: " +:+ errorMessage e)])
  end.

(** The [if (cachedEntry)] block: the range in force afterwards and
    the data taken from the cache, if any. *)
Definition fromCache (cachedEntry : option CacheEntry.t) (dateRange : DateRange)
    (dataTypes : DataTypeFlags.t) : DateRange * option OuraData.t :=
  match cachedEntry with
  | Some cachedEntry =>
      if negb (usesCustomRange dateRange) then
        (mkRange (CacheEntry.startDate cachedEntry) (CacheEntry.endDate cachedEntry) true,
         Some (CacheEntry.data cachedEntry))
      else if OuraCache.matches cachedEntry (startDate dateRange) (endDate dateRange) dataTypes
      then (dateRange,
            Some (OuraCache.filterData cachedEntry (startDate dateRange) (endDate dateRange)))
      else (dateRange, None)
  | None => (dateRange, None)
  end.

(** The [if (!ouraData)] block. *)
Definition orFetch (req : Request) (dateRange : DateRange) (dataTypes : DataTypeFlags.t)
    (ouraData : option OuraData.t) (queryCache : OuraCache.t) : OuraData.t * OuraCache.t :=
  match ouraData with
  | Some ouraData => (ouraData, queryCache)
  | None =>
      let ouraData :=
        if usesCustomRange dateRange
        then getAllOuraDataByDateRange (vendor w) (session_connected req)
               (startDate dateRange) (endDate dateRange)
               (DataTypeFlags.sleep dataTypes) (DataTypeFlags.activity dataTypes)
               (DataTypeFlags.readiness dataTypes) (DataTypeFlags.heartRate dataTypes)
        else getAllOuraData (vendor w) (session_connected req) 7 in
      (ouraData,
       if truthy (sessionID req)
       then OuraCache.set (clock_set w) (sessionID req) (startDate dateRange)
              (endDate dateRange) ouraData dataTypes queryCache
       else queryCache)
  end.

Definition hasData (ouraData : OuraData.t) : bool :=
  (0 <? length (OuraData.sleep ouraData))%nat
  || (0 <? length (OuraData.activity ouraData))%nat
  || (0 <? length (OuraData.readiness ouraData))%nat
  || (0 <? length (readings (OuraData.heartRate ouraData)))%nat.

Definition noDataMsg (dateRange : DateRange) : string :=
  if usesCustomRange dateRange
  then "I couldn't find any data from your Oura ring for the period "
       +:+ startDate dateRange +:+ " to " +:+ endDate dateRange
       +:+ ". Please make sure your ring was synced during that time."
  else "I couldn't find any recent data from your Oura ring. Please make sure your ring is synced and try again.".

(** The [for await] loop over the answer: one content event for each
    chunk with a non-empty text. *)
Definition relay (stream : Stream) : list Sse :=
  omap (fun c => if truthy (chunkText c) then Some (Content (chunkText c)) else None)
       (chunks stream).

(** The cache lookup and, on a miss, the fetch: the range in force,
    the grounding dataset and the cache afterwards. *)
Definition resolveData (req : Request) (dateRange : DateRange)
    (dataTypes : DataTypeFlags.t) (queryCache : OuraCache.t)
    : DateRange * OuraData.t * OuraCache.t :=
  let '(cachedEntry, queryCache) := OuraCache.get (clock_get w) (sessionID req) queryCache in
  let '(dateRange, ouraData) := fromCache cachedEntry dateRange dataTypes in
  let '(ouraData, queryCache) := orFetch req dateRange dataTypes ouraData queryCache in
  (dateRange, ouraData, queryCache).

(** From the [hasData] test to the end of the handler. *)
Definition respond (query : string)
    (conversationHistory : option (list HistoryMessage)) (dateRange : DateRange)
    (dataTypes : DataTypeFlags.t) (ouraData : OuraData.t) : Response :=
  if negb (hasData ouraData)
  then EventStream [Content (noDataMsg dateRange); Done]
  else
  let dateRangeDescription :=
    if usesCustomRange dateRange
    then "from " +:+ startDate dateRange +:+ " to " +:+ endDate dateRange
    else "from the last 7 days" in
  let dataSections := buildDataSections ouraData dataTypes in
  let systemContext := buildSystemContext dateRangeDescription dataSections in
  let streamInput := buildStreamInput query systemContext conversationHistory in
  match (Gemini.generateWithRetry (ai_generate w) (random w) streamInput
                                  Gemini.defaultMaxRetries).1 with
  | Throw e => fail [] e
  | Return stream =>
      match failure stream with
      | Some e => fail (relay stream) e
      | None =>
          EventStream (relay stream ++ [Final (buildRelevantDataPayload ouraData dataTypes)])
      end
  end.

(** The handler of [POST /api/oura/query]: the response, and the
    cache afterwards. *)
Definition handleQuery (req : Request) (queryCache : OuraCache.t)
    : Response * OuraCache.t :=
  match safeParse req with
  | inl issue =>
      (Json 400 (if truthy issue then issue else "Query is required") None, queryCache)
  | inr data =>
  let query := data_query data in
  let conversationHistory := data_conversationHistory data in
  if negb (session_connected req)
  then (Json 401 "Please connect your Oura ring first." None, queryCache)
  else
  match extractDateRange (tz w) (ai_extract w) (JSON_parse w) query (clock_today w) with
  | Throw e => (fail [] e, queryCache)
  | Return dateRange =>
      let dataTypes := detectRelevantDataTypes query in
      let '(dateRange, ouraData, queryCache) :=
        resolveData req dateRange dataTypes queryCache in
      (respond query conversationHistory dateRange dataTypes ouraData, queryCache)
  end
  end.

End WithWorld.

End QueryRoute.

Import QueryRoute.

(** ** server/routes.ts, the earlier handler

    The detection of the relevant categories as the earlier handler of
    [POST /api/oura/query] has it inline. *)

Module LegacyRoutes.

Definition includedTypes (query : string) : DataTypeFlags.t :=
  let queryLower := toLowerCase query in
  let wantsSleep :=
    includes queryLower "sleep" || includes queryLower "rest"
    || includes queryLower "night" || includes queryLower "bed"
    || includes queryLower "rem" || includes queryLower "deep" in
  let wantsActivity :=
    includes queryLower "activity" || includes queryLower "step"
    || includes queryLower "active" || includes queryLower "exercise"
    || includes queryLower "workout" || includes queryLower "calories"
    || includes queryLower "move" in
  let wantsReadiness :=
    includes queryLower "readiness" || includes queryLower "recovery"
    || includes queryLower "ready" || includes queryLower "stress"
    || includes queryLower "strain" in
  let wantsHeartRate :=
    includes queryLower "heart" || includes queryLower "hr"
    || includes queryLower "bpm" || includes queryLower "pulse"
    || includes queryLower "resting" in
  let noSpecificType :=
    negb wantsSleep && negb wantsActivity && negb wantsReadiness && negb wantsHeartRate in
  let includeSleep := wantsSleep || noSpecificType in
  let includeReadiness := wantsReadiness || noSpecificType in
  let includeActivity := wantsActivity in
  let includeHeartRate := wantsHeartRate in
  DataTypeFlags.mk includeSleep includeActivity includeReadiness includeHeartRate.

End LegacyRoutes.

(** ** server/oura.ts: the daily heart-rate statistics *)

Module OuraTs.

(** The names that an object literal inherits from [Object.prototype]:
    for them [dailyStats[day]] is truthy before anything is stored, no
    bucket is made and [dailyStats[day].readings.push] throws. *)
Definition inheritedKeys : list string :=
  ["constructor"; "hasOwnProperty"; "isPrototypeOf"; "propertyIsEnumerable";
   "toLocaleString"; "toString"; "valueOf"; "__proto__";
   "__defineGetter__"; "__defineSetter__"; "__lookupGetter__"; "__lookupSetter__"].

Definition notABucket : JsError :=
  mkError "TypeError" (Some "Cannot read properties of undefined (reading 'push')").

(** [bpm < min] and [bpm > max] *)
Definition below (bpm : Z) (min : Num) : bool :=
  match min with
  | Finite z => bpm <? z
  | Infinity => true
  | NegInfinity => false
  end.
Definition above (bpm : Z) (max : Num) : bool :=
  match max with
  | Finite z => z <? bpm
  | Infinity => false
  | NegInfinity => true
  end.

(** The body of the first [forEach]: the statistics after one more
    reading. *)
Definition addReading (dailyStats : gmap string DailyStat) (reading : Reading)
    : Completion (gmap string DailyStat) :=
  match beforeChar "T" <$> timestamp reading with
  | None => Return dailyStats
  | Some day =>
      if negb (truthy day) then Return dailyStats
      else
        let* stats :=
          match dailyStats !! day with
          | Some stats => Return stats
          | None =>
              if bool_decide (day ∈ inheritedKeys) then Throw notABucket
              else Return (mkStat [] Infinity NegInfinity 0)
          end in
        let readings := stat_readings stats ++ [reading] in
        let min := if below (bpm reading) (stat_min stats) then Finite (bpm reading)
                   else stat_min stats in
        let max := if above (bpm reading) (stat_max stats) then Finite (bpm reading)
                   else stat_max stats in
        Return (<[day := mkStat readings min max (stat_avg stats)]> dailyStats)
  end.

Fixpoint forEach {A S : Type} (f : S → A → Completion S) (l : list A) (s : S)
    : Completion S :=
  match l with
  | [] => Return s
  | x :: l' => let* s' := f s x in forEach f l' s'
  end.

(** [Math.round(sum / n)] for integers [sum] and [n > 0]: the nearest
    integer, a half rounded up. *)
Definition roundDiv (sum n : Z) : Z := (2 * sum + n) / (2 * n).

(** The body of the second [forEach]. *)
Definition setAvg (stats : DailyStat) : DailyStat :=
  let sum := foldl (fun acc r => acc + bpm r) 0 (stat_readings stats) in
  mkStat (stat_readings stats) (stat_min stats) (stat_max stats)
         (roundDiv sum (Z.of_nat (length (stat_readings stats)))).

Definition computeHeartRateDailyStats (readings : list Reading)
    : Completion (gmap string DailyStat) :=
  let* dailyStats := forEach addReading readings ∅ in
  Return (setAvg <$> dailyStats).

(** [getHeartRateDataByDateRange], and [getHeartRateData] alike:
    [headers] is null without a valid access token; [request] is the
    outcome of the request to the vendor, [response.data?.data || []]
    when it succeeds; whatever is thrown inside the [try] gives the
    empty result. *)
Definition getHeartRateDataByDateRange (headers : option string)
    (request : string → Completion (list Reading))
    : list Reading * gmap string DailyStat :=
  match headers with
  | None => ([], ∅)
  | Some headers =>
      match (let* heartRateReadings := request headers in
             let* dailyStats := computeHeartRateDailyStats heartRateReadings in
             Return (heartRateReadings, dailyStats)) with
      | Return result => result
      | Throw _ => ([], ∅)
      end
  end.

(** The tokens of a session; a field is [None] when it is undefined. *)
Record Session := mkSession {
  ouraAccessToken : option string;
  ouraRefreshToken : option string;
  ouraTokenExpiry : option Z
}.

Record Tokens := mkTokens {
  tokens_access : string;
  tokens_refresh : string;
  expiresIn : Z
}.

(** [isConnected(req)] *)
Definition isConnected (session : Session) : bool :=
  truthy (default "" (ouraAccessToken session)).

(** [ensureValidAccessToken(req)]: the token, and the session
    afterwards.  [refreshAccessToken] is the exchange with the vendor,
    which answers null when it fails; [now] and [now'] are the two
    readings of the clock. *)
Definition ensureValidAccessToken (refreshAccessToken : string → option Tokens)
    (now now' : Z) (session : Session) : option string * Session :=
  match ouraAccessToken session with
  | None => (None, session)
  | Some accessToken =>
      if negb (truthy accessToken) then (None, session)
      else
        match ouraTokenExpiry session with
        | None => (Some accessToken, session)
        | Some expiry =>
            if expiry =? 0 then (Some accessToken, session)
            else if now <? expiry - 60000 then (Some accessToken, session)
            else
              match ouraRefreshToken session with
              | None => (None, session)
              | Some refreshToken =>
                  if negb (truthy refreshToken) then (None, session)
                  else
                    match refreshAccessToken refreshToken with
                    | None => (None, session)
                    | Some refreshed =>
                        (Some (tokens_access refreshed),
                         mkSession (Some (tokens_access refreshed))
                                   (Some (tokens_refresh refreshed))
                                   (Some (now' + expiresIn refreshed * 1000)))
                    end
              end
        end
  end.

End OuraTs.

(** * Notions of the specification and sample inputs *)

(** [k] occurs in [s]. *)
Definition Substring (k s : string) : Prop := ∃ pre post, s = pre +:+ k +:+ post.

(** The keyword lists of the relevance classifier as the specification
    gives them. *)
Definition specSleepKeywords : list string :=
  ["sleep"; "rest"; "night"; "bed"; "rem"; "deep"; "light"; "awake"].
Definition specActivityKeywords : list string :=
  ["activity"; "step"; "active"; "exercise"; "workout"; "calories"; "move"].
Definition specReadinessKeywords : list string :=
  ["readiness"; "recovery"; "ready"; "stress"; "strain"].
Definition specHeartRateKeywords : list string :=
  ["heart"; "hr"; "bpm"; "pulse"].
Definition specKeywords : list string :=
  specSleepKeywords ++ specActivityKeywords ++ specReadinessKeywords ++ specHeartRateKeywords.

(** The keywords the code tests: those of the specification without
    [light]. *)
Definition codeKeywords : list string :=
  ["sleep"; "rest"; "night"; "bed"; "rem"; "deep"; "awake";
   "activity"; "step"; "active"; "exercise"; "workout"; "calories"; "move";
   "readiness"; "recovery"; "ready"; "stress"; "strain";
   "heart"; "hr"; "bpm"; "pulse"].

(** Every category that is needed is among those included. *)
Definition TypesCovered (needed included : DataTypeFlags.t) : Prop :=
  (DataTypeFlags.sleep needed = true → DataTypeFlags.sleep included = true)
  ∧ (DataTypeFlags.activity needed = true → DataTypeFlags.activity included = true)
  ∧ (DataTypeFlags.readiness needed = true → DataTypeFlags.readiness included = true)
  ∧ (DataTypeFlags.heartRate needed = true → DataTypeFlags.heartRate included = true).

(** [d] lies in the range from [s] to [e], both ends included. *)
Definition Within (s e d : string) : Prop := (s ≤ d)%string ∧ (d ≤ e)%string.

(** The date part of a reading's timestamp lies in the range. *)
Definition ReadingWithin (s e : string) (r : Reading) : Prop :=
  ∃ ts, timestamp r = Some ts ∧ Within s e (beforeChar "T" ts).

(** Sample data: three nights, two heart-rate samples. *)
Definition night1 : DayRecord := mkDay "2026-10-30" "{score: 81}".
Definition night2 : DayRecord := mkDay "2026-10-31" "{score: 77}".
Definition night3 : DayRecord := mkDay "2026-11-01" "{score: 90}".
Definition sample1 : Reading := mkReading 52 "rest" (Some "2026-10-31T03:15:00+00:00").
Definition sample2 : Reading := mkReading 61 "awake" (Some "2026-11-01T09:00:00+00:00").
Definition sampleStats : list (string * DailyStat) :=
  [("2026-10-31", mkStat [sample1] (Finite 52) (Finite 52) 52);
   ("2026-11-01", mkStat [sample2] (Finite 61) (Finite 61) 61)].
Definition sampleData : OuraData.t :=
  OuraData.mk [night1; night2; night3] [] [] (mkHeartRate [sample1; sample2] sampleStats).
Definition allTypes : DataTypeFlags.t := DataTypeFlags.mk true true true true.
Definition noTypes : DataTypeFlags.t := DataTypeFlags.mk false false false false.
Definition sampleEntry : CacheEntry.t :=
  CacheEntry.mk "2026-10-26" "2026-11-02" sampleData allTypes 1793620800000.

(** An entry whose start date is the empty string. *)
Definition undatedEntry : CacheEntry.t :=
  CacheEntry.mk "" "2026-11-02" sampleData allTypes 1793620800000.

(** A cache that holds [sampleEntry] for the session [s1]. *)
Definition sampleCache : OuraCache.t :=
  OuraCache.mk {[ "s1" := sampleEntry ]} OuraCache.defaultTTL.

(** The two models, and a service that is rate-limited on its first two
    calls and answers afterwards; the answer names the model asked. *)
Definition primaryModel : string := "gemini-3-flash-preview".
Definition fallbackModel : string := "gemini-2.5-flash".
Definition rateLimited : JsError :=
  mkError "ApiError" (Some "got status: 429 Too Many Requests. RESOURCE_EXHAUSTED").
Definition answerOf (model : string) : Stream :=
  mkStream [Some ("answer of " +:+ model)] None.
Definition twiceLimited : nat → GenRequest → Completion Stream :=
  fun k request =>
    if (k <? 2)%nat then Throw rateLimited else Return (answerOf (req_model request)).
Definition halfJitter : nat → Q := fun _ => (1 # 2)%Q.

(** The request that [generateWithRetry] sends to a model. *)
Definition requestTo (model : string) (contents : Contents) : GenRequest :=
  mkRequest model contents (Gemini.configFor model).

(** Time zones: one offset at all times, UTC, and London's zone with
    the summer time of 2026 (29 March to 25 October, 01:00 UTC). *)
Definition fixedZone (offset : Z) : TimeZone := mkZone (fun _ => offset) (fun _ => offset).
Definition utcZone : TimeZone := fixedZone 0.
Definition summerTime2026 (t : Z) : bool := (1774746000000 <=? t) && (t <? 1792890000000).
Definition london2026 : TimeZone :=
  mkZone (fun t => if summerTime2026 t then 3600000 else 0)
         (fun t => if summerTime2026 (t - 3600000) then 3600000 else 0).

(** The offsets of a zone lie within two days of each other, as those
    of every zone in use do; a zone with one offset is such a zone. *)
Definition SteadyZone (tz : TimeZone) : Prop :=
  ∀ t t', Z.abs (offsetAtUTC tz t - offsetAtLocal tz t') ≤ 2 * msPerDay.

(** A sample world: noon of 2 November 2026 in UTC, a model that cannot
    be reached for the date extraction and answers every generation
    request, and a vendor without any data. *)
Definition noon : Z := 1793620800000.
Definition unreachable : GenRequest → Completion Stream :=
  fun _ => Throw (mkError "Error" (Some "fetch failed")).
Definition noJson : string → Completion DateReply :=
  fun _ => Throw (mkError "SyntaxError" (Some "Unexpected token")).
Definition answering : nat → GenRequest → Completion Stream :=
  fun _ request => Return (answerOf (req_model request)).
Definition emptyVendor : Vendor :=
  mkVendor (fun _ _ => []) (fun _ _ => []) (fun _ _ => []) (fun _ _ => mkHeartRate [] [])
           (fun _ => []) (fun _ => []) (fun _ => []) (fun _ => mkHeartRate [] []).
Definition sampleWorld : World :=
  mkWorld utcZone noon noon noon unreachable noJson answering halfJitter emptyVendor
          (fun _ => "[...]") (fun _ => "[...]").

Definition ask (query : string) : Request := mkReq (QueryString query) None true "s1".

(** A cache entry fetched for a question about sleep: no heart-rate
    data was asked for, none is held. *)
Definition sleepOnlyEntry : CacheEntry.t :=
  CacheEntry.mk "2026-10-26" "2026-11-02"
    (OuraData.mk [night1; night2; night3] [] [] (mkHeartRate [] []))
    (DataTypeFlags.mk true false false false) noon.
Definition sleepOnlyCache : OuraCache.t :=
  OuraCache.mk {[ "s1" := sleepOnlyEntry ]} OuraCache.defaultTTL.
Definition emptyCache : OuraCache.t := OuraCache.new OuraCache.defaultTTL.

(** What it means for a regular expression to match: from the position
    [(prev, s)] with the groups [c] it can reach the position
    [(prev', s')] with the groups [c'].  No order is put on the
    alternatives and no length on the repetitions. *)
Inductive Matches : re → option ascii → string → caps → option ascii → string → caps → Prop :=
| M_Eps prev s c : Matches Eps prev s c prev s c
| M_Cls p prev a t c : p a = true → Matches (Cls p) prev (String a t) c (Some a) t c
| M_Cat a b prev s c prev1 s1 c1 prev2 s2 c2 :
    Matches a prev s c prev1 s1 c1 → Matches b prev1 s1 c1 prev2 s2 c2 →
    Matches (Cat a b) prev s c prev2 s2 c2
| M_AltL a b prev s c prev' s' c' :
    Matches a prev s c prev' s' c' → Matches (Alt a b) prev s c prev' s' c'
| M_AltR a b prev s c prev' s' c' :
    Matches b prev s c prev' s' c' → Matches (Alt a b) prev s c prev' s' c'
| M_Star0 p prev s c : Matches (Star p) prev s c prev s c
| M_StarS p prev a t c prev' s' c' :
    p a = true → Matches (Star p) (Some a) t c prev' s' c' →
    Matches (Star p) prev (String a t) c prev' s' c'
| M_Bnd prev s c : atBoundary prev s = true → Matches Bnd prev s c prev s c
| M_Grp n r prev s c prev' s' c' :
    Matches r prev s c prev' s' c' →
    Matches (Grp n r) prev s c prev' s'
            ((n, take (String.length s - String.length s') s) :: c').

(** The character before the position reached after [pre]. *)
Fixpoint prevOf (prev : option ascii) (pre : string) : option ascii :=
  match pre with
  | EmptyString => prev
  | String a t => prevOf (Some a) t
  end.

Fixpoint AllChars (p : ascii → bool) (s : string) : Prop :=
  match s with
  | EmptyString => True
  | String a t => p a = true ∧ AllChars p t
  end.

(** The shape [YYYY-MM-DD]. *)
Definition DateShaped (d : string) : Prop :=
  ∃ y1 y2 y3 y4 m1 m2 d1 d2 : ascii,
    d = String y1 (String y2 (String y3 (String y4 (String "-"
          (String m1 (String m2 (String "-" (String d1 (String d2 "")))))))))
    ∧ Forall (fun a => isDigit a = true) [y1; y2; y3; y4; m1; m2; d1; d2].

(** The text [q] has, after [pre], the two dates [d1] and [d2] joined
    by [to] or a hyphen, with or without white space around it. *)
Definition RangeAt (q pre d1 d2 : string) : Prop :=
  ∃ ws1 sep ws2 post,
    q = pre +:+ d1 +:+ ws1 +:+ sep +:+ ws2 +:+ d2 +:+ post
    ∧ DateShaped d1 ∧ DateShaped d2
    ∧ AllChars isSpace ws1 ∧ AllChars isSpace ws2
    ∧ (sep = "to" ∨ sep = "-").

(** The clock reads a time of the years 1970 to 9999. *)
Definition PlausibleClock (today : Z) : Prop := 0 ≤ today < 253402300800000.

(** A date as one number, [YYYYMMDD]: for months and days below 100 the
    order of the numbers is the order of the dates. *)
Definition dateKey (ymd : Z * Z * Z) : Z := ymd.1.1 * 10000 + ymd.1.2 * 100 + ymd.2.

(** The check of the days of the 400-year cycle from [doe] days after
    1 March of the year 0 on: the month and the day of the month are in
    range, the day number of the date is the day it came from, and the
    key is larger than the key of the day before. *)
Definition cycleBounds (doe : Z) (t : Z * Z * Z) : bool :=
  (1 <=? t.1.2) && (t.1.2 <=? 12) && (1 <=? t.2) && (t.2 <=? 31)
  && (daysFromCivil t.1.1 t.1.2 t.2 =? doe - 719468).

Fixpoint cycleCheck (fuel : nat) (doe : Z) (prevKey : Z) : bool :=
  match fuel with
  | O => true
  | S fuel' =>
      let t := civilFromDays (doe - 719468) in
      (prevKey <? dateKey t) && cycleBounds doe t && cycleCheck fuel' (doe + 1) (dateKey t)
  end.

(** One cycle and a day. *)
Definition cycleLength : nat := Z.to_nat 146098.

(** The delays that [m] successive retries of one model take, from
    attempt [attempt] on, when [k] draws of the jitter were made
    before. *)
Definition delaysFrom (random : nat → Q) (attempt : Z) (k m : nat) : list Q :=
  (fun i => Gemini.backoff (attempt + Z.of_nat i) (random (k + i)%nat)) <$> List.seq 0 m.

(** A service that is always rate-limited. *)
Definition alwaysLimited : nat → GenRequest → Completion Stream :=
  fun _ _ => Throw rateLimited.

(** The offsets of a zone lie within [bound] of each other. *)
Definition OffsetsWithin (bound : Z) (tz : TimeZone) : Prop :=
  ∀ t t', Z.abs (offsetAtUTC tz t - offsetAtLocal tz t') ≤ bound.

(** None of the expressions matches the text. *)
Definition NoMatch (rs : list re) (q : string) : Prop :=
  Forall (fun r => test r q = false) rs.

(** The days that a relative phrase counts: a week is 7 days, a month
    30 and a year 365. *)
Definition relativeDays (amount : Z) (unit : string) : Z :=
  if startsWith unit "year" then amount * 365
  else if startsWith unit "month" then amount * 30
  else if startsWith unit "week" then amount * 7
  else amount.

(** The time that is [n] days before [t] on the local clock. *)
Definition daysBefore (tz : TimeZone) (n t : Z) : Z :=
  UTC tz (LocalTime tz t - n * msPerDay).

(** The keywords that the classifier tests for each category, and a
    text that mentions one of a list. *)
Definition sleepKeywords : list string :=
  ["sleep"; "rest"; "night"; "bed"; "rem"; "deep"; "awake"].
Definition activityKeywords : list string :=
  ["activity"; "step"; "active"; "exercise"; "workout"; "calories"; "move"].
Definition readinessKeywords : list string :=
  ["readiness"; "recovery"; "ready"; "stress"; "strain"].
Definition heartRateKeywords : list string := ["heart"; "hr"; "bpm"; "pulse"].
Definition Mentions (ks : list string) (q : string) : Prop :=
  ∃ k, k ∈ ks ∧ Substring k q.

(** The shapes of a finished response: a JSON body with one of the
    three statuses, or an event stream of content events with a text
    each, closed by one last event: done, the data that grounded the
    answer, or the failure. *)
Definition ContentEvent (ev : Sse) : Prop := ∃ text, ev = Content text ∧ text ≠ "".
Definition LastEvent (ev : Sse) : Prop :=
  ev = Done ∨ (∃ data, ev = Final (Some data)) ∨ (∃ msg, ev = Failed msg).
Definition WellFormed (r : Response) : Prop :=
  match r with
  | Json status error details =>
      error ≠ ""
      ∧ ((status = 400 ∧ details = None) ∨ (status = 401 ∧ details = None)
         ∨ (status = 500 ∧ ∃ d, details = Some d ∧ d ≠ ""))
  | EventStream events =>
      ∃ contents last,
        events = contents ++ [last] ∧ Forall ContentEvent contents ∧ LastEvent last
        ∧ ((∃ msg, last = Failed msg) → contents ≠ [])
  end.

(** A vendor with three nights of sleep, and a world whose model
    answers and whose vendor has them. *)
Definition sleepVendor : Vendor :=
  mkVendor (fun _ _ => [night1; night2; night3]) (fun _ _ => []) (fun _ _ => [])
           (fun _ _ => mkHeartRate [] [])
           (fun _ => [night1; night2; night3]) (fun _ => []) (fun _ => [])
           (fun _ => mkHeartRate [] []).
Definition sleepWorld : World :=
  mkWorld utcZone noon noon noon unreachable noJson answering halfJitter sleepVendor
          (fun _ => "[...]") (fun _ => "[...]").


(** The dataset that a cache miss fetches. *)
Definition fetched (w : World) (req : Request) (range : DateRange)
    (dataTypes : DataTypeFlags.t) : OuraData.t :=
  if usesCustomRange range
  then getAllOuraDataByDateRange (vendor w) (session_connected req)
         (startDate range) (endDate range)
         (DataTypeFlags.sleep dataTypes) (DataTypeFlags.activity dataTypes)
         (DataTypeFlags.readiness dataTypes) (DataTypeFlags.heartRate dataTypes)
  else getAllOuraData (vendor w) (session_connected req) 7.

(** The day of a reading: the date part of its timestamp, when it has
    a timestamp and the part is not empty; the readings of a day. *)
Definition dayOf (reading : Reading) : option string :=
  match timestamp reading with
  | Some ts => if truthy (beforeChar "T" ts) then Some (beforeChar "T" ts) else None
  | None => None
  end.
Definition onDay (d : string) (readings : list Reading) : list Reading :=
  List.filter (fun reading => bool_decide (dayOf reading = Some d)) readings.

(** A bucket after one more reading, and the empty bucket. *)
Definition push (stats : DailyStat) (reading : Reading) : DailyStat :=
  mkStat (stat_readings stats ++ [reading])
         (if OuraTs.below (bpm reading) (stat_min stats) then Finite (bpm reading)
          else stat_min stats)
         (if OuraTs.above (bpm reading) (stat_max stats) then Finite (bpm reading)
          else stat_max stats)
         (stat_avg stats).
Definition emptyBucket : DailyStat := mkStat [] Infinity NegInfinity 0.
Definition bpmSum (readings : list Reading) : Z :=
  foldl (fun acc r => acc + bpm r) 0 readings.

(** Four readings: two of 31 October, one of 1 November, one without
    a timestamp; and the statistics of the three that have a day. *)
Definition sample3 : Reading := mkReading 57 "rest" (Some "2026-10-31T04:00:00+00:00").
Definition untimed : Reading := mkReading 70 "awake" None.
Definition sampleReadings : list Reading := [sample1; untimed; sample2; sample3].
Definition sampleDailyStats : list (string * DailyStat) :=
  [("2026-10-31", mkStat [sample1; sample3] (Finite 52) (Finite 57) 55);
   ("2026-11-01", mkStat [sample2] (Finite 61) (Finite 61) 61)].

(** A session whose token expired, and a vendor that grants new
    tokens for an hour. *)
Definition staleSession : OuraTs.Session :=
  OuraTs.mkSession (Some "access-1") (Some "refresh-1") (Some 1793620000000).
Definition granting : string → option OuraTs.Tokens :=
  fun _ => Some (OuraTs.mkTokens "access-2" "refresh-2" 3600).
Definition refusing : string → option OuraTs.Tokens := fun _ => None.

(** The local offsets of a zone stay below a day. *)
Definition LocalOffsetsBelowDay (tz : TimeZone) : Prop :=
  ∀ t, Z.abs (offsetAtLocal tz t) < msPerDay.

(** The patterns that the parser tries before the year. *)
Definition beforeYear : list re :=
  [rangeRe; singleDateRe; todayRe; yesterdayRe; relativeRe false;
   phraseRe "this" "week"; phraseRe "last" "week"; phraseRe "this" "month";
   phraseRe "last" "month"; phraseRe "this" "year"; phraseRe "last" "year"].

(** The check of a year's first and last day, and of the days before
    them. *)
Definition sameDate (a b : Z * Z * Z) : bool :=
  (a.1.1 =? b.1.1) && (a.1.2 =? b.1.2) && (a.2 =? b.2).
Definition yearChecked (y : Z) : bool :=
  sameDate (civilFromDays (daysFromCivil y 1 1)) (y, 1, 1)
  && sameDate (civilFromDays (daysFromCivil y 1 1 - 1)) (y - 1, 12, 31)
  && sameDate (civilFromDays (daysFromCivil y 12 1 + 30)) (y, 12, 31)
  && sameDate (civilFromDays (daysFromCivil y 12 1 + 30 - 1)) (y, 12, 30)
  && (0 <=? daysFromCivil y 1 1) && (daysFromCivil y 1 1 <=? 100000)
  && (0 <=? daysFromCivil y 12 1 + 30) && (daysFromCivil y 12 1 + 30 <=? 100000).

(** Central European Time, without its summer time. *)
Definition centralEurope : TimeZone := fixedZone 3600000.

(** * Properties *)

(** ** Strings: substrings and the lexicographic order *)

Lemma startsWith_spec s p : startsWith s p = true ↔ ∃ post, s = p +:+ post.
Proof.
  revert s. induction p as [|b p IH]; intros s; simpl.
  - split; [intros _; by exists s | done].
  - destruct s as [|a s].
    + split; [done | intros [post H]; discriminate].
    + rewrite andb_true_iff, IH. split.
      * intros [Hab [post ->]]. apply Ascii.eqb_eq in Hab as ->. by exists post.
      * intros [post H]. injection H as -> ->. split; [apply Ascii.eqb_refl | by exists post].
Qed.

Lemma includes_spec s k : includes s k = true ↔ Substring k s.
Proof.
  induction s as [|a s IH]; simpl; rewrite orb_true_iff, startsWith_spec.
  - split.
    + intros [[post H] | ?]; [|done]. by exists "", post.
    + intros ([|c pre] & post & H); [left; by exists post | discriminate].
  - rewrite IH. split.
    + intros [[post H] | (pre & post & ->)]; [by exists "", post |].
      by exists (String a pre), post.
    + intros ([|c pre] & post & H); [left; by exists post |].
      right. injection H as -> ->. by exists pre, post.
Qed.

Lemma not_includes s k : ¬ Substring k s ↔ includes s k = false.
Proof. rewrite <- includes_spec. by destruct (includes s k). Qed.

Lemma le_iff a b : le a b = true ↔ (a ≤ b)%string.
Proof. unfold le, String.le. by rewrite Is_true_true. Qed.

Lemma ge_iff a b : ge a b = true ↔ (b ≤ a)%string.
Proof. apply le_iff. Qed.

Lemma gt_iff a b : gt a b = true ↔ ¬ (a ≤ b)%string.
Proof.
  unfold gt, String.le, String.ltb, String.leb.
  rewrite (String.compare_antisym a b).
  destruct (String.compare b a); simpl; split; try done; tauto.
Qed.

Lemma gt_false_iff a b : gt a b = false ↔ (a ≤ b)%string.
Proof.
  rewrite <- not_true_iff_false, gt_iff. split; [|tauto].
  intros H. destruct (decide (a ≤ b)%string); tauto.
Qed.

Lemma lt_iff a b : lt a b = true ↔ ¬ (b ≤ a)%string.
Proof. apply gt_iff. Qed.

Lemma lt_false_iff a b : lt a b = false ↔ (b ≤ a)%string.
Proof. apply gt_false_iff. Qed.

Lemma truthy_iff s : truthy s = true ↔ s ≠ "".
Proof. by destruct s. Qed.

(** A strict comparison gives the weak one the other way round. *)
Lemma not_le_le a b : ¬ (a ≤ b)%string → (b ≤ a)%string.
Proof. intros H. by destruct (total String.le a b). Qed.

(** ** The matcher against the meaning of the expressions *)

Lemma star_sound p k prev s c x :
  star p k prev s c = Some x →
  ∃ prev' s' c', Matches (Star p) prev s c prev' s' c' ∧ k prev' s' c' = Some x.
Proof.
  revert prev. induction s as [|a t IH]; intros prev; simpl.
  - intros H. exists prev, "", c. split; [constructor | done].
  - destruct (p a) eqn:Hp.
    + destruct (star p k (Some a) t c) as [y|] eqn:Hs.
      * intros [= <-]. destruct (IH _ Hs) as (prev' & s' & c' & HM & Hk).
        exists prev', s', c'. split; [by apply M_StarS | done].
      * intros H. exists prev, (String a t), c. split; [constructor | done].
    + intros H. exists prev, (String a t), c. split; [constructor | done].
Qed.

Lemma rmatch_sound r : ∀ k prev s c x,
  rmatch r k prev s c = Some x →
  ∃ prev' s' c', Matches r prev s c prev' s' c' ∧ k prev' s' c' = Some x.
Proof.
  induction r as [|p|a IHa b IHb|a IHa b IHb|p| |n r IH]; intros k prev s c x; simpl.
  - intros H. exists prev, s, c. split; [constructor | done].
  - destruct s as [|a t]; [done|]. destruct (p a) eqn:Hp; [|done].
    intros H. exists (Some a), t, c. split; [by constructor | done].
  - intros H. destruct (IHa _ _ _ _ _ H) as (prev1 & s1 & c1 & Ha & H1).
    destruct (IHb _ _ _ _ _ H1) as (prev2 & s2 & c2 & Hb & H2).
    exists prev2, s2, c2. split; [by eapply M_Cat | done].
  - destruct (rmatch a k prev s c) as [y|] eqn:Ha.
    + intros [= <-]. destruct (IHa _ _ _ _ _ Ha) as (prev' & s' & c' & HM & Hk).
      exists prev', s', c'. split; [by apply M_AltL | done].
    + intros Hb. destruct (IHb _ _ _ _ _ Hb) as (prev' & s' & c' & HM & Hk).
      exists prev', s', c'. split; [by apply M_AltR | done].
  - apply star_sound.
  - destruct (atBoundary prev s) eqn:Hb; [|done].
    intros H. exists prev, s, c. split; [by constructor | done].
  - intros H. destruct (IH _ _ _ _ _ H) as (prev' & s' & c' & HM & Hk).
    eexists prev', s', _. split; [by apply M_Grp | done].
Qed.

Lemma rmatch_complete r prev s c prev' s' c' :
  Matches r prev s c prev' s' c' →
  ∀ k, is_Some (k prev' s' c') → is_Some (rmatch r k prev s c).
Proof.
  induction 1 as [prev s c|p prev a t c Hp|a b prev s c prev1 s1 c1 prev2 s2 c2 _ IHa _ IHb
                 |a b prev s c prev' s' c' _ IH|a b prev s c prev' s' c' _ IH
                 |p prev s c|p prev a t c prev' s' c' Hp _ IH|prev s c Hb
                 |n r prev s c prev' s' c' _ IH]; intros k Hk; simpl.
  - done.
  - by rewrite Hp.
  - apply IHa, IHb, Hk.
  - destruct (IH k Hk) as [y Hy]. by rewrite Hy.
  - destruct (rmatch a k prev s c); [done | by apply IH].
  - destruct s as [|a t]; simpl; [done|].
    destruct (p a); [|done]. by destruct (star p k (Some a) t c).
  - rewrite Hp. destruct (IH k Hk) as [y Hy]. simpl in Hy. by rewrite Hy.
  - by rewrite Hb.
  - by apply IH.
Qed.

Lemma prevOf_app prev pre a :
  prevOf prev (pre +:+ String a "") = Some a.
Proof. revert prev. induction pre as [|b pre IH]; intros prev; [done | apply IH]. Qed.

(** [searchFrom] finds the leftmost position with a match. *)
Lemma searchFrom_Some r prev s c :
  searchFrom r prev s = Some c →
  ∃ pre post,
    s = pre +:+ post
    ∧ rmatch r accept (prevOf prev pre) post [] = Some c
    ∧ ∀ pre' post', s = pre' +:+ post' → (String.length pre' < String.length pre)%nat →
                    rmatch r accept (prevOf prev pre') post' [] = None.
Proof.
  revert prev. induction s as [|a t IH]; intros prev; simpl.
  - destruct (rmatch r accept prev "" []) as [y|] eqn:Hm; [|done].
    intros [= <-]. exists "", "". split_and!; [done..|].
    intros pre' post' _ Hlen. simpl in Hlen. lia.
  - destruct (rmatch r accept prev (String a t) []) as [y|] eqn:Hm.
    + intros [= <-]. exists "", (String a t). split_and!; [done..|].
      intros pre' post' _ Hlen. simpl in Hlen. lia.
    + intros Hs. destruct (IH _ Hs) as (pre & post & -> & Hpost & Hleft).
      exists (String a pre), post. split_and!; [done..|].
      intros [|b pre'] post' Heq Hlen.
      * change ("" +:+ post') with post' in Heq. by subst post'.
      * change (String b pre' +:+ post') with (String b (pre' +:+ post')) in Heq.
        injection Heq as <- Heq. apply Hleft; [done | simpl in Hlen; lia].
Qed.

Lemma searchFrom_complete r prev pre post :
  is_Some (rmatch r accept (prevOf prev pre) post []) →
  is_Some (searchFrom r prev (pre +:+ post)).
Proof.
  revert prev. induction pre as [|a pre IH]; intros prev Hm.
  - change ("" +:+ post) with post. simpl in Hm. destruct Hm as [y Hy].
    destruct post; simpl; by rewrite Hy.
  - change (String a pre +:+ post) with (String a (pre +:+ post)). simpl.
    destruct (rmatch r accept prev _ []); [done | by apply IH].
Qed.

(** ** The two-date pattern *)

Lemma length_app_string a b :
  String.length (a +:+ b) = (String.length a + String.length b)%nat.
Proof. induction a as [|x a IH]; [done|]. simpl. by rewrite <- IH. Qed.

Lemma app_assoc_string a b c : (a +:+ b) +:+ c = a +:+ b +:+ c.
Proof. induction a as [|x a IH]; [done|]. simpl. by rewrite IH. Qed.

Lemma take_app_string d rest :
  take (String.length (d +:+ rest) - String.length rest) (d +:+ rest) = d.
Proof.
  rewrite length_app_string.
  replace (String.length d + String.length rest - String.length rest)%nat
    with (String.length d) by lia.
  induction d as [|x d IH]; [by destruct rest|]. simpl. by rewrite IH.
Qed.

Lemma Matches_Star_inv p prev s c prev' s' c' :
  Matches (Star p) prev s c prev' s' c' →
  ∃ ws, AllChars p ws ∧ s = ws +:+ s' ∧ c' = c.
Proof.
  remember (Star p) as r eqn:Hr. induction 1; try discriminate; injection Hr as ->.
  - by exists "".
  - destruct IHMatches as (ws & Hws & -> & ->); [done|].
    by exists (String a ws).
Qed.

Lemma Matches_Star_intro p prev ws rest c :
  AllChars p ws → Matches (Star p) prev (ws +:+ rest) c (prevOf prev ws) rest c.
Proof.
  revert prev. induction ws as [|a ws IH]; intros prev H.
  - constructor.
  - destruct H as [Ha Hws]. apply M_StarS; [done | by apply IH].
Qed.

Ltac invert_matches :=
  repeat match goal with
    | H : Matches (Cat _ _) _ _ _ _ _ _ |- _ => inversion H; subst; clear H
    | H : Matches (Cls _) _ _ _ _ _ _ |- _ => inversion H; subst; clear H
    | H : Matches (Grp _ _) _ _ _ _ _ _ |- _ => inversion H; subst; clear H
    | H : Ascii.eqb _ _ = true |- _ => apply Ascii.eqb_eq in H; subst
    end.

Lemma Matches_isoDate_inv prev s c prev' s' c' :
  Matches isoDateRe prev s c prev' s' c' →
  ∃ d, DateShaped d ∧ s = d +:+ s' ∧ c' = c.
Proof.
  unfold isoDateRe, chr. cbn [seq rep]. intros H. invert_matches.
  refine (ex_intro _
            (String _ (String _ (String _ (String _ (String "-"
               (String _ (String _ (String "-" (String _ (String _ ""))))))))))
            (conj _ (conj eq_refl eq_refl))).
  do 8 eexists. split; [reflexivity|]. repeat constructor; assumption.
Qed.

Lemma Matches_isoDate_intro prev d rest c :
  DateShaped d → Matches isoDateRe prev (d +:+ rest) c (prevOf prev d) rest c.
Proof.
  intros (y1 & y2 & y3 & y4 & m1 & m2 & d1 & d2 & -> & Hd).
  repeat match goal with H : Forall _ (_ :: _) |- _ => apply Forall_cons in H as [? H] end.
  unfold isoDateRe, chr. cbn [seq rep].
  simpl.
  repeat first [ eapply M_Cat | apply M_Cls; first [assumption | reflexivity] ].
Qed.

Lemma Matches_separator_inv prev s c prev' s' c' :
  Matches (Alt (lit false "to") (chr false "-")) prev s c prev' s' c' →
  ∃ sep, (sep = "to" ∨ sep = "-") ∧ s = sep +:+ s' ∧ c' = c.
Proof.
  cbn [lit]. unfold chr. intros H. inversion H; subst; invert_matches.
  - exists "to". by split_and!; [left|..].
  - exists "-". by split_and!; [right|..].
Qed.

Lemma rangeRe_sound prev s c :
  rmatch rangeRe accept prev s [] = Some c →
  ∃ d1 d2, RangeAt s "" d1 d2 ∧ group 1 c = d1 ∧ group 3 c = d2.
Proof.
  intros H. apply rmatch_sound in H as (prev' & s' & c' & HM & [= <-]).
  unfold rangeRe in HM. cbn [seq] in HM.
  inversion HM as [| |? ? ? ? ? ? s1 ? ? ? ? H1 HM1| | | | | |]; subst; clear HM.
  inversion H1 as [| | | | | | | |? ? ? ? ? ? ? ? Hd1]; subst; clear H1.
  apply Matches_isoDate_inv in Hd1 as (d1 & Hshape1 & -> & ->).
  inversion HM1 as [| |? ? ? ? ? ? s2 ? ? ? ? H2 HM2| | | | | |]; subst; clear HM1.
  apply Matches_Star_inv in H2 as (ws1 & Hws1 & -> & ->).
  inversion HM2 as [| |? ? ? ? ? ? s3 ? ? ? ? H3 HM3| | | | | |]; subst; clear HM2.
  inversion H3 as [| | | | | | | |? ? ? ? ? ? ? ? Hsep]; subst; clear H3.
  apply Matches_separator_inv in Hsep as (sep & Hsep & -> & ->).
  inversion HM3 as [| |? ? ? ? ? ? s4 ? ? ? ? H4 HM4| | | | | |]; subst; clear HM3.
  apply Matches_Star_inv in H4 as (ws2 & Hws2 & -> & ->).
  inversion HM4 as [| | | | | | | |? ? ? ? ? ? ? ? Hd2]; subst; clear HM4.
  apply Matches_isoDate_inv in Hd2 as (d2 & Hshape2 & -> & ->).
  exists d1, d2. split; [|split].
  - exists ws1, sep, ws2, s'. by split_and!.
  - cbn. apply take_app_string.
  - cbn. apply take_app_string.
Qed.

Lemma rangeRe_complete prev s d1 d2 :
  RangeAt s "" d1 d2 → is_Some (rmatch rangeRe accept prev s []).
Proof.
  intros (ws1 & sep & ws2 & post & -> & Hd1 & Hd2 & Hws1 & Hws2 & Hsep).
  change ("" +:+ ?x) with x.
  destruct Hsep as [-> | ->];
    (eapply rmatch_complete; [|by eexists]);
    unfold rangeRe; cbn [seq lit]; unfold chr at 1 2 3.
  - eapply M_Cat; [by apply M_Grp, Matches_isoDate_intro|].
    eapply M_Cat; [by apply Matches_Star_intro|].
    eapply M_Cat; [apply M_Grp, M_AltL; eapply M_Cat; by apply M_Cls|].
    eapply M_Cat; [by apply Matches_Star_intro|].
    by apply M_Grp, Matches_isoDate_intro.
  - eapply M_Cat; [by apply M_Grp, Matches_isoDate_intro|].
    eapply M_Cat; [by apply Matches_Star_intro|].
    eapply M_Cat; [by apply M_Grp, M_AltR, M_Cls|].
    eapply M_Cat; [by apply Matches_Star_intro|].
    by apply M_Grp, Matches_isoDate_intro.
Qed.

(** ** The relevance classifier *)

Lemma codeKeywords_spec k : k ∈ codeKeywords → k ∈ specKeywords.
Proof.
  revert k. apply Forall_forall. unfold codeKeywords, specKeywords; simpl.
  repeat (apply Forall_cons; split; [repeat constructor|]). constructor.
Qed.

(** Without any of the tested keywords the default applies. *)
Lemma detect_default query :
  (∀ k, k ∈ codeKeywords → includes (toLowerCase query) k = false) →
  detectRelevantDataTypes query = DataTypeFlags.mk true true true false.
Proof.
  intros Hk. unfold detectRelevantDataTypes.
  rewrite !Hk by (unfold codeKeywords; repeat constructor). reflexivity.
Qed.

(** A query that mentions a keyword of a category gets that category. *)
Lemma detect_rest_is_sleep query :
  Substring "rest" (toLowerCase query) →
  DataTypeFlags.sleep (detectRelevantDataTypes query) = true.
Proof.
  intros H%includes_spec. unfold detectRelevantDataTypes; simpl.
  rewrite H. by rewrite !orb_true_r.
Qed.

(** C3, as the specification states it, does not hold: the classifier
    does not answer sleep=false for the query about the resting heart
    rate. *)
Lemma C3_resting_heart_rate_sleep_not_false :
  ¬ (detectRelevantDataTypes "What's my resting heart rate?"
     = DataTypeFlags.mk false false false true).
Proof. vm_compute. discriminate. Qed.

(** C3, amended: for the query "What's my resting heart rate?" the
    classifier returns heartRate=true and also sleep=true, the word
    "resting" containing the sleep keyword "rest"; activity and
    readiness are false. *)
Theorem C3_resting_heart_rate :
  detectRelevantDataTypes "What's my resting heart rate?"
  = DataTypeFlags.mk true false false true.
Proof. vm_compute. reflexivity. Qed.

(** C6: for every query in which none of the keywords of the four
    categories occurs, whatever the case of its letters, the classifier
    returns sleep=true, activity=true, readiness=true and
    heartRate=false. *)
Theorem C6_no_keyword_default query :
  (∀ k, k ∈ specKeywords → ¬ Substring k (toLowerCase query)) →
  detectRelevantDataTypes query = DataTypeFlags.mk true true true false.
Proof.
  intros H. apply detect_default. intros k Hk.
  apply not_includes, H, codeKeywords_spec, Hk.
Qed.

Lemma C6_no_keyword_default_witness :
  (∀ k, k ∈ specKeywords → ¬ Substring k (toLowerCase "How am I doing?"))
  ∧ detectRelevantDataTypes "How am I doing?" = DataTypeFlags.mk true true true false.
Proof.
  assert (H : ∀ k, k ∈ specKeywords → ¬ Substring k (toLowerCase "How am I doing?")).
  { intros k Hk. apply not_includes. revert k Hk. apply Forall_forall.
    unfold specKeywords; simpl. repeat constructor. }
  split; [exact H | exact (C6_no_keyword_default "How am I doing?" H)].
Defined.

(** The earlier handler differs on the default: it leaves activity out. *)
Example legacy_default_excludes_activity :
  LegacyRoutes.includedTypes "How am I doing?" = DataTypeFlags.mk true false true false.
Proof. vm_compute. reflexivity. Qed.

(** ** The session cache *)

Section CacheProperties.
Import OuraCache.

Lemma within_iff s e d : within s e d = true ↔ Within s e d.
Proof. unfold within, Within. by rewrite andb_true_iff, ge_iff, le_iff. Qed.

Lemma elem_of_filterByDate s e items x :
  x ∈ filterByDate s e items ↔ x ∈ items ∧ Within s e (day x).
Proof.
  unfold filterByDate. by rewrite !list_elem_of_In, filter_In, within_iff.
Qed.

Lemma elem_of_filterHeartRate_readings s e hr r :
  r ∈ readings (filterHeartRate s e hr) ↔ r ∈ readings hr ∧ ReadingWithin s e r.
Proof.
  simpl. rewrite list_elem_of_In, filter_In, <- list_elem_of_In.
  unfold readingDay, ReadingWithin. destruct (timestamp r) as [ts|]; simpl.
  - rewrite within_iff. split; [intros [? ?]; eauto|].
    intros [? (ts' & [= <-] & ?)]. done.
  - split; [intros [_ ?]; done | intros [_ (ts' & ? & _)]; done].
Qed.

Lemma elem_of_filterHeartRate_stats s e hr k v :
  (k, v) ∈ dailyStats (filterHeartRate s e hr) ↔ (k, v) ∈ dailyStats hr ∧ Within s e k.
Proof. simpl. by rewrite list_elem_of_In, filter_In, <- list_elem_of_In, within_iff. Qed.

Lemma List_filter_sublist {A} (f : A → bool) (l : list A) : sublist (List.filter f l) l.
Proof.
  induction l as [|a l IH]; simpl; [constructor|].
  destruct (f a); by constructor.
Qed.

Lemma matches_true_iff entry s e needed :
  matches entry s e needed = true ↔
    CacheEntry.startDate entry ≠ "" ∧ CacheEntry.endDate entry ≠ ""
    ∧ (CacheEntry.startDate entry ≤ s)%string ∧ (e ≤ CacheEntry.endDate entry)%string
    ∧ TypesCovered needed (CacheEntry.includedTypes entry).
Proof.
  unfold matches, TypesCovered.
  rewrite <- !truthy_iff, <- gt_false_iff, <- lt_false_iff.
  destruct (truthy (CacheEntry.startDate entry)), (truthy (CacheEntry.endDate entry));
    simpl; try (split; [discriminate | tauto]).
  destruct (gt (CacheEntry.startDate entry) s), (lt (CacheEntry.endDate entry) e);
    simpl; try (split; [discriminate | intros (_ & _ & ? & ? & _); discriminate]).
  destruct needed as [[] [] [] []], (CacheEntry.includedTypes entry) as [[] [] [] []];
    simpl; split; try discriminate; try tauto;
    intros (_ & _ & _ & _ & ? & ? & ? & ?); auto; discriminate.
Qed.

(** A fresh entry is returned and the cache is left as it was. *)
Lemma get_fresh now sid c entry :
  cache c !! sid = Some entry →
  now - CacheEntry.timestamp entry ≤ TTL c →
  get now sid c = (Some entry, c).
Proof.
  intros H Hfresh. unfold get, expired. rewrite H.
  destruct (Z.ltb_spec (TTL c) (now - CacheEntry.timestamp entry)); [lia | done].
Qed.

(** C9: [get(sessionId)] returns none when the session has no entry or
    when now - entry.timestamp > TTL; after the read the session has
    no entry in the cache map (the expired one is deleted by the read
    itself) and the entries of the other sessions are untouched. *)
Theorem C9_get_absent_or_expired now sid c :
  (cache c !! sid = None
   ∨ ∃ entry, cache c !! sid = Some entry ∧ now - CacheEntry.timestamp entry > TTL c) →
  (get now sid c).1 = None
  ∧ cache (get now sid c).2 !! sid = None
  ∧ (∀ k, k ≠ sid → cache (get now sid c).2 !! k = cache c !! k)
  ∧ TTL (get now sid c).2 = TTL c.
Proof.
  unfold get, expired. intros [H | (entry & H & Hexp)]; rewrite H; simpl.
  - done.
  - destruct (Z.ltb_spec (TTL c) (now - CacheEntry.timestamp entry)); [|lia]. simpl.
    split; [done|]. split; [apply lookup_delete_eq|].
    split; [|done]. intros k Hk. by apply lookup_delete_ne.
Qed.

(** An ISO date string is not empty. *)
Lemma DateShaped_nonempty d : DateShaped d → d ≠ "".
Proof. by intros (y1 & y2 & y3 & y4 & m1 & m2 & d1 & d2 & -> & _). Qed.

(** C4: for an entry whose two dates are present, as ISO date strings
    are, [matches(entry, start, end, neededTypes)] is true iff
    entry.startDate <= start and entry.endDate >= end in the
    lexicographic order and every flag set in neededTypes is set in
    the entry's included types; and for every range [s, e],
    [filterData(entry, s, e)] keeps, in their order, exactly the daily
    records whose day, the readings whose timestamp's date part, and
    the daily statistics whose key lie in [s, e], both ends
    included. *)
Theorem C4_matches_and_filterData entry s e needed :
  CacheEntry.startDate entry ≠ "" →
  CacheEntry.endDate entry ≠ "" →
  (matches entry s e needed = true ↔
     (CacheEntry.startDate entry ≤ s)%string ∧ (e ≤ CacheEntry.endDate entry)%string
     ∧ TypesCovered needed (CacheEntry.includedTypes entry))
  ∧ (∀ x, x ∈ OuraData.sleep (filterData entry s e)
          ↔ x ∈ OuraData.sleep (CacheEntry.data entry) ∧ Within s e (day x))
  ∧ (∀ x, x ∈ OuraData.activity (filterData entry s e)
          ↔ x ∈ OuraData.activity (CacheEntry.data entry) ∧ Within s e (day x))
  ∧ (∀ x, x ∈ OuraData.readiness (filterData entry s e)
          ↔ x ∈ OuraData.readiness (CacheEntry.data entry) ∧ Within s e (day x))
  ∧ (∀ r, r ∈ readings (OuraData.heartRate (filterData entry s e))
          ↔ r ∈ readings (OuraData.heartRate (CacheEntry.data entry)) ∧ ReadingWithin s e r)
  ∧ (∀ k v, (k, v) ∈ dailyStats (OuraData.heartRate (filterData entry s e))
            ↔ (k, v) ∈ dailyStats (OuraData.heartRate (CacheEntry.data entry)) ∧ Within s e k)
  ∧ sublist (OuraData.sleep (filterData entry s e)) (OuraData.sleep (CacheEntry.data entry))
  ∧ sublist (OuraData.activity (filterData entry s e))
            (OuraData.activity (CacheEntry.data entry))
  ∧ sublist (OuraData.readiness (filterData entry s e))
            (OuraData.readiness (CacheEntry.data entry))
  ∧ sublist (readings (OuraData.heartRate (filterData entry s e)))
            (readings (OuraData.heartRate (CacheEntry.data entry)))
  ∧ sublist (dailyStats (OuraData.heartRate (filterData entry s e)))
            (dailyStats (OuraData.heartRate (CacheEntry.data entry))).
Proof.
  intros Hstart Hend.
  split_and!;
    [ rewrite matches_true_iff; tauto
    | intros x; apply elem_of_filterByDate
    | intros x; apply elem_of_filterByDate
    | intros x; apply elem_of_filterByDate
    | intros r; apply elem_of_filterHeartRate_readings
    | intros k v; apply elem_of_filterHeartRate_stats
    | apply List_filter_sublist .. ].
Qed.

End CacheProperties.

Lemma C9_get_absent_or_expired_witness :
  (OuraCache.get (1793620800000 + 3600001) "s1" sampleCache).1 = None
  ∧ OuraCache.cache (OuraCache.get (1793620800000 + 3600001) "s1" sampleCache).2 !! "s1" = None.
Proof.
  assert (H : OuraCache.cache sampleCache !! "s1" = None
              ∨ ∃ entry, OuraCache.cache sampleCache !! "s1" = Some entry
                         ∧ 1793620800000 + 3600001 - CacheEntry.timestamp entry
                           > OuraCache.TTL sampleCache).
  { right. exists sampleEntry. split; [reflexivity | vm_compute; reflexivity]. }
  destruct (C9_get_absent_or_expired (1793620800000 + 3600001) "s1" sampleCache H)
    as (H1 & H2 & _).
  exact (conj H1 H2).
Defined.

(** One second earlier the entry is still served. *)
Example get_at_ttl :
  OuraCache.get (1793620800000 + 3600000) "s1" sampleCache = (Some sampleEntry, sampleCache).
Proof. apply get_fresh; [reflexivity | by vm_compute]. Qed.

(** The sample entry covers the last days of October for every
    category, and the filter keeps the two nights of the range. *)
Lemma C4_matches_and_filterData_witness :
  (OuraCache.matches sampleEntry "2026-10-30" "2026-10-31" allTypes = true ↔
     (CacheEntry.startDate sampleEntry ≤ "2026-10-30")%string
     ∧ ("2026-10-31" ≤ CacheEntry.endDate sampleEntry)%string
     ∧ TypesCovered allTypes (CacheEntry.includedTypes sampleEntry))
  ∧ (∀ x, x ∈ OuraData.sleep (OuraCache.filterData sampleEntry "2026-10-30" "2026-10-31")
          ↔ x ∈ OuraData.sleep (CacheEntry.data sampleEntry)
            ∧ Within "2026-10-30" "2026-10-31" (day x)).
Proof.
  destruct (C4_matches_and_filterData sampleEntry "2026-10-30" "2026-10-31" allTypes)
    as (Hmatches & Hsleep & _); [discriminate | discriminate |].
  exact (conj Hmatches Hsleep).
Defined.

(** The guard of [matches] on the dates: an entry without a start date
    is refused, whatever is asked for. *)
Example matches_refuses_undated_entry s e needed :
  OuraCache.matches undatedEntry s e needed = false.
Proof. reflexivity. Qed.

Example matches_sample :
  OuraCache.matches sampleEntry "2026-10-30" "2026-10-31" allTypes = true
  ∧ OuraData.sleep (OuraCache.filterData sampleEntry "2026-10-30" "2026-10-31")
    = [night1; night2].
Proof. by vm_compute. Qed.

(** ** Retries and model fallback *)

Section RetryProperties.
Import Gemini.
Variable gen : nat → GenRequest → Completion Stream.
Variable random : nat → Q.

(** One turn of the inner loop. *)
Lemma attempts_step model contents maxRetries fuel attempt st :
  attempt < maxRetries →
  attempts gen random model contents maxRetries (S fuel) attempt st =
    let request := requestTo model contents in
    let st1 := mkState (lastError st) (calls st ++ [request]) (delays st) in
    match gen (length (calls st)) request with
    | Return stream => (Got stream, st1)
    | Throw error =>
        let st2 := mkState (Some error) (calls st1) (delays st1) in
        if is429 error && (attempt <? maxRetries - 1) then
          attempts gen random model contents maxRetries fuel (attempt + 1)
            (mkState (Some error) (calls st1)
               (delays st1 ++ [backoff attempt (random (length (delays st1)))]))
        else if is429 error then (Exhausted, st2) else (Aborted error, st2)
    end.
Proof.
  intros Hlt. simpl. destruct (Z.ltb_spec attempt maxRetries); [|lia]. simpl.
  unfold requestTo. destruct (gen _ _); reflexivity.
Qed.

Local Arguments attempts : simpl never.

(** A rate-limit error with attempts left: wait, then ask the same
    model again. *)
Lemma attempts_retry model contents maxRetries fuel attempt st error :
  attempt < maxRetries - 1 →
  gen (length (calls st)) (requestTo model contents) = Throw error →
  is429 error = true →
  attempts gen random model contents maxRetries (S fuel) attempt st =
    attempts gen random model contents maxRetries fuel (attempt + 1)
      (mkState (Some error) (calls st ++ [requestTo model contents])
         (delays st ++ [backoff attempt (random (length (delays st)))])).
Proof.
  intros Hlt Hgen H429. rewrite attempts_step by lia. simpl. rewrite Hgen, H429.
  destruct (Z.ltb_spec attempt (maxRetries - 1)); [reflexivity | lia].
Qed.

(** A rate-limit error on the last attempt: the model is given up. *)
Lemma attempts_exhausted model contents maxRetries fuel attempt st error :
  attempt = maxRetries - 1 →
  gen (length (calls st)) (requestTo model contents) = Throw error →
  is429 error = true →
  attempts gen random model contents maxRetries (S fuel) attempt st =
    (Exhausted, mkState (Some error) (calls st ++ [requestTo model contents]) (delays st)).
Proof.
  intros Hlast Hgen H429. rewrite attempts_step by lia. simpl. rewrite Hgen, H429.
  destruct (Z.ltb_spec attempt (maxRetries - 1)); [lia | reflexivity].
Qed.

Lemma attempts_success model contents maxRetries fuel attempt st stream :
  attempt < maxRetries →
  gen (length (calls st)) (requestTo model contents) = Return stream →
  attempts gen random model contents maxRetries (S fuel) attempt st =
    (Got stream, mkState (lastError st) (calls st ++ [requestTo model contents]) (delays st)).
Proof. intros Hlt Hgen. rewrite attempts_step by lia. simpl. by rewrite Hgen. Qed.

(** Another error ends the whole call at once. *)
Lemma attempts_abort model contents maxRetries fuel attempt st error :
  attempt < maxRetries →
  gen (length (calls st)) (requestTo model contents) = Throw error →
  is429 error = false →
  attempts gen random model contents maxRetries (S fuel) attempt st =
    (Aborted error,
     mkState (Some error) (calls st ++ [requestTo model contents]) (delays st)).
Proof. intros Hlt Hgen H429. rewrite attempts_step by lia. simpl. by rewrite Hgen, H429. Qed.

(** The delay is [2^attempt * 1000] plus a jitter below one second. *)
Lemma backoff_bounds attempt r :
  (0 <= r)%Q → (r < 1)%Q →
  (inject_Z (2 ^ attempt * 1000) <= backoff attempt r)%Q
  ∧ (backoff attempt r < inject_Z (2 ^ attempt * 1000) + 1000)%Q.
Proof.
  intros H0 H1. unfold backoff. split.
  - rewrite <- (Qplus_0_r (inject_Z _)) at 1. apply Qplus_le_r.
    apply Qmult_le_0_compat; [done | discriminate].
  - apply Qplus_lt_r. rewrite <- (Qmult_1_l 1000) at 2.
    apply Qmult_lt_compat_r; [reflexivity | done].
Qed.

(** C1, amended: if [maxRetries] is at least 3 and the primary model
    fails with a rate-limit error exactly twice and then succeeds,
    [generateWithRetry] makes three calls, all to the primary model,
    waits exactly twice between them, for 2^0 * 1000 ms and
    2^1 * 1000 ms plus a jitter below 1000 ms each, and returns the
    stream of the third call. *)
Theorem C1_two_rate_limits_then_success contents maxRetries e0 e1 stream :
  3 ≤ maxRetries →
  (∀ k, (0 <= random k)%Q ∧ (random k < 1)%Q) →
  gen 0 (requestTo primaryModel contents) = Throw e0 → is429 e0 = true →
  gen 1 (requestTo primaryModel contents) = Throw e1 → is429 e1 = true →
  gen 2 (requestTo primaryModel contents) = Return stream →
  let out := generateWithRetry gen random contents maxRetries in
  out.1 = Return stream
  ∧ calls out.2 = [requestTo primaryModel contents; requestTo primaryModel contents;
                   requestTo primaryModel contents]
  ∧ delays out.2 = [backoff 0 (random 0); backoff 1 (random 1)]
  ∧ (inject_Z 1000 <= backoff 0 (random 0))%Q ∧ (backoff 0 (random 0) < inject_Z 1000 + 1000)%Q
  ∧ (inject_Z 2000 <= backoff 1 (random 1))%Q ∧ (backoff 1 (random 1) < inject_Z 2000 + 1000)%Q.
Proof.
  intros Hmax Hrandom H0 He0 H1 He1 H2 out.
  assert (Hout : out = (Return stream,
                        mkState (Some e1)
                          [requestTo primaryModel contents; requestTo primaryModel contents;
                           requestTo primaryModel contents]
                          [backoff 0 (random 0); backoff 1 (random 1)])).
  { subst out. unfold generateWithRetry, MODELS. cbn [tryModels].
    destruct (Z.to_nat maxRetries) as [|[|[|fuel]]] eqn:Hfuel; try lia.
    fold primaryModel.
    rewrite (attempts_retry _ _ _ _ _ _ e0) by (done || lia). simpl.
    rewrite (attempts_retry _ _ _ _ _ _ e1) by (done || lia). simpl.
    rewrite (attempts_success _ _ _ _ _ _ stream) by (done || lia). reflexivity. }
  rewrite Hout. simpl.
  destruct (backoff_bounds 0 (random 0)) as [? ?]; [apply Hrandom..|].
  destruct (backoff_bounds 1 (random 1)) as [? ?]; [apply Hrandom..|].
  done.
Qed.

(** With the default budget of two attempts the second rate-limit
    error exhausts the primary model: one wait, and the third call goes
    to the next model of the list. *)
Lemma default_budget_falls_back contents e0 e1 stream :
  gen 0 (requestTo primaryModel contents) = Throw e0 → is429 e0 = true →
  gen 1 (requestTo primaryModel contents) = Throw e1 → is429 e1 = true →
  gen 2 (requestTo fallbackModel contents) = Return stream →
  generateWithRetry gen random contents defaultMaxRetries
  = (Return stream,
     mkState (Some e1)
       [requestTo primaryModel contents; requestTo primaryModel contents;
        requestTo fallbackModel contents]
       [backoff 0 (random 0)]).
Proof.
  intros H0 He0 H1 He1 H2. unfold generateWithRetry, MODELS, defaultMaxRetries.
  cbn [tryModels]. change (Z.to_nat 2) with 2%nat. fold primaryModel fallbackModel.
  rewrite (attempts_retry _ _ _ _ _ _ e0) by (done || lia). simpl.
  rewrite (attempts_exhausted _ _ _ _ _ _ e1) by (done || lia). simpl.
  rewrite (attempts_success _ _ _ _ _ _ stream) by (done || lia). reflexivity.
Qed.

End RetryProperties.

(** C1, as the specification states it, does not hold for the retry
    budget the code runs with: the primary model is rate-limited twice
    and would succeed on a third call, yet one delay is observed and the
    stream is that of the fallback model. *)
Lemma C1_default_budget_one_delay_and_fallback :
  let contents := Prompt "How did I sleep?" in
  let out := Gemini.generateWithRetry twiceLimited halfJitter contents
               Gemini.defaultMaxRetries in
  twiceLimited 0 (requestTo primaryModel contents) = Throw rateLimited
  ∧ twiceLimited 1 (requestTo primaryModel contents) = Throw rateLimited
  ∧ Gemini.is429 rateLimited = true
  ∧ twiceLimited 2 (requestTo primaryModel contents) = Return (answerOf primaryModel)
  ∧ ¬ (length (Gemini.delays out.2) = 2%nat ∧ out.1 = Return (answerOf primaryModel)).
Proof.
  split_and!; try reflexivity.
  intros [Hlen _]. vm_compute in Hlen. discriminate.
Qed.

Lemma C1_two_rate_limits_then_success_witness :
  let contents := Prompt "How did I sleep?" in
  let out := Gemini.generateWithRetry twiceLimited halfJitter contents 3 in
  out.1 = Return (answerOf primaryModel)
  ∧ Gemini.delays out.2 = [Gemini.backoff 0 (1 # 2); Gemini.backoff 1 (1 # 2)].
Proof.
  intros contents out.
  destruct (C1_two_rate_limits_then_success twiceLimited halfJitter contents 3
              rateLimited rateLimited (answerOf primaryModel))
    as (H1 & _ & H2 & _); try reflexivity; try lia.
  - intros k. split; [discriminate | reflexivity].
  - exact (conj H1 H2).
Defined.

(** ** The query handler *)

Section HandlerProperties.
Variable w : World.

Lemma noDataMsg_readable dateRange : Substring "I couldn't find any" (noDataMsg dateRange).
Proof.
  unfold noDataMsg. destruct (usesCustomRange dateRange).
  - by eexists "", _.
  - by eexists "", _.
Qed.

Lemma hasData_false ouraData :
  hasData ouraData = false ↔
    OuraData.sleep ouraData = [] ∧ OuraData.activity ouraData = []
    ∧ OuraData.readiness ouraData = []
    ∧ readings (OuraData.heartRate ouraData) = [].
Proof.
  unfold hasData.
  destruct (OuraData.sleep ouraData), (OuraData.activity ouraData),
    (OuraData.readiness ouraData), (readings (OuraData.heartRate ouraData));
    simpl; split; try done; intros (? & ? & ? & ?); done.
Qed.

(** A fresh entry and a default range: the entry's data, its range,
    no fetch and no write to the cache. *)
Lemma resolveData_follow_up req queryCache entry weekRange dataTypes :
  OuraCache.cache queryCache !! sessionID req = Some entry →
  clock_get w - CacheEntry.timestamp entry ≤ OuraCache.TTL queryCache →
  usesCustomRange weekRange = false →
  resolveData w req weekRange dataTypes queryCache
  = (mkRange (CacheEntry.startDate entry) (CacheEntry.endDate entry) true,
     CacheEntry.data entry, queryCache).
Proof.
  intros Hentry Hfresh Hdefault. unfold resolveData.
  rewrite (get_fresh _ _ _ entry) by done. unfold fromCache. by rewrite Hdefault.
Qed.

(** C7: for every session that holds an unexpired cache entry, if the
    range resolved for the query is the non-custom default, the handler
    takes the entry's data as the grounding dataset and the entry's
    range, with usesCustomRange true, as the range, whatever the
    entry's included types and the types the query needs: nothing is
    fetched and the cache is left as it was. *)
Theorem C7_follow_up_reuses_cached_entry req queryCache query entry weekRange :
  safeParse req = inr (mkParsed query) →
  session_connected req = true →
  OuraCache.cache queryCache !! sessionID req = Some entry →
  clock_get w - CacheEntry.timestamp entry ≤ OuraCache.TTL queryCache →
  extractDateRange (tz w) (ai_extract w) (JSON_parse w) query (clock_today w)
    = Return weekRange →
  usesCustomRange weekRange = false →
  handleQuery w req queryCache
  = (respond w query None
       (mkRange (CacheEntry.startDate entry) (CacheEntry.endDate entry) true)
       (detectRelevantDataTypes query) (CacheEntry.data entry),
     queryCache).
Proof.
  intros Hparse Hconn Hentry Hfresh Hrange Hdefault. unfold handleQuery.
  rewrite Hparse. cbv zeta. cbn [data_query]. rewrite Hconn, Hrange. simpl.
  by rewrite (resolveData_follow_up _ _ entry).
Qed.

(** C10: when the dataset resolved for the query has no sleep,
    activity or readiness record and no heart-rate reading, the
    handler writes one content event with the no-data message, then
    the done event, and closes the stream; no error event is
    written. *)
Theorem C10_no_data_stream req queryCache query dateRange range ouraData queryCache' :
  safeParse req = inr (mkParsed query) →
  session_connected req = true →
  extractDateRange (tz w) (ai_extract w) (JSON_parse w) query (clock_today w)
    = Return dateRange →
  resolveData w req dateRange (detectRelevantDataTypes query) queryCache
    = (range, ouraData, queryCache') →
  OuraData.sleep ouraData = [] →
  OuraData.activity ouraData = [] →
  OuraData.readiness ouraData = [] →
  readings (OuraData.heartRate ouraData) = [] →
  handleQuery w req queryCache = (EventStream [Content (noDataMsg range); Done], queryCache')
  ∧ Substring "I couldn't find any" (noDataMsg range).
Proof.
  intros Hparse Hconn Hrange Hres Hs Ha Hr Hh.
  split; [|apply noDataMsg_readable].
  unfold handleQuery. rewrite Hparse. cbv zeta. cbn [data_query].
  rewrite Hconn, Hrange. simpl. rewrite Hres.
  unfold respond. by rewrite (proj2 (hasData_false ouraData)).
Qed.

(** The conversation history of the body does not reach the handler:
    the schema has no such key and the parsed object is without it. *)
Lemma conversationHistory_stripped req history queryCache :
  handleQuery w (mkReq (body_query req) history (session_connected req) (sessionID req))
              queryCache
  = handleQuery w req queryCache.
Proof. by destruct req. Qed.

End HandlerProperties.

(** The follow-up question about the heart rate is answered from the
    entry that was cached without heart-rate data. *)
Lemma C7_follow_up_reuses_cached_entry_witness :
  DataTypeFlags.heartRate (detectRelevantDataTypes "What about my heart rate?") = true
  ∧ DataTypeFlags.heartRate (CacheEntry.includedTypes sleepOnlyEntry) = false
  ∧ handleQuery sampleWorld (ask "What about my heart rate?") sleepOnlyCache
    = (respond sampleWorld "What about my heart rate?" None
         (mkRange "2026-10-26" "2026-11-02" true)
         (detectRelevantDataTypes "What about my heart rate?")
         (CacheEntry.data sleepOnlyEntry),
       sleepOnlyCache).
Proof.
  split; [by vm_compute|]. split; [reflexivity|].
  apply (C7_follow_up_reuses_cached_entry sampleWorld (ask "What about my heart rate?")
           sleepOnlyCache "What about my heart rate?" sleepOnlyEntry
           (mkRange "2026-10-26" "2026-11-02" false)).
  - reflexivity.
  - reflexivity.
  - reflexivity.
  - by vm_compute.
  - by vm_compute.
  - reflexivity.
Defined.

Lemma C10_no_data_stream_witness :
  handleQuery sampleWorld (ask "How did I sleep last night?") emptyCache
  = (EventStream
       [Content (noDataMsg (mkRange "2026-11-01" "2026-11-01" true)); Done],
     OuraCache.set noon "s1" "2026-11-01" "2026-11-01" noData
       (DataTypeFlags.mk true false false false) emptyCache).
Proof.
  apply (C10_no_data_stream sampleWorld (ask "How did I sleep last night?") emptyCache
           "How did I sleep last night?" (mkRange "2026-11-01" "2026-11-01" true)
           (mkRange "2026-11-01" "2026-11-01" true) noData).
  - reflexivity.
  - reflexivity.
  - by vm_compute.
  - by vm_compute.
  - reflexivity.
  - reflexivity.
  - reflexivity.
  - reflexivity.
Defined.

(** ** The calendar: ISO dates sort like the days they denote *)

Lemma compare_app_same_length a a' b b' :
  String.length a = String.length a' →
  String.compare (a +:+ b) (a' +:+ b')
  = match String.compare a a' with Eq => String.compare b b' | o => o end.
Proof.
  revert a'. induction a as [|x a IH]; intros [|x' a'] Hlen; try done.
  simpl. destruct (Ascii.compare x x'); [|done..]. apply IH. by injection Hlen.
Qed.

Lemma length_padNum w : ∀ z, String.length (padNum w z) = w.
Proof.
  induction w as [|w IH]; intros z; [done|]. simpl.
  rewrite length_app_string, IH. simpl. lia.
Qed.

Lemma compare_digitChar x y :
  0 ≤ x ≤ 9 → 0 ≤ y ≤ 9 → Ascii.compare (digitChar x) (digitChar y) = (x ?= y).
Proof.
  intros Hx Hy.
  assert (Hx' : x = 0 ∨ x = 1 ∨ x = 2 ∨ x = 3 ∨ x = 4 ∨ x = 5 ∨ x = 6 ∨ x = 7 ∨ x = 8 ∨ x = 9)
    by lia.
  assert (Hy' : y = 0 ∨ y = 1 ∨ y = 2 ∨ y = 3 ∨ y = 4 ∨ y = 5 ∨ y = 6 ∨ y = 7 ∨ y = 8 ∨ y = 9)
    by lia.
  destruct Hx' as [->|[->|[->|[->|[->|[->|[->|[->|[->| ->]]]]]]]]];
    destruct Hy' as [->|[->|[->|[->|[->|[->|[->|[->|[->| ->]]]]]]]]]; reflexivity.
Qed.

Lemma compare_by_digits x y :
  (x ?= y) = match x / 10 ?= y / 10 with Eq => x mod 10 ?= y mod 10 | o => o end.
Proof.
  pose proof (Z.div_mod x 10 ltac:(lia)). pose proof (Z.div_mod y 10 ltac:(lia)).
  pose proof (Z.mod_pos_bound x 10 ltac:(lia)). pose proof (Z.mod_pos_bound y 10 ltac:(lia)).
  destruct (Z.compare_spec (x / 10) (y / 10)).
  - destruct (Z.compare_spec (x mod 10) (y mod 10)).
    + apply Z.compare_eq_iff. lia.
    + apply Z.compare_lt_iff. lia.
    + apply Z.compare_gt_iff. lia.
  - apply Z.compare_lt_iff. lia.
  - apply Z.compare_gt_iff. lia.
Qed.

(** Numbers padded to the same width sort like the numbers. *)
Lemma compare_padNum w : ∀ x y,
  0 ≤ x < 10 ^ Z.of_nat w → 0 ≤ y < 10 ^ Z.of_nat w →
  String.compare (padNum w x) (padNum w y) = (x ?= y).
Proof.
  induction w as [|w IH]; intros x y Hx Hy.
  - simpl in *. symmetry. apply Z.compare_eq_iff. lia.
  - rewrite Nat2Z.inj_succ, Z.pow_succ_r in Hx, Hy by lia.
    pose proof (Z.mod_pos_bound x 10 ltac:(lia)). pose proof (Z.mod_pos_bound y 10 ltac:(lia)).
    simpl. rewrite compare_app_same_length by (by rewrite !length_padNum).
    rewrite IH by (split; [apply Z.div_pos; lia | apply Z.div_lt_upper_bound; lia]).
    rewrite (compare_by_digits x y). destruct (x / 10 ?= y / 10); [|done..].
    simpl. rewrite compare_digitChar by lia.
    by destruct (x mod 10 ?= y mod 10).
Qed.

Lemma isoYear_four_digits y : 0 ≤ y ≤ 9999 → isoYear y = padNum 4 y.
Proof.
  intros Hy. unfold isoYear.
  destruct (Z.leb_spec 0 y), (Z.leb_spec y 9999); (done || lia).
Qed.

(** ISO dates of the years 0 to 9999 sort like their keys. *)
Lemma isoDate_le t t' :
  0 ≤ t.1.1 ≤ 9999 → 0 ≤ t'.1.1 ≤ 9999 →
  0 ≤ t.1.2 < 100 → 0 ≤ t'.1.2 < 100 → 0 ≤ t.2 < 100 → 0 ≤ t'.2 < 100 →
  dateKey t ≤ dateKey t' → (isoDate t ≤ isoDate t')%string.
Proof.
  destruct t as [[y m] d], t' as [[y' m'] d']. unfold dateKey, isoDate. cbn [fst snd].
  intros Hy Hy' Hm Hm' Hd Hd' Hkey. rewrite !isoYear_four_digits by done.
  unfold String.le, String.leb.
  rewrite compare_app_same_length by (by rewrite !length_padNum).
  rewrite compare_padNum by (change (10 ^ Z.of_nat 4) with 10000; lia).
  destruct (Z.compare_spec y y'); [subst y'|done|lia].
  rewrite (compare_app_same_length "-" "-") by done. cbn [String.compare].
  change ("-" ?= "-")%char with Eq. cbv iota.
  rewrite compare_app_same_length by (by rewrite !length_padNum).
  rewrite compare_padNum by (change (10 ^ Z.of_nat 2) with 100; lia).
  destruct (Z.compare_spec m m'); [subst m'|done|lia].
  rewrite (compare_app_same_length "-" "-") by done. cbn [String.compare].
  change ("-" ?= "-")%char with Eq. cbv iota.
  rewrite compare_padNum by (change (10 ^ Z.of_nat 2) with 100; lia).
  destruct (Z.compare_spec d d'); [done|done|lia].
Qed.

(** The calendar repeats every 146097 days, 400 years later. *)
Lemma civilFromDays_period x k :
  civilFromDays (x + 146097 * k)
  = ((civilFromDays x).1.1 + 400 * k, (civilFromDays x).1.2, (civilFromDays x).2).
Proof.
  unfold civilFromDays. cbv zeta.
  replace (x + 146097 * k + 719468) with (x + 719468 + k * 146097) by ring.
  rewrite Z.div_add by lia.
  replace (x + 719468 + k * 146097 - ((x + 719468) / 146097 + k) * 146097)
    with (x + 719468 - (x + 719468) / 146097 * 146097) by ring.
  simpl. f_equal. f_equal. ring.
Qed.

Lemma cycleCheck_spec fuel : ∀ doe key k,
  cycleCheck fuel doe key = true → doe ≤ k < doe + Z.of_nat fuel →
  cycleBounds k (civilFromDays (k - 719468)) = true
  ∧ (if decide (k = doe) then key else dateKey (civilFromDays (k - 1 - 719468)))
    < dateKey (civilFromDays (k - 719468)).
Proof.
  induction fuel as [|fuel IH]; intros doe key k H Hk; [lia|].
  cbn [cycleCheck] in H. cbv zeta in H.
  apply andb_true_iff in H as [[Hkey Hb]%andb_true_iff Hrest].
  apply Z.ltb_lt in Hkey.
  destruct (decide (k = doe)) as [->|Hne]; [done|].
  destruct (IH (doe + 1) _ k Hrest ltac:(lia)) as [Hb' Hlt]. split; [done|].
  destruct (decide (k = doe + 1)) as [->|]; [|done].
  by replace (doe + 1 - 1 - 719468) with (doe - 719468) by lia.
Qed.

Lemma cycle_checked : cycleCheck cycleLength 0 (-1) = true.
Proof. vm_cast_no_check (eq_refl true). Qed.

Lemma cycleLength_days : Z.of_nat cycleLength = 146098.
Proof. apply Z2Nat.id. lia. Qed.

Lemma cycle_days doe :
  0 ≤ doe < 146098 →
  cycleBounds doe (civilFromDays (doe - 719468)) = true
  ∧ (if decide (doe = 0) then -1 else dateKey (civilFromDays (doe - 1 - 719468)))
    < dateKey (civilFromDays (doe - 719468)).
Proof.
  intros H. apply (cycleCheck_spec cycleLength 0 (-1) doe cycle_checked).
  rewrite cycleLength_days. lia.
Qed.


Lemma key_of_last_day : dateKey (civilFromDays 2932896) = 99991231.
Proof. reflexivity. Qed.

(** Every day has a month in 1..12 and a day in 1..31, and the next day
    has a larger key. *)
Lemma civilFromDays_succ d :
  dateKey (civilFromDays d) < dateKey (civilFromDays (d + 1))
  ∧ 1 ≤ (civilFromDays d).1.2 ≤ 12 ∧ 1 ≤ (civilFromDays d).2 ≤ 31.
Proof.
  remember ((d + 719468) / 146097) as k eqn:Hk.
  remember ((d + 719468) mod 146097) as doe eqn:Hdoe.
  assert (Hrange : 0 ≤ doe < 146097) by (subst doe; apply Z.mod_pos_bound; lia).
  assert (Hd : d = doe - 719468 + 146097 * k).
  { pose proof (Z.div_mod (d + 719468) 146097 ltac:(lia)). lia. }
  destruct (cycle_days doe ltac:(lia)) as [Hb _].
  destruct (cycle_days (doe + 1) ltac:(lia)) as [_ Hlt].
  destruct (decide (doe + 1 = 0)); [lia|].
  replace (doe + 1 - 1 - 719468) with (doe - 719468) in Hlt by lia.
  unfold cycleBounds in Hb. rewrite !andb_true_iff, !Z.leb_le in Hb.
  destruct Hb as [Hb _].
  replace (d + 1) with (doe + 1 - 719468 + 146097 * k) by lia.
  rewrite Hd, !civilFromDays_period. clear Hk Hdoe Hd.
  generalize dependent (civilFromDays (doe - 719468)).
  generalize dependent (civilFromDays (doe + 1 - 719468)).
  intros [[y' m'] d'] [[y m] dd]. unfold dateKey. cbn [fst snd]. intros. lia.
Qed.

(** The day number of the date of a day is that day. *)
Lemma daysFromCivil_period y m d k :
  daysFromCivil (y + 400 * k) m d = daysFromCivil y m d + 146097 * k.
Proof.
  unfold daysFromCivil. cbv zeta.
  replace ((if m <=? 2 then y + 400 * k - 1 else y + 400 * k))
    with ((if m <=? 2 then y - 1 else y) + k * 400) by (destruct (m <=? 2); ring).
  generalize (if m <=? 2 then y - 1 else y). intros y'.
  rewrite Z.div_add by lia.
  replace (y' + k * 400 - (y' / 400 + k) * 400) with (y' - y' / 400 * 400) by ring.
  ring.
Qed.

Lemma daysFromCivil_civilFromDays d :
  daysFromCivil (civilFromDays d).1.1 (civilFromDays d).1.2 (civilFromDays d).2 = d.
Proof.
  remember ((d + 719468) / 146097) as k eqn:Hk.
  remember ((d + 719468) mod 146097) as doe eqn:Hdoe.
  assert (Hrange : 0 ≤ doe < 146097) by (subst doe; apply Z.mod_pos_bound; lia).
  assert (Hd : d = doe - 719468 + 146097 * k).
  { pose proof (Z.div_mod (d + 719468) 146097 ltac:(lia)). lia. }
  destruct (cycle_days doe ltac:(lia)) as [Hb _].
  unfold cycleBounds in Hb. rewrite !andb_true_iff, Z.eqb_eq in Hb. destruct Hb as [_ Hb].
  rewrite Hd at 1 2 3. rewrite civilFromDays_period. cbn [fst snd].
  rewrite daysFromCivil_period, Hb. lia.
Qed.

Lemma daysFromCivil_day y m d : daysFromCivil y m d = daysFromCivil y m 1 + d - 1.
Proof. unfold daysFromCivil. cbv zeta. ring. Qed.

(** [d.setDate(d.getDate() - n)] moves the local time by [n] days. *)
Lemma setDate_days_back tz t n :
  setDate tz t (getDate tz t - n) = TimeClip (UTC tz (LocalTime tz t - n * msPerDay)).
Proof.
  unfold setDate, getDate, getMonth, getFullYear, MakeDay, TimeWithinDay.
  do 2 f_equal.
  pose proof (civilFromDays_succ (Day (LocalTime tz t))) as (_ & Hm & _).
  pose proof (daysFromCivil_civilFromDays (Day (LocalTime tz t))) as Hround.
  rewrite daysFromCivil_day in Hround.
  generalize dependent (civilFromDays (Day (LocalTime tz t))).
  intros [[y m] d] Hm Hround. cbn [fst snd] in *.
  rewrite Z.div_small, Z.mod_small, Z.add_0_r by lia.
  replace (m - 1 + 1) with m by lia.
  unfold Day, msPerDay in *.
  pose proof (Z.div_mod (LocalTime tz t) 86400000 ltac:(lia)). lia.
Qed.

(** With one offset at all times the time itself moves by [n] days. *)
Lemma setDate_days_back_fixed offset t n :
  setDate (fixedZone offset) t (getDate (fixedZone offset) t - n)
  = TimeClip (t - n * msPerDay).
Proof.
  rewrite setDate_days_back. unfold UTC, LocalTime. simpl. f_equal. lia.
Qed.

Lemma civilFromDays_mono d n :
  dateKey (civilFromDays d) ≤ dateKey (civilFromDays (d + Z.of_nat n)).
Proof.
  induction n as [|n IH]; [by rewrite Z.add_0_r|].
  replace (d + Z.of_nat (S n)) with (d + Z.of_nat n + 1) by lia.
  pose proof (civilFromDays_succ (d + Z.of_nat n)). lia.
Qed.

Lemma civilFromDays_le d d' :
  d ≤ d' → dateKey (civilFromDays d) ≤ dateKey (civilFromDays d').
Proof.
  intros H. replace d' with (d + Z.of_nat (Z.to_nat (d' - d))) by lia.
  apply civilFromDays_mono.
Qed.



(** ** Date-range extraction *)

Section ExtractProperties.
Variable tz : TimeZone.
Variable ai : GenRequest → Completion Stream.
Variable parse : string → Completion DateReply.

Lemma weekAgo_valid today :
  PlausibleClock today →
  formatDate (TimeClip (today - 7 * 24 * 60 * 60 * 1000))
  = Return (formatTime (today - 7 * 24 * 60 * 60 * 1000)).
Proof.
  intros [H0 H1]. unfold TimeClip, maxTime.
  destruct (Z.leb_spec (Z.abs (today - 7 * 24 * 60 * 60 * 1000)) 8640000000000000);
    [done | lia].
Qed.

Lemma RangeAt_shift q pre d1 d2 :
  RangeAt q pre d1 d2 ↔ ∃ post, q = pre +:+ post ∧ RangeAt post "" d1 d2.
Proof.
  split.
  - intros (ws1 & sep & ws2 & post & -> & H). eexists. split; [reflexivity|].
    by exists ws1, sep, ws2, post.
  - intros (rest & -> & ws1 & sep & ws2 & post & -> & H).
    by exists ws1, sep, ws2, post.
Qed.

(** The first branch of the parser: the leftmost two-date pattern of
    the lower-cased query. *)
Lemma parse_explicit_range query today :
  (∃ pre d1 d2, RangeAt (toLowerCase query) pre d1 d2) →
  ∃ pre d1 d2,
    RangeAt (toLowerCase query) pre d1 d2
    ∧ (∀ pre' d1' d2', RangeAt (toLowerCase query) pre' d1' d2' →
                       (String.length pre ≤ String.length pre')%nat)
    ∧ parseDateRangeFromQuery tz query today = Return (Some (mkRange d1 d2 true)).
Proof.
  intros (pre0 & e1 & e2 & H0). apply RangeAt_shift in H0 as (post0 & Hq0 & H0).
  assert (Hsome : is_Some (exec rangeRe (toLowerCase query))).
  { rewrite Hq0. apply searchFrom_complete. by eapply rangeRe_complete. }
  destruct Hsome as [c Hc].
  destruct (searchFrom_Some _ _ _ _ Hc) as (pre & post & Hq & Hm & Hleft).
  destruct (rangeRe_sound _ _ _ Hm) as (d1 & d2 & Hat & Hg1 & Hg3).
  exists pre, d1, d2. split_and!.
  - apply RangeAt_shift. by exists post.
  - intros pre' d1' d2' (post' & Hq' & H')%RangeAt_shift.
    destruct (decide (String.length pre' < String.length pre)%nat) as [Hlt|]; [|lia].
    specialize (Hleft _ _ Hq' Hlt).
    destruct (rangeRe_complete (prevOf None pre') _ _ _ H') as [x Hx]. congruence.
  - unfold parseDateRangeFromQuery. cbv zeta. rewrite Hc, Hg1, Hg3. reflexivity.
Qed.

(** After the parser: an inverted pair is swapped and returned; the
    end of a pair in order is clamped to today. *)
Lemma extract_of_parsed query today p :
  PlausibleClock today →
  parseDateRangeFromQuery tz query today = Return (Some p) →
  extractDateRange tz ai parse query today
  = Return (if gt (startDate p) (endDate p)
            then mkRange (endDate p) (startDate p) true
            else mkRange (startDate p)
                   (if gt (endDate p) (formatTime today) then formatTime today
                    else endDate p)
                   (usesCustomRange p)).
Proof.
  intros Hclock Hp. unfold extractDateRange. cbv zeta.
  rewrite weekAgo_valid by done. simpl. rewrite Hp. simpl.
  by destruct (gt (startDate p) (endDate p)).
Qed.

(** C5, amended: for every query that contains a two-date pattern
    [YYYY-MM-DD (to|-) YYYY-MM-DD], extractDateRange returns, with
    usesCustomRange=true, the pair of dates of the leftmost such
    pattern: swapped when the pair is inverted, and otherwise with the
    end date replaced by today's date when it lies after today. *)
Theorem C5_explicit_range query today :
  PlausibleClock today →
  (∃ pre d1 d2, RangeAt (toLowerCase query) pre d1 d2) →
  ∃ pre d1 d2,
    RangeAt (toLowerCase query) pre d1 d2
    ∧ (∀ pre' d1' d2', RangeAt (toLowerCase query) pre' d1' d2' →
                       (String.length pre ≤ String.length pre')%nat)
    ∧ extractDateRange tz ai parse query today
      = Return (if decide (d1 ≤ d2)%string
                then mkRange d1 (if decide (d2 ≤ formatTime today)%string then d2
                                 else formatTime today) true
                else mkRange d2 d1 true).
Proof.
  intros Hclock Hhas.
  destruct (parse_explicit_range query today Hhas) as (pre & d1 & d2 & Hat & Hleft & Hp).
  exists pre, d1, d2. split_and!; [done..|].
  rewrite (extract_of_parsed _ _ _ Hclock Hp). simpl.
  destruct (decide (d1 ≤ d2)%string) as [Hle|Hgt].
  - rewrite (proj2 (gt_false_iff d1 d2) Hle).
    destruct (decide (d2 ≤ formatTime today)%string) as [Hle'|Hgt'].
    + by rewrite (proj2 (gt_false_iff _ _) Hle').
    + by rewrite (proj2 (gt_iff _ _) Hgt').
  - by rewrite (proj2 (gt_iff d1 d2) Hgt).
Qed.


(** A range that the model's answer gives is in order unless it
    starts after today, and never ends after today. *)
Lemma askModel_range query todayStr r :
  askModel ai parse query todayStr = Return (Some r) →
  usesCustomRange r = true
  ∧ (endDate r ≤ todayStr)%string
  ∧ ((startDate r ≤ endDate r)%string
     ∨ (¬ (startDate r ≤ todayStr)%string ∧ endDate r = todayStr)).
Proof.
  unfold askModel. destruct (ai _) as [stream|]; [|done]. simpl.
  destruct (readAll stream) as [fullText|]; [|done]. simpl.
  destruct (exec jsonRe (trim fullText)) as [jsonMatch|]; [|done].
  destruct (parse _) as [parsed|]; [|done]. simpl.
  destruct (reply_startDate parsed) as [sd|], (reply_endDate parsed) as [ed|]; try done.
  destruct (truthy sd && truthy ed); [|done].
  destruct (gt sd ed) eqn:Hswap.
  - apply gt_iff, not_le_le in Hswap.
    destruct (gt sd todayStr) eqn:Hclamp; intros [= <-]; simpl.
    + apply gt_iff in Hclamp. split_and!; [done..|].
      destruct (decide (ed ≤ todayStr)%string); [by left | by right].
    + apply gt_false_iff in Hclamp. by split_and!; [..|left].
  - apply gt_false_iff in Hswap.
    destruct (gt ed todayStr) eqn:Hclamp; intros [= <-]; simpl.
    + apply gt_iff in Hclamp. split_and!; [done..|].
      destruct (decide (sd ≤ todayStr)%string); [by left | by right].
    + apply gt_false_iff in Hclamp. by split_and!; [..|left].
Qed.

(** Without a range from the parser, the result is the model's range
    or the default. *)
Lemma extract_without_parsed query today :
  PlausibleClock today →
  parseDateRangeFromQuery tz query today = Return None →
  extractDateRange tz ai parse query today
  = Return (match askModel ai parse query (formatTime today) with
            | Return (Some range) =>
                if existsb (fun pattern => test pattern query) DATE_PATTERNS then range
                else mkRange (formatTime (today - 7 * 24 * 60 * 60 * 1000))
                             (formatTime today) false
            | _ => mkRange (formatTime (today - 7 * 24 * 60 * 60 * 1000))
                           (formatTime today) false
            end).
Proof.
  intros Hclock Hp. unfold extractDateRange. cbv zeta.
  generalize (existsb (fun pattern => test pattern query) DATE_PATTERNS). intros has.
  rewrite weekAgo_valid by done. cbn [bindC]. rewrite Hp. cbn [bindC].
  destruct has; cbn [negb];
    by destruct (askModel ai parse query (formatTime today)) as [[?|]|].
Qed.

(** When the parser returns, so does the extraction. *)
Lemma extract_returns query today p :
  PlausibleClock today →
  parseDateRangeFromQuery tz query today = Return p →
  ∃ r, extractDateRange tz ai parse query today = Return r.
Proof.
  intros Hclock Hp. destruct p as [p|].
  - rewrite (extract_of_parsed _ _ _ Hclock Hp). by eexists.
  - rewrite (extract_without_parsed _ _ Hclock Hp). by eexists.
Qed.

(** When the parser finds nothing and the model gives no range, for
    whatever reason, the result is the default range. *)
Lemma extract_default query today :
  PlausibleClock today →
  parseDateRangeFromQuery tz query today = Return None →
  (∀ range, askModel ai parse query (formatTime today) ≠ Return (Some range)) →
  extractDateRange tz ai parse query today
  = Return (mkRange (formatTime (today - 7 * 24 * 60 * 60 * 1000)) (formatTime today) false).
Proof.
  intros Hclock Hp Hno. rewrite (extract_without_parsed _ _ Hclock Hp).
  destruct (askModel ai parse query (formatTime today)) as [[range|]|]; try done.
  by destruct (Hno range).
Qed.

(** The ways in which the model gives no range: the call throws, the
    stream fails, the text has no braces, [JSON.parse] throws, or a
    field is missing or empty. *)
Lemma askModel_no_range query todayStr :
  let request := mkRequest "gemini-3-flash-preview"
                           (Prompt (extractionPrompt todayStr query)) NoConfig in
  (∃ e, ai request = Throw e)
  ∨ (∃ stream, ai request = Return stream
       ∧ ((∃ e, failure stream = Some e)
          ∨ ∃ fullText, readAll stream = Return fullText
              ∧ (exec jsonRe (trim fullText) = None
                 ∨ ∃ jsonMatch, exec jsonRe (trim fullText) = Some jsonMatch
                     ∧ ((∃ e, parse (group 0 jsonMatch) = Throw e)
                        ∨ ∃ parsed, parse (group 0 jsonMatch) = Return parsed
                            ∧ (default "" (reply_startDate parsed) = ""
                               ∨ default "" (reply_endDate parsed) = ""))))) →
  ∀ range, askModel ai parse query todayStr ≠ Return (Some range).
Proof.
  intros request H range. unfold askModel. fold request.
  destruct H as [[e ->] | (stream & -> & H)]; [done|]. simpl.
  destruct H as [[e He] | (fullText & Htext & H)].
  { unfold readAll. by rewrite He. }
  rewrite Htext. simpl.
  destruct H as [-> | (jsonMatch & -> & H)]; [done|].
  destruct H as [[e ->] | (parsed & -> & H)]; [done|]. simpl.
  destruct (reply_startDate parsed) as [[|]|], (reply_endDate parsed) as [[|]|];
    simpl in *; try done; by destruct H.
Qed.

(** A relative phrase with a day count of two hundred million: no time
    of the years 1970 to 9999 is late enough for the start date to be a
    valid [Date], whatever the offsets of the zone, and the parser
    throws when it formats it. *)
Lemma parse_huge_day_count_throws today :
  SteadyZone tz →
  PlausibleClock today →
  parseDateRangeFromQuery tz "last 200000000 days" today = Throw invalidTime.
Proof.
  intros Hzone [H0 H1]. unfold parseDateRangeFromQuery. cbv zeta.
  replace (exec rangeRe (toLowerCase "last 200000000 days")) with (@None caps)
    by (by vm_compute).
  replace (exec singleDateRe (toLowerCase "last 200000000 days")) with (@None caps)
    by (by vm_compute).
  replace (test todayRe (toLowerCase "last 200000000 days")) with false by (by vm_compute).
  replace (test yesterdayRe (toLowerCase "last 200000000 days")) with false
    by (by vm_compute).
  replace (exec (relativeRe false) (toLowerCase "last 200000000 days"))
    with (Some [(3%nat, "days"); (2%nat, "200000000"); (1%nat, "last")])
    by (by vm_compute).
  cbv iota beta.
  change (toNumber (group 2 [(3%nat, "days"); (2%nat, "200000000"); (1%nat, "last")]))
    with 200000000.
  change (group 3 [(3%nat, "days"); (2%nat, "200000000"); (1%nat, "last")]) with "days".
  change (startsWith "days" "week") with false.
  change (startsWith "days" "month") with false.
  change (startsWith "days" "year") with false.
  cbv iota. rewrite setDate_days_back.
  unfold UTC, LocalTime.
  specialize (Hzone today (today + offsetAtUTC tz today - 200000000 * msPerDay)).
  unfold TimeClip, msPerDay, maxTime in *.
  destruct (Z.leb_spec
              (Z.abs (today + offsetAtUTC tz today - 200000000 * 86400000
                      - offsetAtLocal tz (today + offsetAtUTC tz today
                                          - 200000000 * 86400000)))
              8640000000000000); [lia|].
  reflexivity.
Qed.


End ExtractProperties.

Lemma plausible_noon : PlausibleClock noon.
Proof. unfold PlausibleClock, noon. lia. Qed.

Lemma steady_fixedZone offset : SteadyZone (fixedZone offset).
Proof. intros t t'. simpl. unfold msPerDay. lia. Qed.

Lemma steady_london : SteadyZone london2026.
Proof.
  intros t t'. simpl. unfold msPerDay.
  destruct (summerTime2026 t), (summerTime2026 (t' - 3600000)); lia.
Qed.

(** C5, as the specification states it, does not hold: the query names
    a pair of dates in order, both after today, and the range returned
    ends today. *)
Lemma C5_future_range_not_verbatim :
  RangeAt (toLowerCase "Plan for 2099-01-01 to 2099-01-02") "plan for " "2099-01-01" "2099-01-02"
  ∧ extractDateRange utcZone unreachable noJson "Plan for 2099-01-01 to 2099-01-02" noon
    ≠ Return (mkRange "2099-01-01" "2099-01-02" true).
Proof.
  split.
  - exists " ", "to", " ", "". split_and!; try done.
    + do 8 eexists. split; [reflexivity | repeat constructor].
    + do 8 eexists. split; [reflexivity | repeat constructor].
    + by left.
  - vm_compute. discriminate.
Qed.

Lemma C5_explicit_range_witness :
  ∃ pre d1 d2,
    RangeAt (toLowerCase "Sleep from 2026-10-05 TO 2026-10-01?") pre d1 d2
    ∧ (∀ pre' d1' d2',
         RangeAt (toLowerCase "Sleep from 2026-10-05 TO 2026-10-01?") pre' d1' d2' →
         (String.length pre ≤ String.length pre')%nat)
    ∧ extractDateRange utcZone unreachable noJson "Sleep from 2026-10-05 TO 2026-10-01?" noon
      = Return (if decide (d1 ≤ d2)%string
                then mkRange d1 (if decide (d2 ≤ formatTime noon)%string then d2
                                 else formatTime noon) true
                else mkRange d2 d1 true).
Proof.
  apply (C5_explicit_range utcZone unreachable noJson "Sleep from 2026-10-05 TO 2026-10-01?" noon).
  - exact plausible_noon.
  - exists "sleep from ", "2026-10-05", "2026-10-01", " ", "to", " ", "?".
    split_and!; try done.
    + do 8 eexists. split; [reflexivity | repeat constructor].
    + do 8 eexists. split; [reflexivity | repeat constructor].
    + by left.
Defined.

(** The inverted pair of the sample query comes back swapped. *)
Example inverted_range_swapped :
  extractDateRange utcZone unreachable noJson "Sleep from 2026-10-05 TO 2026-10-01?" noon
  = Return (mkRange "2026-10-01" "2026-10-05" true).
Proof. vm_compute. reflexivity. Qed.

(** C8 says that extractDateRange never fails.  It does: for the query
    "last 200000000 days", at every time of the years 1970 to 9999 and
    in every time zone (its offsets, whether they change with the time
    or not, lying within two days of each other), the start date
    computed by the parser leaves the
    range of [Date], [formatDate] throws a RangeError inside the parser,
    which runs outside the [try] block, and extractDateRange throws it
    on, whatever the model and [JSON.parse] would answer. *)
Theorem C8_huge_day_count_throws tz ai parse today :
  SteadyZone tz →
  PlausibleClock today →
  extractDateRange tz ai parse "last 200000000 days" today = Throw invalidTime.
Proof.
  intros Hzone Hclock. unfold extractDateRange. cbv zeta.
  rewrite weekAgo_valid by done. cbn [bindC].
  by rewrite parse_huge_day_count_throws.
Qed.

Lemma C8_huge_day_count_throws_witness :
  extractDateRange london2026 unreachable noJson "last 200000000 days" noon
  = Throw invalidTime.
Proof.
  exact (C8_huge_day_count_throws london2026 unreachable noJson noon
           steady_london plausible_noon).
Defined.

(** In a zone with one offset at all times no condition on the zone
    is needed. *)
Lemma huge_day_count_throws_fixed offset ai parse today :
  PlausibleClock today →
  extractDateRange (fixedZone offset) ai parse "last 200000000 days" today
  = Throw invalidTime.
Proof.
  intros Hclock. unfold extractDateRange. cbv zeta.
  rewrite weekAgo_valid by done. cbn [bindC].
  by rewrite (parse_huge_day_count_throws _ _ (steady_fixedZone offset) Hclock).
Qed.

(** Half as many days are still within the range of [Date]. *)
Example large_day_count_returns :
  extractDateRange utcZone unreachable noJson "last 100000000 days" noon
  = Return (mkRange "-271764-02-20" "2026-11-02" true).
Proof. by vm_compute. Qed.

(** The handler answers the failing query with status 500. *)
Example huge_day_count_response :
  handleQuery sampleWorld (ask "last 200000000 days") emptyCache
  = (Json 500 "Failed to process query" (Some "Invalid time value"), emptyCache).
Proof. vm_compute. reflexivity. Qed.



(** The slip on the parser's branch: an inverted pair is swapped and
    returned at once, so that its end is not clamped; the model's branch
    swaps and then clamps. *)
Example swapped_pair_not_clamped :
  extractDateRange utcZone unreachable noJson "2099-01-02 to 2099-01-01" noon
  = Return (mkRange "2099-01-01" "2099-01-02" true).
Proof. by vm_compute. Qed.

Example model_pair_swapped_and_clamped :
  extractDateRange utcZone (fun _ => Return (mkStream [Some "{...}"] None))
    (fun _ => Return (mkReply (Some "2099-01-02") (Some "2026-10-01")))
    "How did I sleep since oct 1?" noon
  = Return (mkRange "2026-10-01" "2026-11-02" true).
Proof. by vm_compute. Qed.

(** Without an answer of the model the same question gets the default
    range. *)
Example model_unreachable_default :
  extractDateRange utcZone unreachable noJson "How did I sleep since oct 1?" noon
  = Return (mkRange "2026-10-26" "2026-11-02" false).
Proof. by vm_compute. Qed.

(** The local dates of the parser are those of the zone's rules: in
    London, on 2 November 2026, the first day of last month is a
    midnight of summer time, an hour before the UTC day begins, and
    its last day a midnight of winter time. *)
Example last_month_in_london :
  extractDateRange london2026 unreachable noJson "How was my sleep last month?" noon
  = Return (mkRange "2026-09-30" "2026-10-31" true).
Proof. by vm_compute. Qed.

Example last_month_in_utc :
  extractDateRange utcZone unreachable noJson "How was my sleep last month?" noon
  = Return (mkRange "2026-10-01" "2026-10-31" true).
Proof. by vm_compute. Qed.

(** Across the end of summer time [setDate] keeps the local time of
    the day: 14 days before noon of 2 November is 11:00 UTC. *)
Example setDate_across_summer_time :
  setDate london2026 noon (getDate london2026 noon - 14) = Some (noon - 14 * msPerDay - 3600000).
Proof. by vm_compute. Qed.

(** * Further properties *)

(** ** The session cache: writes, sweeps and narrowing *)

Section CacheComposition.
Import OuraCache.

Lemma get_result now sid c :
  (get now sid c).1
  = match cache c !! sid with
    | Some entry => if expired c now entry then None else Some entry
    | None => None
    end.
Proof. unfold get. destruct (cache c !! sid) as [entry|]; [|done]. by destruct (expired c now entry). Qed.

(** X1: what [set] stores is what [get] returns for as long as the
    entry is not older than the TTL, stamped with the time of the write
    and whatever the session held before; the read leaves the cache as
    it is, and the reads of the other sessions see what they saw. *)
Theorem X1_set_then_get now0 now sid s e data types c :
  now - now0 ≤ TTL c →
  get now sid (set now0 sid s e data types c)
  = (Some (CacheEntry.mk s e data types now0), set now0 sid s e data types c)
  ∧ ∀ k, k ≠ sid → (get now k (set now0 sid s e data types c)).1 = (get now k c).1.
Proof.
  intros Hfresh. split.
  - apply get_fresh; [apply lookup_insert_eq | done].
  - intros k Hk. rewrite !get_result. simpl. by rewrite lookup_insert_ne.
Qed.

(** X2: after [clear] the session reads none at any time, the read
    changes nothing, and the other sessions read what they read
    before. *)
Theorem X2_clear_then_get now sid c :
  get now sid (clear sid c) = (None, clear sid c)
  ∧ ∀ k, k ≠ sid → (get now k (clear sid c)).1 = (get now k c).1.
Proof.
  split.
  - unfold get, clear. simpl. by rewrite lookup_delete_eq.
  - intros k Hk. rewrite !get_result. simpl. by rewrite lookup_delete_ne.
Qed.

Lemma lookup_cleanup now c k :
  cache (cleanup now c) !! k = (get now k c).1.
Proof.
  rewrite get_result. unfold cleanup. simpl. rewrite map_lookup_filter.
  destruct (cache c !! k) as [entry|]; simpl; [|done].
  case_guard as Hg; simpl in Hg; by rewrite ?Hg; destruct (expired c now entry).
Qed.

(** X3: the periodic sweep and the lazy eviction agree.  After
    [cleanup] at some time the map holds for every session exactly
    what [get] returns for it at that time; a read that follows the
    sweep deletes nothing, and a second sweep changes nothing. *)
Theorem X3_cleanup_agrees_with_get now c :
  (∀ k, cache (cleanup now c) !! k = (get now k c).1)
  ∧ (∀ k, get now k (cleanup now c) = (cache (cleanup now c) !! k, cleanup now c))
  ∧ cleanup now (cleanup now c) = cleanup now c.
Proof.
  split_and!.
  - intros k. apply lookup_cleanup.
  - intros k. unfold get. destruct (cache (cleanup now c) !! k) as [entry|] eqn:Hk; [|done].
    rewrite lookup_cleanup, get_result in Hk.
    destruct (cache c !! k) as [entry'|]; [|done].
    destruct (expired c now entry') eqn:He; [done|]. injection Hk as ->.
    unfold expired in *. simpl. by rewrite He.
  - unfold cleanup. simpl. f_equal. apply map_eq. intros k.
    rewrite map_lookup_filter.
    destruct (filter _ (cache c) !! k) as [entry|] eqn:Hk; simpl; [|done].
    apply map_lookup_filter_Some in Hk as [_ He]. simpl in He.
    case_guard as Hg; [done|]. destruct Hg. simpl. exact He.
Qed.

(** X4: an entry that covers a range and a set of types covers every
    range inside it and every smaller set of types. *)
Theorem X4_matches_narrower entry s e needed s' e' needed' :
  matches entry s e needed = true →
  (s ≤ s')%string → (e' ≤ e)%string → TypesCovered needed' needed →
  matches entry s' e' needed' = true.
Proof.
  rewrite !matches_true_iff.
  intros (Hs & He & Hstart & Hend & H1 & H2 & H3 & H4) Hss Hee (G1 & G2 & G3 & G4).
  split_and!; [done | done | by etrans | by etrans |].
  unfold TypesCovered. split_and!; intros Hn.
  - by apply H1, G1.
  - by apply H2, G2.
  - by apply H3, G3.
  - by apply H4, G4.
Qed.

Lemma filter_filter_implies {A} (f g : A → bool) (l : list A) :
  (∀ x, f x = true → g x = true) → List.filter f (List.filter g l) = List.filter f l.
Proof.
  intros Hfg. induction l as [|x l IH]; [done|]. simpl.
  destruct (g x) eqn:Hg; simpl.
  - destruct (f x); by rewrite IH.
  - destruct (f x) eqn:Hf; [|done]. apply Hfg in Hf. congruence.
Qed.

Lemma within_narrower s e s' e' d :
  (s ≤ s')%string → (e' ≤ e)%string → within s' e' d = true → within s e d = true.
Proof.
  rewrite !within_iff. intros Hs He [H1 H2]. split; by etrans.
Qed.

(** X5: narrowing in two steps is narrowing at once.  Whatever is
    filtered out of an entry for a range, filtering the result again for
    a range inside the first gives what filtering the entry for that
    range gives; with the same range twice, [filterData] changes nothing
    the second time. *)
Theorem X5_filterData_narrows entry s e s' e' start end_ types stamp :
  (s ≤ s')%string → (e' ≤ e)%string →
  filterData (CacheEntry.mk start end_ (filterData entry s e) types stamp) s' e'
  = filterData entry s' e'.
Proof.
  intros Hs He. unfold filterData, filterByDate, filterHeartRate. simpl.
  f_equal; [..|f_equal]; apply filter_filter_implies.
  - intros x. by apply within_narrower.
  - intros x. by apply within_narrower.
  - intros x. by apply within_narrower.
  - intros r. destruct (readingDay r); [by apply within_narrower | done].
  - intros kv. by apply within_narrower.
Qed.

End CacheComposition.

Lemma X1_set_then_get_witness :
  OuraCache.get (noon + 1000) "s2"
    (OuraCache.set noon "s2" "2026-10-26" "2026-11-02" sampleData allTypes sampleCache)
  = (Some (CacheEntry.mk "2026-10-26" "2026-11-02" sampleData allTypes noon),
     OuraCache.set noon "s2" "2026-10-26" "2026-11-02" sampleData allTypes sampleCache).
Proof.
  refine (proj1 (X1_set_then_get noon (noon + 1000) "s2" "2026-10-26" "2026-11-02"
                   sampleData allTypes sampleCache _)).
  by vm_compute.
Defined.

Lemma X4_matches_narrower_witness :
  OuraCache.matches sampleEntry "2026-10-30" "2026-11-01"
    (DataTypeFlags.mk true false false false) = true.
Proof.
  apply (X4_matches_narrower sampleEntry "2026-10-26" "2026-11-02" allTypes).
  - by vm_compute.
  - by vm_compute.
  - by vm_compute.
  - by repeat split.
Defined.

Lemma X5_filterData_narrows_witness :
  OuraCache.filterData
    (CacheEntry.mk "2026-10-30" "2026-11-02"
       (OuraCache.filterData sampleEntry "2026-10-30" "2026-11-02") allTypes noon)
    "2026-10-31" "2026-11-01"
  = OuraCache.filterData sampleEntry "2026-10-31" "2026-11-01".
Proof.
  apply (X5_filterData_narrows sampleEntry "2026-10-30" "2026-11-02"); by vm_compute.
Defined.

(** ** Retries and model fallback: the whole run *)

Section RetryRuns.
Import Gemini.
Variable gen : nat → GenRequest → Completion Stream.
Variable random : nat → Q.
Variable contents : Contents.
Variable maxRetries : Z.

Local Arguments attempts : simpl never.

Lemma delaysFrom_cons attempt k m :
  delaysFrom random attempt k (S m)
  = backoff attempt (random k) :: delaysFrom random (attempt + 1) (S k) m.
Proof.
  unfold delaysFrom. simpl. rewrite Z.add_0_r, Nat.add_0_r. f_equal.
  rewrite <- seq_shift, <- !list_fmap_compose. apply list_fmap_ext. intros _ i _. simpl.
  f_equal; [lia | f_equal; lia].
Qed.

(** The run of the inner loop on one model: nothing at all when there
    is no attempt left, otherwise [n] calls of which all but the last
    met a rate limit, with a delay after each of these. *)
Lemma attempts_run model : ∀ fuel attempt st a st',
  0 ≤ attempt → Z.of_nat fuel = maxRetries - attempt →
  attempts gen random model contents maxRetries fuel attempt st = (a, st') →
  (fuel = 0%nat ∧ a = Exhausted ∧ st' = st)
  ∨ ∃ n, (1 ≤ n ≤ fuel)%nat
      ∧ calls st' = calls st ++ replicate n (requestTo model contents)
      ∧ delays st' = delays st ++ delaysFrom random attempt (length (delays st)) (n - 1)
      ∧ (∀ i, (i < n - 1)%nat →
              ∃ e, gen (length (calls st) + i)%nat (requestTo model contents) = Throw e
                   ∧ is429 e = true)
      ∧ match a with
        | Got stream =>
            gen (length (calls st) + (n - 1))%nat (requestTo model contents) = Return stream
        | Aborted e =>
            gen (length (calls st) + (n - 1))%nat (requestTo model contents) = Throw e
            ∧ is429 e = false ∧ lastError st' = Some e
        | Exhausted =>
            n = fuel
            ∧ ∃ e, gen (length (calls st) + (n - 1))%nat (requestTo model contents) = Throw e
                   ∧ is429 e = true ∧ lastError st' = Some e
        end.
Proof.
  induction fuel as [|fuel IH]; intros attempt st a st' Hattempt Hfuel Hrun.
  { left. simpl in Hrun. by injection Hrun as <- <-. }
  right. rewrite attempts_step in Hrun by lia. cbv zeta in Hrun.
  destruct (gen (length (calls st)) (requestTo model contents)) as [stream|error] eqn:Hgen.
  { injection Hrun as <- <-. exists 1%nat. simpl.
    rewrite Nat.add_0_r, app_nil_r. split; [lia|]. split_and!; try done. intros i Hi; lia. }
  destruct (is429 error) eqn:H429; simpl in Hrun.
  - destruct (Z.ltb_spec attempt (maxRetries - 1)) as [Hlt|Hge].
    + apply IH in Hrun; [|lia..].
      destruct Hrun as [(-> & _) | (n & Hn & Hcalls & Hdelays & Hbefore & Hlast)]; [lia|].
      cbn [calls delays lastError] in Hcalls, Hdelays, Hbefore, Hlast.
      rewrite length_app in Hdelays, Hbefore. simpl in Hdelays, Hbefore.
      exists (S n). split; [lia|]. split_and!.
      * rewrite Hcalls, <- app_assoc. done.
      * rewrite Hdelays, <- app_assoc. f_equal.
        replace (S n - 1)%nat with (S (n - 1)) by lia. rewrite delaysFrom_cons.
        simpl. do 3 f_equal. lia.
      * intros [|i] Hi.
        { rewrite Nat.add_0_r. by exists error. }
        destruct (Hbefore i ltac:(lia)) as (e & He & He').
        exists e. split; [|done]. rewrite <- He. f_equal. lia.
      * replace (length (calls st) + (S n - 1))%nat
          with (length (calls st ++ [requestTo model contents]) + (n - 1))%nat
          by (rewrite length_app; simpl; lia).
        destruct a; [done | | done].
        destruct Hlast as [-> Hlast]. split; [lia | done].
    + injection Hrun as <- <-. exists 1%nat. simpl.
      rewrite Nat.add_0_r, app_nil_r. split; [lia|].
      split_and!; try done; [intros i Hi; lia | lia | by exists error].
  - injection Hrun as <- <-. exists 1%nat. simpl.
    rewrite Nat.add_0_r, app_nil_r. split; [lia|]. split_and!; try done. intros i Hi; lia.
Qed.

(** The whole run, for a budget of at least one attempt: [a] calls to
    the primary model and then [b] calls to the fallback. *)
Lemma generateWithRetry_run :
  1 ≤ maxRetries →
  ∃ a b : nat,
    (1 ≤ a ≤ Z.to_nat maxRetries)%nat ∧ (b ≤ Z.to_nat maxRetries)%nat
    ∧ (b ≠ 0%nat → a = Z.to_nat maxRetries)
    ∧ calls (generateWithRetry gen random contents maxRetries).2
      = replicate a (requestTo primaryModel contents)
        ++ replicate b (requestTo fallbackModel contents)
    ∧ delays (generateWithRetry gen random contents maxRetries).2
      = delaysFrom random 0 0 (a - 1) ++ delaysFrom random 0 (a - 1) (b - 1)
    ∧ (∀ i, (i < a - 1)%nat →
            ∃ e, gen i (requestTo primaryModel contents) = Throw e ∧ is429 e = true)
    ∧ (∀ i, (i < b - 1)%nat →
            ∃ e, gen (a + i)%nat (requestTo fallbackModel contents) = Throw e
                 ∧ is429 e = true)
    ∧ (b ≠ 0%nat →
       ∃ e, gen (a - 1)%nat (requestTo primaryModel contents) = Throw e ∧ is429 e = true)
    ∧ match (generateWithRetry gen random contents maxRetries).1 with
      | Return stream =>
          gen (a + b - 1)%nat
              (requestTo (if decide (b = 0%nat) then primaryModel else fallbackModel) contents)
          = Return stream
      | Throw e =>
          gen (a + b - 1)%nat
              (requestTo (if decide (b = 0%nat) then primaryModel else fallbackModel) contents)
          = Throw e
          ∧ (is429 e = true → a = Z.to_nat maxRetries ∧ b = Z.to_nat maxRetries)
      end.
Proof.
  intros Hmax. unfold generateWithRetry, MODELS. cbn [tryModels].
  fold primaryModel fallbackModel.
  destruct (attempts gen random primaryModel contents maxRetries (Z.to_nat maxRetries) 0
              initial) as [r1 st1] eqn:Hrun1.
  apply attempts_run in Hrun1; [|lia..].
  destruct Hrun1 as [(Hz & _) | (a & Ha & Hcalls1 & Hdelays1 & Hbefore1 & Hlast1)]; [lia|].
  simpl in Hcalls1, Hdelays1, Hbefore1, Hlast1.
  destruct r1 as [stream| |e].
  - exists a, 0%nat. simpl. rewrite !app_nil_r, Nat.add_0_r.
    split_and!; try done; try lia; intros; lia.
  - destruct Hlast1 as (-> & e1 & Hgen1 & H4291 & Herr1).
    destruct (attempts gen random fallbackModel contents maxRetries (Z.to_nat maxRetries) 0
                st1) as [r2 st2] eqn:Hrun2.
    apply attempts_run in Hrun2; [|lia..].
    destruct Hrun2 as [(Hz & _) | (b & Hb & Hcalls2 & Hdelays2 & Hbefore2 & Hlast2)]; [lia|].
    rewrite Hcalls1 in Hcalls2, Hbefore2, Hlast2. rewrite Hdelays1 in Hdelays2.
    rewrite length_replicate in Hbefore2, Hlast2.
    assert (Hlen : length (delaysFrom random 0 0 (Z.to_nat maxRetries - 1))
                   = (Z.to_nat maxRetries - 1)%nat).
    { unfold delaysFrom. by rewrite length_fmap, length_seq. }
    rewrite Hlen in Hdelays2.
    exists (Z.to_nat maxRetries), b.
    assert (Hb0 : b ≠ 0%nat) by lia.
    replace (Z.to_nat maxRetries + b - 1)%nat with (Z.to_nat maxRetries + (b - 1))%nat by lia.
    destruct (decide (b = 0%nat)) as [|_]; [done|].
    split; [lia|]. split; [lia|]. split; [done|].
    split; [destruct r2; simpl; exact Hcalls2|].
    split; [destruct r2; simpl; exact Hdelays2|].
    split; [done|]. split; [done|]. split; [intros _; by exists e1|].
    destruct r2 as [stream| |e]; simpl.
    + done.
    + destruct Hlast2 as (-> & e2 & Hgen2 & H4292 & Herr2). rewrite Herr2. simpl.
      split; [done|]. intros _. lia.
    + destruct Hlast2 as (Hgen2 & H4292 & _). split; [done|]. congruence.
  - destruct Hlast1 as (Hgen1 & H4291 & _).
    exists a, 0%nat. simpl. rewrite !app_nil_r, Nat.add_0_r.
    split_and!; try done; try lia; try congruence; intros; lia.
Qed.

Lemma generateWithRetry_no_budget :
  maxRetries ≤ 0 →
  generateWithRetry gen random contents maxRetries
  = (Throw (mkError "Error" (Some "All models failed")), initial).
Proof.
  intros Hmax. unfold generateWithRetry, MODELS. cbn [tryModels].
  replace (Z.to_nat maxRetries) with 0%nat by lia. reflexivity.
Qed.

Lemma delaysFrom_bounds attempt k m :
  (∀ i, (0 <= random i)%Q ∧ (random i < 1)%Q) →
  0 ≤ attempt → attempt + Z.of_nat m ≤ maxRetries - 1 →
  Forall (fun d => (inject_Z 1000 <= d)%Q
                   ∧ (d < inject_Z (2 ^ (maxRetries - 2) * 1000 + 1000))%Q)
         (delaysFrom random attempt k m).
Proof.
  intros Hrandom Hattempt Hm. unfold delaysFrom.
  apply Forall_fmap, Forall_forall. intros i Hi%elem_of_seq. simpl.
  destruct (Hrandom (k + i)%nat) as [H0 H1].
  destruct (backoff_bounds (attempt + Z.of_nat i) _ H0 H1) as [Hlow Hhigh].
  assert (Hpow1 : 1 ≤ 2 ^ (attempt + Z.of_nat i)) by (apply Z.pow_le_mono_r with (b := 0); lia).
  assert (Hpow2 : 2 ^ (attempt + Z.of_nat i) ≤ 2 ^ (maxRetries - 2))
    by (apply Z.pow_le_mono_r; lia).
  split.
  - eapply Qle_trans; [|exact Hlow]. rewrite <- Zle_Qle. lia.
  - eapply Qlt_le_trans; [exact Hhigh|].
    rewrite inject_Z_plus. apply Qplus_le_l. rewrite <- Zle_Qle. lia.
Qed.

(** X6. Whatever [generateWithRetry] answers is the answer of the last
    call it made: a returned stream is the stream of the last call, a
    thrown error is the error of the last call, and every call before
    the last one failed with a rate-limit error.  Only with a budget
    of no attempt at all is no call made, and then the error thrown is
    [Error("All models failed")]. *)
Theorem X6_outcome_is_last_call :
  (∀ i request,
      calls (generateWithRetry gen random contents maxRetries).2 !! i = Some request →
      (S i < length (calls (generateWithRetry gen random contents maxRetries).2))%nat →
      ∃ e, gen i request = Throw e ∧ is429 e = true)
  ∧ match (generateWithRetry gen random contents maxRetries).1 with
    | Return stream =>
        ∃ earlier request,
          calls (generateWithRetry gen random contents maxRetries).2 = earlier ++ [request]
          ∧ gen (length earlier) request = Return stream
    | Throw e =>
        (maxRetries ≤ 0
         ∧ calls (generateWithRetry gen random contents maxRetries).2 = []
         ∧ e = mkError "Error" (Some "All models failed"))
        ∨ ∃ earlier request,
            calls (generateWithRetry gen random contents maxRetries).2 = earlier ++ [request]
            ∧ gen (length earlier) request = Throw e
    end.
Proof.
  destruct (decide (1 ≤ maxRetries)) as [Hmax|Hmax].
  - destruct (generateWithRetry_run Hmax)
      as (a & b & Ha & Hb & Hab & Hcalls & _ & Hbefore1 & Hbefore2 & Hmiddle & Hlast).
    rewrite Hcalls. split.
    + intros i request Hi Hlen. rewrite length_app, !length_replicate in Hlen.
      destruct (decide (i < a)%nat) as [Hia|Hia].
      * rewrite lookup_app_l in Hi by (rewrite length_replicate; lia).
        apply lookup_replicate in Hi as [-> _].
        destruct (decide (i < a - 1)%nat) as [Hlt|Hlt]; [by apply Hbefore1|].
        replace i with (a - 1)%nat by lia. apply Hmiddle. lia.
      * rewrite lookup_app_r in Hi by (rewrite length_replicate; lia).
        rewrite length_replicate in Hi. apply lookup_replicate in Hi as [-> Hib].
        replace i with (a + (i - a))%nat by lia. apply Hbefore2. lia.
    + set (earlier := if decide (b = 0%nat)
                      then replicate (a - 1) (requestTo primaryModel contents)
                      else replicate a (requestTo primaryModel contents)
                           ++ replicate (b - 1) (requestTo fallbackModel contents)).
      assert (Hsplit :
        replicate a (requestTo primaryModel contents)
          ++ replicate b (requestTo fallbackModel contents)
        = earlier
          ++ [requestTo (if decide (b = 0%nat) then primaryModel else fallbackModel)
                        contents]).
      { subst earlier. destruct (decide (b = 0%nat)) as [->|Hb0].
        - simpl. rewrite app_nil_r.
          replace a with (S (a - 1)) at 1 by lia. by rewrite replicate_S_end.
        - replace b with (S (b - 1)) at 1 by lia. rewrite replicate_S_end.
          by rewrite app_assoc. }
      assert (Hlen : length earlier = (a + b - 1)%nat).
      { subst earlier. destruct (decide (b = 0%nat)).
        - rewrite length_replicate. lia.
        - rewrite length_app, !length_replicate. lia. }
      destruct (generateWithRetry gen random contents maxRetries).1 as [stream|e].
      * eexists earlier, _. split; [exact Hsplit|]. rewrite Hlen. exact Hlast.
      * right. eexists earlier, _. split; [exact Hsplit|]. rewrite Hlen. apply Hlast.
  - rewrite generateWithRetry_no_budget by lia. simpl. split.
    + intros i request Hi. by rewrite lookup_nil in Hi.
    + left. split; [lia|done].
Qed.

(** X7. With a budget of [n >= 1] attempts per model, the calls are
    [a] calls to the primary model followed by [b] calls to the
    fallback model, with [1 <= a <= n] and [b <= n]; the fallback is
    called only after the primary has used all [n] attempts.  The run
    waits once between two calls to the same model and never between
    the two models; the exponent starts again at 0 for the fallback
    while the random draws go on. *)
Theorem X7_primary_then_fallback :
  1 ≤ maxRetries →
  ∃ a b : nat,
    (1 ≤ a ≤ Z.to_nat maxRetries)%nat ∧ (b ≤ Z.to_nat maxRetries)%nat
    ∧ (b ≠ 0%nat → a = Z.to_nat maxRetries)
    ∧ calls (generateWithRetry gen random contents maxRetries).2
      = replicate a (requestTo primaryModel contents)
        ++ replicate b (requestTo fallbackModel contents)
    ∧ delays (generateWithRetry gen random contents maxRetries).2
      = delaysFrom random 0 0 (a - 1) ++ delaysFrom random 0 (a - 1) (b - 1).
Proof.
  intros Hmax.
  destruct (generateWithRetry_run Hmax) as (a & b & Ha & Hb & Hab & Hcalls & Hdelays & _).
  by exists a, b.
Qed.

(** X8. When [Math.random] stays in [0, 1), every delay of a run is at
    least 1000 ms and less than [2^(maxRetries - 2) * 1000 + 1000] ms,
    and a run waits at most [2 * (maxRetries - 1)] times. *)
Theorem X8_delays_bounded :
  (∀ i, (0 <= random i)%Q ∧ (random i < 1)%Q) →
  Forall (fun d => (inject_Z 1000 <= d)%Q
                   ∧ (d < inject_Z (2 ^ (maxRetries - 2) * 1000 + 1000))%Q)
         (delays (generateWithRetry gen random contents maxRetries).2)
  ∧ Z.of_nat (length (delays (generateWithRetry gen random contents maxRetries).2))
    ≤ Z.max 0 (2 * (maxRetries - 1)).
Proof.
  intros Hrandom. destruct (decide (1 ≤ maxRetries)) as [Hmax|Hmax].
  - destruct (generateWithRetry_run Hmax) as (a & b & Ha & Hb & Hab & _ & -> & _).
    split.
    + apply Forall_app. split; apply delaysFrom_bounds; try done; lia.
    + unfold delaysFrom. rewrite length_app, !length_fmap, !length_seq. lia.
  - rewrite generateWithRetry_no_budget by lia. simpl. split; [constructor | lia].
Qed.

(** X9. When every call meets a rate limit, each model is tried
    exactly [maxRetries] times, the primary first, with
    [maxRetries - 1] waits per model, and the error thrown is the one
    of the last call to the fallback model. *)
Theorem X9_all_rate_limited :
  1 ≤ maxRetries →
  (∀ k request, ∃ e, gen k request = Throw e ∧ is429 e = true) →
  calls (generateWithRetry gen random contents maxRetries).2
  = replicate (Z.to_nat maxRetries) (requestTo primaryModel contents)
    ++ replicate (Z.to_nat maxRetries) (requestTo fallbackModel contents)
  ∧ delays (generateWithRetry gen random contents maxRetries).2
    = delaysFrom random 0 0 (Z.to_nat maxRetries - 1)
      ++ delaysFrom random 0 (Z.to_nat maxRetries - 1) (Z.to_nat maxRetries - 1)
  ∧ (generateWithRetry gen random contents maxRetries).1
    = gen (2 * Z.to_nat maxRetries - 1)%nat (requestTo fallbackModel contents).
Proof.
  intros Hmax Hall.
  destruct (generateWithRetry_run Hmax)
    as (a & b & Ha & Hb & Hab & Hcalls & Hdelays & _ & _ & _ & Hlast).
  assert (a = Z.to_nat maxRetries ∧ b = Z.to_nat maxRetries) as [-> ->].
  { destruct (generateWithRetry gen random contents maxRetries).1 as [stream|e].
    - destruct (Hall (a + b - 1)%nat
        (requestTo (if decide (b = 0%nat) then primaryModel else fallbackModel) contents))
        as (e & He & _). congruence.
    - destruct Hlast as [Hgen Hfull]. apply Hfull.
      destruct (Hall (a + b - 1)%nat
        (requestTo (if decide (b = 0%nat) then primaryModel else fallbackModel) contents))
        as (e' & He' & H429). congruence. }
  split; [done|]. split; [done|].
  destruct (decide (Z.to_nat maxRetries = 0%nat)) as [|_]; [lia|].
  replace (2 * Z.to_nat maxRetries - 1)%nat
    with (Z.to_nat maxRetries + Z.to_nat maxRetries - 1)%nat by lia.
  destruct (generateWithRetry gen random contents maxRetries).1 as [stream|e].
  - by rewrite Hlast.
  - by destruct Hlast as [-> _].
Qed.

End RetryRuns.

Lemma X7_primary_then_fallback_witness :
  ∃ a b : nat,
    (1 ≤ a ≤ Z.to_nat 2)%nat ∧ (b ≤ Z.to_nat 2)%nat
    ∧ (b ≠ 0%nat → a = Z.to_nat 2)
    ∧ Gemini.calls (Gemini.generateWithRetry twiceLimited halfJitter (Prompt "hello") 2).2
      = replicate a (requestTo primaryModel (Prompt "hello"))
        ++ replicate b (requestTo fallbackModel (Prompt "hello"))
    ∧ Gemini.delays (Gemini.generateWithRetry twiceLimited halfJitter (Prompt "hello") 2).2
      = delaysFrom halfJitter 0 0 (a - 1) ++ delaysFrom halfJitter 0 (a - 1) (b - 1).
Proof.
  apply (X7_primary_then_fallback twiceLimited halfJitter (Prompt "hello") 2). lia.
Defined.

Lemma X8_delays_bounded_witness :
  Forall (fun d => (inject_Z 1000 <= d)%Q
                   ∧ (d < inject_Z (2 ^ (2 - 2) * 1000 + 1000))%Q)
         (Gemini.delays (Gemini.generateWithRetry alwaysLimited halfJitter (Prompt "hello") 2).2)
  ∧ Z.of_nat (length (Gemini.delays
                 (Gemini.generateWithRetry alwaysLimited halfJitter (Prompt "hello") 2).2))
    ≤ Z.max 0 (2 * (2 - 1)).
Proof.
  apply (X8_delays_bounded alwaysLimited halfJitter (Prompt "hello") 2).
  intros i. unfold halfJitter. split; [discriminate | reflexivity].
Defined.

Lemma X9_all_rate_limited_witness :
  Gemini.calls (Gemini.generateWithRetry alwaysLimited halfJitter (Prompt "hello") 2).2
  = replicate (Z.to_nat 2) (requestTo primaryModel (Prompt "hello"))
    ++ replicate (Z.to_nat 2) (requestTo fallbackModel (Prompt "hello"))
  ∧ Gemini.delays (Gemini.generateWithRetry alwaysLimited halfJitter (Prompt "hello") 2).2
    = delaysFrom halfJitter 0 0 (Z.to_nat 2 - 1)
      ++ delaysFrom halfJitter 0 (Z.to_nat 2 - 1) (Z.to_nat 2 - 1)
  ∧ (Gemini.generateWithRetry alwaysLimited halfJitter (Prompt "hello") 2).1
    = alwaysLimited (2 * Z.to_nat 2 - 1)%nat (requestTo fallbackModel (Prompt "hello")).
Proof.
  apply (X9_all_rate_limited alwaysLimited halfJitter (Prompt "hello") 2); [lia|].
  intros k request. exists rateLimited. split; reflexivity.
Defined.

(** ** Date-range extraction, further *)

Lemma key_of_year_zero : dateKey (civilFromDays (-719528)) = 101.
Proof. reflexivity. Qed.

Lemma key_before_year_zero : dateKey (civilFromDays (-719529)) = -8769.
Proof. reflexivity. Qed.

(** The years 0 to 9999, and the years before. *)
Lemma civilFromDays_year_four_digits d :
  -719528 ≤ d ≤ 2932896 → 0 ≤ (civilFromDays d).1.1 ≤ 9999.
Proof.
  intros [Hlo Hhi].
  pose proof (civilFromDays_le _ _ Hlo) as H1. pose proof (civilFromDays_le _ _ Hhi) as H2.
  pose proof (civilFromDays_succ d) as (_ & Hm & Hd).
  rewrite key_of_year_zero in H1. rewrite key_of_last_day in H2.
  generalize dependent (civilFromDays d).
  intros [[y m] dd]. unfold dateKey. cbn [fst snd]. intros. lia.
Qed.

Lemma civilFromDays_year_negative d :
  d < -719528 → (civilFromDays d).1.1 < 0.
Proof.
  intros Hd.
  pose proof (civilFromDays_le d (-719529) ltac:(lia)) as H1.
  pose proof (civilFromDays_succ d) as (_ & Hm & Hdd).
  rewrite key_before_year_zero in H1.
  generalize dependent (civilFromDays d).
  intros [[y m] dd]. unfold dateKey. cbn [fst snd]. intros. lia.
Qed.

Lemma padNum_head w z :
  ∃ k rest, 0 ≤ k ≤ 9 ∧ padNum (S w) z = String (digitChar k) rest.
Proof.
  revert z. induction w as [|w IH]; intros z.
  - exists (z mod 10), "".
    split; [pose proof (Z.mod_pos_bound z 10 ltac:(lia)); lia | reflexivity].
  - destruct (IH (z / 10)) as (k & rest & Hk & Hpad).
    exists k, (rest +:+ String (digitChar (z mod 10)) "").
    split; [done|]. change (padNum (S (S w)) z)
      with (padNum (S w) (z / 10) +:+ String (digitChar (z mod 10)) "").
    by rewrite Hpad.
Qed.

Lemma minus_before_digit k s s' :
  0 ≤ k ≤ 9 → (String "-" s ≤ String (digitChar k) s')%string.
Proof.
  intros Hk.
  assert (Hk' : k = 0 ∨ k = 1 ∨ k = 2 ∨ k = 3 ∨ k = 4 ∨ k = 5 ∨ k = 6 ∨ k = 7 ∨ k = 8 ∨ k = 9)
    by lia.
  destruct Hk' as [->|[->|[->|[->|[->|[->|[->|[->|[->| ->]]]]]]]]]; done.
Qed.

(** The dates of two times sort like the times, when the later one
    is of the years 1970 to 9999. *)
Lemma formatTime_le_any t t' :
  t ≤ t' → 0 ≤ t' < 253402300800000 → (formatTime t ≤ formatTime t')%string.
Proof.
  intros Hle [H0 Hhi]. unfold formatTime, Day, msPerDay.
  assert (Hd : t / 86400000 ≤ t' / 86400000) by (apply Z.div_le_mono; lia).
  assert (Hd0 : 0 ≤ t' / 86400000) by (apply Z.div_pos; lia).
  assert (Hd1 : t' / 86400000 ≤ 2932896).
  { apply Z.lt_succ_r, Z.div_lt_upper_bound; lia. }
  pose proof (civilFromDays_year_four_digits (t' / 86400000) ltac:(lia)) as Hy'.
  pose proof (civilFromDays_succ (t / 86400000)) as (_ & ? & ?).
  pose proof (civilFromDays_succ (t' / 86400000)) as (_ & ? & ?).
  destruct (decide (-719528 ≤ t / 86400000)) as [Hpos|Hneg].
  - pose proof (civilFromDays_year_four_digits (t / 86400000) ltac:(lia)).
    apply isoDate_le; try lia. by apply civilFromDays_le.
  - pose proof (civilFromDays_year_negative (t / 86400000) ltac:(lia)) as Hy.
    unfold isoDate. rewrite (isoYear_four_digits (civilFromDays (t' / 86400000)).1.1) by done.
    destruct (padNum_head 3 (civilFromDays (t' / 86400000)).1.1) as (k & rest & Hk & ->).
    unfold isoYear.
    destruct (Z.leb_spec 0 (civilFromDays (t / 86400000)).1.1); [lia|].
    destruct (Z.ltb_spec (civilFromDays (t / 86400000)).1.1 0); [|lia].
    cbn [andb]. by apply minus_before_digit.
Qed.

Section ExtractBranches.
Variable tz : TimeZone.

Lemma toRange_custom start end_ r :
  toRange start end_ = Return r → usesCustomRange r = true.
Proof.
  unfold toRange. destruct start, end_; simpl; try done. by intros [= <-].
Qed.

Lemma toRange_bind_custom start end_ p :
  (let* r := toRange start end_ in Return (Some r)) = Return (Some p) →
  usesCustomRange p = true.
Proof.
  destruct (toRange start end_) as [r|] eqn:Hr; cbn [bindC]; [|done].
  intros [= <-]. by eapply toRange_custom.
Qed.

(** Every range of the deterministic parser is marked as custom. *)
Lemma parse_custom query today p :
  parseDateRangeFromQuery tz query today = Return (Some p) → usesCustomRange p = true.
Proof.
  unfold parseDateRangeFromQuery. cbv zeta.
  destruct (exec rangeRe _); [by intros [= <-]|].
  destruct (exec singleDateRe _); [by intros [= <-]|].
  destruct (test todayRe _); [by intros [= <-]|].
  destruct (test yesterdayRe _).
  { destruct (formatDate _); cbn [bindC]; [|done]. by intros [= <-]. }
  destruct (exec (relativeRe false) _); [apply toRange_bind_custom|].
  destruct (test (phraseRe "this" "week") _ || test (phraseRe "last" "week") _);
    [apply toRange_bind_custom|].
  destruct (test (phraseRe "this" "month") _); [apply toRange_bind_custom|].
  destruct (test (phraseRe "last" "month") _); [apply toRange_bind_custom|].
  destruct (test (phraseRe "this" "year") _); [apply toRange_bind_custom|].
  destruct (test (phraseRe "last" "year") _); [apply toRange_bind_custom|].
  destruct (exec yearRe _); [apply toRange_bind_custom | done].
Qed.

Lemma test_false_exec r q : test r q = false → exec r q = None.
Proof.
  unfold test. intros H%bool_decide_eq_false.
  destruct (exec r q) as [c|]; [|done]. destruct H. by exists c.
Qed.

(** [toRange(start, today)] for the start that [setDate] puts [n] days
    back. *)
Lemma days_back_range n today :
  toRange (setDate tz today (getDate tz today - n)) (Some today)
  = if Z.abs (daysBefore tz n today) <=? maxTime
    then Return (mkRange (formatTime (daysBefore tz n today)) (formatTime today) true)
    else Throw invalidTime.
Proof.
  rewrite setDate_days_back. fold (daysBefore tz n today). unfold TimeClip.
  by destruct (Z.abs (daysBefore tz n today) <=? maxTime).
Qed.

Lemma daysBefore_bounds n today :
  OffsetsWithin msPerDay tz →
  today - (n + 1) * msPerDay ≤ daysBefore tz n today ≤ today - (n - 1) * msPerDay.
Proof.
  intros Hzone. unfold daysBefore, UTC, LocalTime.
  specialize (Hzone today (today + offsetAtUTC tz today - n * msPerDay)). lia.
Qed.

Variable ai ai' : GenRequest → Completion Stream.
Variable parse parse' : string → Completion DateReply.

(** X10. The model is consulted only when the deterministic parser
    finds nothing and one of DATE_PATTERNS matches the query: in
    every other case the outcome of extractDateRange is the same
    whatever the model and [JSON.parse] would answer. *)
Theorem X10_model_consulted_only_for_date_words query today :
  parseDateRangeFromQuery tz query today ≠ Return None
  ∨ existsb (fun pattern => test pattern query) DATE_PATTERNS = false →
  extractDateRange tz ai parse query today = extractDateRange tz ai' parse' query today.
Proof.
  unfold extractDateRange. cbv zeta.
  generalize (existsb (fun pattern => test pattern query) DATE_PATTERNS). intros has H.
  destruct (formatDate _) as [weekAgo|]; [|done]. cbn [bindC].
  destruct (parseDateRangeFromQuery tz query today) as [[p|]|e]; cbn [bindC]; [done| |done].
  destruct H as [H| ->]; [by destruct H | reflexivity].
Qed.

(** X11. The flag usesCustomRange of the result tells where the range
    comes from: when it is false, the parser found nothing and the
    range is the default one, today and the seventh day before it;
    when it is true, the range comes from the parser or, the parser
    having found nothing and a date pattern matching the query, from
    the model. *)
Theorem X11_custom_flag query today r :
  PlausibleClock today →
  extractDateRange tz ai parse query today = Return r →
  if usesCustomRange r
  then (∃ p, parseDateRangeFromQuery tz query today = Return (Some p))
       ∨ (parseDateRangeFromQuery tz query today = Return None
          ∧ existsb (fun pattern => test pattern query) DATE_PATTERNS = true
          ∧ askModel ai parse query (formatTime today) = Return (Some r))
  else parseDateRangeFromQuery tz query today = Return None
       ∧ r = mkRange (formatTime (today - 7 * msPerDay)) (formatTime today) false.
Proof.
  intros Hclock Hr.
  destruct (parseDateRangeFromQuery tz query today) as [[p|]|e] eqn:Hp.
  - rewrite (extract_of_parsed _ _ _ _ _ _ Hclock Hp) in Hr.
    pose proof (parse_custom _ _ _ Hp) as Hcustom.
    destruct (gt (startDate p) (endDate p)); injection Hr as <-; simpl.
    + left. by eexists.
    + rewrite Hcustom. left. by eexists.
  - rewrite (extract_without_parsed _ _ _ _ _ Hclock Hp) in Hr.
    destruct (askModel ai parse query (formatTime today)) as [[range|]|] eqn:Hask;
      [|by injection Hr as <-..].
    destruct (existsb (fun pattern => test pattern query) DATE_PATTERNS);
      [|by injection Hr as <-].
    injection Hr as <-. apply askModel_range in Hask as Hrange.
    destruct Hrange as (-> & _). right. done.
  - unfold extractDateRange in Hr. cbv zeta in Hr.
    rewrite weekAgo_valid in Hr by done. simpl in Hr. by rewrite Hp in Hr.
Qed.

(** The range of a start [n >= 1] days back and of today passes
    extractDateRange unchanged, and the failure to format the start
    is thrown on. *)
Lemma extract_days_back query today n :
  OffsetsWithin msPerDay tz → PlausibleClock today → 1 ≤ n →
  parseDateRangeFromQuery tz query today
  = (let* r := toRange (setDate tz today (getDate tz today - n)) (Some today) in
     Return (Some r)) →
  extractDateRange tz ai parse query today
  = if Z.abs (daysBefore tz n today) <=? maxTime
    then Return (mkRange (formatTime (daysBefore tz n today)) (formatTime today) true)
    else Throw invalidTime.
Proof.
  intros Hzone Hclock Hn Hp. rewrite days_back_range in Hp.
  destruct (Z.abs (daysBefore tz n today) <=? maxTime); cbn [bindC] in Hp.
  - rewrite (extract_of_parsed _ _ _ _ _ _ Hclock Hp). cbn [startDate endDate usesCustomRange].
    pose proof (daysBefore_bounds n today Hzone) as Hb.
    assert (Hle : (formatTime (daysBefore tz n today) ≤ formatTime today)%string).
    { apply formatTime_le_any; [unfold msPerDay in *; nia | exact Hclock]. }
    apply gt_false_iff in Hle. rewrite Hle.
    assert (Hrefl : gt (formatTime today) (formatTime today) = false)
      by (by apply gt_false_iff).
    by rewrite Hrefl.
  - unfold extractDateRange. cbv zeta. rewrite weekAgo_valid by done. cbn [bindC].
    by rewrite Hp.
Qed.

(** X12. A query with a relative phrase, last (or past, previous) N
    days, weeks, months or years, that no earlier pattern of the
    parser matches: the range starts N, 7 N, 30 N or 365 N days
    before now on the local clock and ends today, and it is custom;
    when that start lies outside the range of [Date], the extraction
    throws a RangeError instead. *)
Theorem X12_relative_phrase query today m :
  OffsetsWithin msPerDay tz → PlausibleClock today →
  NoMatch [rangeRe; singleDateRe; todayRe; yesterdayRe] (toLowerCase query) →
  exec (relativeRe false) (toLowerCase query) = Some m →
  1 ≤ relativeDays (toNumber (group 2 m)) (group 3 m) →
  extractDateRange tz ai parse query today
  = if Z.abs (daysBefore tz (relativeDays (toNumber (group 2 m)) (group 3 m)) today)
       <=? maxTime
    then Return (mkRange
                   (formatTime (daysBefore tz (relativeDays (toNumber (group 2 m))
                                                            (group 3 m)) today))
                   (formatTime today) true)
    else Throw invalidTime.
Proof.
  intros Hzone Hclock Hno Hm Hdays. apply extract_days_back; try done.
  apply Forall_cons in Hno as [H1%test_false_exec Hno].
  apply Forall_cons in Hno as [H2%test_false_exec Hno].
  apply Forall_cons in Hno as [H3 Hno].
  apply Forall_cons in Hno as [H4 _].
  unfold parseDateRangeFromQuery. cbv zeta. rewrite H1, H2, H3, H4, Hm.
  unfold relativeDays.
  by destruct (startsWith (group 3 m) "year"), (startsWith (group 3 m) "month"),
    (startsWith (group 3 m) "week").
Qed.

(** X13. A query that says yesterday or last night, and has no date
    and no today in it: both ends of the range are the date of the
    time one day before now on the local clock, and the range is
    custom. *)
Theorem X13_yesterday query today :
  OffsetsWithin msPerDay tz → PlausibleClock today →
  NoMatch [rangeRe; singleDateRe; todayRe] (toLowerCase query) →
  test yesterdayRe (toLowerCase query) = true →
  extractDateRange tz ai parse query today
  = Return (mkRange (formatTime (daysBefore tz 1 today))
                    (formatTime (daysBefore tz 1 today)) true).
Proof.
  intros Hzone Hclock Hno Hyes.
  apply Forall_cons in Hno as [H1%test_false_exec Hno].
  apply Forall_cons in Hno as [H2%test_false_exec Hno].
  apply Forall_cons in Hno as [H3 _].
  pose proof (daysBefore_bounds 1 today Hzone) as Hb.
  assert (Hp : parseDateRangeFromQuery tz query today
               = Return (Some (mkRange (formatTime (daysBefore tz 1 today))
                                       (formatTime (daysBefore tz 1 today)) true))).
  { unfold parseDateRangeFromQuery. cbv zeta. rewrite H1, H2, H3, Hyes.
    rewrite setDate_days_back. fold (daysBefore tz 1 today). unfold TimeClip.
    destruct (Z.leb_spec (Z.abs (daysBefore tz 1 today)) maxTime) as [|Hbig]; [done|].
    destruct Hclock. unfold maxTime, msPerDay in *. lia. }
  rewrite (extract_of_parsed _ _ _ _ _ _ Hclock Hp). cbn [startDate endDate usesCustomRange].
  assert (Hrefl : gt (formatTime (daysBefore tz 1 today)) (formatTime (daysBefore tz 1 today))
                  = false) by (by apply gt_false_iff).
  assert (Hle : gt (formatTime (daysBefore tz 1 today)) (formatTime today) = false).
  { apply gt_false_iff, formatTime_le_any; [unfold msPerDay in *; lia | exact Hclock]. }
  by rewrite Hrefl, Hle.
Qed.

(** X14. A query that says this week or last week, and that no
    earlier pattern of the parser matches: for both phrases the range
    is the same, from the date seven days before now on the local
    clock to today, and it is custom. *)
Theorem X14_this_week_is_last_week query today :
  OffsetsWithin msPerDay tz → PlausibleClock today →
  NoMatch [rangeRe; singleDateRe; todayRe; yesterdayRe; relativeRe false]
          (toLowerCase query) →
  test (phraseRe "this" "week") (toLowerCase query) = true
  ∨ test (phraseRe "last" "week") (toLowerCase query) = true →
  extractDateRange tz ai parse query today
  = Return (mkRange (formatTime (daysBefore tz 7 today)) (formatTime today) true).
Proof.
  intros Hzone Hclock Hno Hweek.
  apply Forall_cons in Hno as [H1%test_false_exec Hno].
  apply Forall_cons in Hno as [H2%test_false_exec Hno].
  apply Forall_cons in Hno as [H3 Hno].
  apply Forall_cons in Hno as [H4 Hno].
  apply Forall_cons in Hno as [H5%test_false_exec _].
  pose proof (daysBefore_bounds 7 today Hzone) as Hb.
  rewrite (extract_days_back query today 7) by
    (try done;
     unfold parseDateRangeFromQuery; cbv zeta; rewrite H1, H2, H3, H4, H5;
     by destruct Hweek as [-> | ->]; [|rewrite orb_true_r]).
  destruct (Z.leb_spec (Z.abs (daysBefore tz 7 today)) maxTime) as [|Hbig]; [done|].
  destruct Hclock. unfold maxTime, msPerDay in *. lia.
Qed.

End ExtractBranches.

Lemma offsets_fixedZone offset bound : 0 ≤ bound → OffsetsWithin bound (fixedZone offset).
Proof. intros Hb t t'. simpl. lia. Qed.

Lemma offsets_london : OffsetsWithin msPerDay london2026.
Proof.
  intros t t'. simpl. unfold msPerDay.
  destruct (summerTime2026 t), (summerTime2026 (t' - 3600000)); lia.
Qed.

(** With one offset at all times the days are counted on the UTC
    clock as well. *)
Lemma daysBefore_fixedZone offset n t : daysBefore (fixedZone offset) n t = t - n * msPerDay.
Proof. unfold daysBefore, UTC, LocalTime. simpl. lia. Qed.

Lemma X10_model_consulted_only_for_date_words_witness :
  extractDateRange utcZone unreachable noJson "How did I sleep?" noon
  = extractDateRange utcZone (fun _ => Return (mkStream [Some "{...}"] None))
      (fun _ => Return (mkReply (Some "2026-10-01") (Some "2026-10-05")))
      "How did I sleep?" noon.
Proof.
  apply (X10_model_consulted_only_for_date_words utcZone unreachable
           (fun _ => Return (mkStream [Some "{...}"] None)) noJson
           (fun _ => Return (mkReply (Some "2026-10-01") (Some "2026-10-05")))
           "How did I sleep?" noon).
  right. by vm_compute.
Defined.

Lemma X11_custom_flag_witness :
  parseDateRangeFromQuery utcZone "How did I sleep?" noon = Return None
  ∧ mkRange "2026-10-26" "2026-11-02" false
    = mkRange (formatTime (noon - 7 * msPerDay)) (formatTime noon) false.
Proof.
  apply (X11_custom_flag utcZone unreachable noJson "How did I sleep?" noon
           (mkRange "2026-10-26" "2026-11-02" false)).
  - exact plausible_noon.
  - by vm_compute.
Defined.

Lemma X12_relative_phrase_witness :
  extractDateRange london2026 unreachable noJson "How did I sleep over the last 14 days?" noon
  = if Z.abs (daysBefore london2026 (relativeDays 14 "days") noon) <=? maxTime
    then Return (mkRange (formatTime (daysBefore london2026 (relativeDays 14 "days") noon))
                         (formatTime noon) true)
    else Throw invalidTime.
Proof.
  apply (X12_relative_phrase london2026 unreachable noJson
           "How did I sleep over the last 14 days?" noon
           [(3%nat, "days"); (2%nat, "14"); (1%nat, "last")]).
  - exact offsets_london.
  - exact plausible_noon.
  - repeat constructor; by vm_compute.
  - by vm_compute.
  - by vm_compute.
Defined.

(** Fourteen days back on London's clock, across the end of summer
    time. *)
Example last_14_days_in_london :
  extractDateRange london2026 unreachable noJson "How did I sleep over the last 14 days?" noon
  = Return (mkRange "2026-10-19" "2026-11-02" true).
Proof. by vm_compute. Qed.

Lemma X13_yesterday_witness :
  extractDateRange london2026 unreachable noJson "How did I sleep last night?" noon
  = Return (mkRange (formatTime (daysBefore london2026 1 noon))
                    (formatTime (daysBefore london2026 1 noon)) true).
Proof.
  apply (X13_yesterday london2026 unreachable noJson "How did I sleep last night?" noon).
  - exact offsets_london.
  - exact plausible_noon.
  - repeat constructor; by vm_compute.
  - by vm_compute.
Defined.

Lemma X14_this_week_is_last_week_witness :
  extractDateRange london2026 unreachable noJson "How was my sleep this week?" noon
  = Return (mkRange (formatTime (daysBefore london2026 7 noon)) (formatTime noon) true).
Proof.
  apply (X14_this_week_is_last_week london2026 unreachable noJson
           "How was my sleep this week?" noon).
  - exact offsets_london.
  - exact plausible_noon.
  - repeat constructor; by vm_compute.
  - left. by vm_compute.
Defined.

(** *** A year named by the query *)

Lemma sameDate_eq a b : sameDate a b = true → a = b.
Proof.
  destruct a as [[y m] d], b as [[y' m'] d']. unfold sameDate. cbn [fst snd].
  rewrite !andb_true_iff, !Z.eqb_eq. by intros [[-> ->] ->].
Qed.

Lemma years_checked : forallb yearChecked (seqZ 2000 100) = true.
Proof. by vm_compute. Qed.

Lemma yearChecked_spec y :
  yearChecked y = true →
  civilFromDays (daysFromCivil y 1 1) = (y, 1, 1)
  ∧ civilFromDays (daysFromCivil y 1 1 - 1) = (y - 1, 12, 31)
  ∧ civilFromDays (daysFromCivil y 12 1 + 30) = (y, 12, 31)
  ∧ civilFromDays (daysFromCivil y 12 1 + 30 - 1) = (y, 12, 30)
  ∧ 0 ≤ daysFromCivil y 1 1 ≤ 100000 ∧ 0 ≤ daysFromCivil y 12 1 + 30 ≤ 100000.
Proof.
  unfold yearChecked.
  generalize (civilFromDays (daysFromCivil y 1 1)) (civilFromDays (daysFromCivil y 1 1 - 1))
    (civilFromDays (daysFromCivil y 12 1 + 30)) (civilFromDays (daysFromCivil y 12 1 + 30 - 1))
    (daysFromCivil y 1 1) (daysFromCivil y 12 1).
  intros c1 c2 c3 c4 d1 d2 H.
  apply andb_true_iff in H as [H H8]. apply andb_true_iff in H as [H H7].
  apply andb_true_iff in H as [H H6]. apply andb_true_iff in H as [H H5].
  apply andb_true_iff in H as [H H4]. apply andb_true_iff in H as [H H3].
  apply andb_true_iff in H as [H1 H2].
  apply Z.leb_le in H5, H6, H7, H8.
  split; [by apply sameDate_eq|]. split; [by apply sameDate_eq|].
  split; [by apply sameDate_eq|]. split; [by apply sameDate_eq|]. lia.
Qed.

Lemma year_checked y :
  2000 ≤ y ≤ 2099 →
  civilFromDays (daysFromCivil y 1 1) = (y, 1, 1)
  ∧ civilFromDays (daysFromCivil y 1 1 - 1) = (y - 1, 12, 31)
  ∧ civilFromDays (daysFromCivil y 12 1 + 30) = (y, 12, 31)
  ∧ civilFromDays (daysFromCivil y 12 1 + 30 - 1) = (y, 12, 30)
  ∧ 0 ≤ daysFromCivil y 1 1 ≤ 100000 ∧ 0 ≤ daysFromCivil y 12 1 + 30 ≤ 100000.
Proof.
  intros Hy. apply yearChecked_spec.
  apply (proj1 (forallb_forall yearChecked (seqZ 2000 100)) years_checked).
  apply list_elem_of_In, elem_of_seqZ. lia.
Qed.

Lemma isDigit_code a : isDigit a = true → (48 ≤ code a ≤ 57)%N.
Proof.
  unfold isDigit, inRangeN. rewrite andb_true_iff, !N.leb_le. tauto.
Qed.

(** What the year pattern captures is a number from 2000 to 2099. *)
Lemma yearRe_sound prev s c :
  rmatch yearRe accept prev s [] = Some c → 2000 ≤ toNumber (group 1 c) ≤ 2099.
Proof.
  intros H. apply rmatch_sound in H as (prev' & s' & c' & HM & [= <-]).
  unfold yearRe, chr in HM. cbn [seq lit rep] in HM. unfold chr in HM.
  inversion HM as [| |? ? ? ? ? ? s1 ? ? ? ? H1 HM1| | | | | |]; subst; clear HM.
  inversion H1; subst; clear H1.
  inversion HM1 as [| |? ? ? ? ? ? s2 ? ? ? ? H2 HM2| | | | | |]; subst; clear HM1.
  inversion HM2; subst; clear HM2.
  inversion H2 as [| | | | | | | |? ? ? ? ? ? ? ? Hg]; subst; clear H2.
  invert_matches.
  match goal with
  | |- context [take ?n (String "2" (String "0" (String ?a (String ?b ?rest))))] =>
      replace (take n (String "2" (String "0" (String a (String b rest)))))
        with (String "2" (String "0" (String a (String b ""))))
        by (symmetry;
            apply (take_app_string (String "2" (String "0" (String a (String b ""))))
                                   rest));
      pose proof (isDigit_code a ltac:(assumption));
      pose proof (isDigit_code b ltac:(assumption))
  end.
  cbn [group Nat.eqb toNumber digitsValue].
  change (code "2") with 50%N. change (code "0") with 48%N. lia.
Qed.

Lemma MakeDay_first_of_year y : MakeDay y 0 1 = daysFromCivil y 1 1.
Proof.
  unfold MakeDay. change (0 / 12) with 0. change (0 mod 12 + 1) with 1.
  rewrite Z.add_0_r. lia.
Qed.

Lemma MakeDay_last_of_year y : MakeDay y 11 31 = daysFromCivil y 12 1 + 30.
Proof.
  unfold MakeDay. change (11 / 12) with 0. change (11 mod 12 + 1) with 12.
  rewrite Z.add_0_r. lia.
Qed.

(** The UTC day of a local midnight: the same day west of Greenwich
    and in UTC, the day before east of it. *)
Lemma Day_of_local_midnight D o :
  Z.abs o < msPerDay → Day (D * msPerDay - o) = if 0 <? o then D - 1 else D.
Proof.
  intros Ho. unfold Day, msPerDay in *. destruct (Z.ltb_spec 0 o).
  - symmetry. apply (Z.div_unique _ _ _ (86400000 - o)); lia.
  - symmetry. apply (Z.div_unique _ _ _ (- o)); lia.
Qed.

Section YearBranch.
Variable tz : TimeZone.

(** [formatDate(new Date(year, month, date))] for a day of the years
    2000 to 2099, as far as the parser needs it. *)
Lemma format_local_midnight D :
  LocalOffsetsBelowDay tz → 0 ≤ D ≤ 100000 →
  formatDate (TimeClip (UTC tz (D * msPerDay)))
  = Return (isoDate (civilFromDays (if 0 <? offsetAtLocal tz (D * msPerDay)
                                    then D - 1 else D))).
Proof.
  intros Hzone HD. unfold UTC, TimeClip. specialize (Hzone (D * msPerDay)).
  destruct (Z.leb_spec (Z.abs (D * msPerDay - offsetAtLocal tz (D * msPerDay))) maxTime)
    as [_|Hbig]; [|unfold maxTime, msPerDay in *; lia].
  cbn [formatDate]. unfold formatTime. by rewrite Day_of_local_midnight.
Qed.

(** X27. A query that names a year, 2000 to 2099, and that no earlier
    pattern of the parser matches.  The parser takes the local
    midnights of 1 January and of 31 December of that year and
    formats them in UTC: in UTC and in the zones west of it the range
    is the year, from its first to its last day; in a zone east of
    UTC it is the year moved back by a day, from 31 December of the
    year before to 30 December. *)
Theorem X27_year_named_by_the_query query today m :
  LocalOffsetsBelowDay tz →
  NoMatch beforeYear (toLowerCase query) →
  exec yearRe (toLowerCase query) = Some m →
  2000 ≤ toNumber (group 1 m) ≤ 2099
  ∧ parseDateRangeFromQuery tz query today
    = Return (Some (mkRange
        (if 0 <? offsetAtLocal tz (MakeDay (toNumber (group 1 m)) 0 1 * msPerDay)
         then isoDate (toNumber (group 1 m) - 1, 12, 31)
         else isoDate (toNumber (group 1 m), 1, 1))
        (if 0 <? offsetAtLocal tz (MakeDay (toNumber (group 1 m)) 11 31 * msPerDay)
         then isoDate (toNumber (group 1 m), 12, 30)
         else isoDate (toNumber (group 1 m), 12, 31))
        true)).
Proof.
  intros Hzone Hno Hm.
  assert (Hyear : 2000 ≤ toNumber (group 1 m) ≤ 2099).
  { unfold exec in Hm. apply searchFrom_Some in Hm as (pre & post & _ & Hmatch & _).
    by apply yearRe_sound in Hmatch. }
  split; [exact Hyear|].
  unfold beforeYear in Hno.
  apply Forall_cons in Hno as [H1%test_false_exec Hno].
  apply Forall_cons in Hno as [H2%test_false_exec Hno].
  apply Forall_cons in Hno as [H3 Hno].
  apply Forall_cons in Hno as [H4 Hno].
  apply Forall_cons in Hno as [H5%test_false_exec Hno].
  apply Forall_cons in Hno as [H6 Hno].
  apply Forall_cons in Hno as [H7 Hno].
  apply Forall_cons in Hno as [H8 Hno].
  apply Forall_cons in Hno as [H9 Hno].
  apply Forall_cons in Hno as [H10 Hno].
  apply Forall_cons in Hno as [H11 _].
  unfold parseDateRangeFromQuery. cbv zeta.
  rewrite H1, H2, H3, H4, H5, H6, H7, H8, H9, H10, H11, Hm. cbn [orb].
  generalize dependent (toNumber (group 1 m)). intros year Hyear.
  destruct (year_checked year Hyear) as (Hjan1 & Hdec31' & Hdec31 & Hdec30 & Hlo & Hhi).
  unfold toRange, newDate.
  destruct (Z.leb_spec 0 year), (Z.leb_spec year 99); try lia. cbn [andb].
  rewrite MakeDay_first_of_year, MakeDay_last_of_year.
  rewrite !format_local_midnight by (done || lia). cbn [bindC].
  do 3 f_equal.
  - destruct (0 <? offsetAtLocal tz (daysFromCivil year 1 1 * msPerDay)); congruence.
  - destruct (0 <? offsetAtLocal tz ((daysFromCivil year 12 1 + 30) * msPerDay));
      congruence.
Qed.

End YearBranch.

Lemma local_offsets_fixedZone offset : Z.abs offset < msPerDay → LocalOffsetsBelowDay (fixedZone offset).
Proof. intros H t. exact H. Qed.

Lemma X27_year_named_by_the_query_witness :
  2000 ≤ toNumber (group 1 [(1%nat, "2025")]) ≤ 2099
  ∧ parseDateRangeFromQuery centralEurope "How did I sleep in 2025?" noon
    = Return (Some (mkRange
        (if 0 <? offsetAtLocal centralEurope
                   (MakeDay (toNumber (group 1 [(1%nat, "2025")])) 0 1 * msPerDay)
         then isoDate (toNumber (group 1 [(1%nat, "2025")]) - 1, 12, 31)
         else isoDate (toNumber (group 1 [(1%nat, "2025")]), 1, 1))
        (if 0 <? offsetAtLocal centralEurope
                   (MakeDay (toNumber (group 1 [(1%nat, "2025")])) 11 31 * msPerDay)
         then isoDate (toNumber (group 1 [(1%nat, "2025")]), 12, 30)
         else isoDate (toNumber (group 1 [(1%nat, "2025")]), 12, 31))
        true)).
Proof.
  apply (X27_year_named_by_the_query centralEurope "How did I sleep in 2025?" noon
           [(1%nat, "2025")]).
  - apply local_offsets_fixedZone. by vm_compute.
  - repeat constructor; by vm_compute.
  - by vm_compute.
Defined.

(** The year 2025 asked for in Central Europe and in UTC. *)
Example year_2025_in_central_europe :
  parseDateRangeFromQuery centralEurope "How did I sleep in 2025?" noon
  = Return (Some (mkRange "2024-12-31" "2025-12-30" true))
  ∧ parseDateRangeFromQuery utcZone "How did I sleep in 2025?" noon
    = Return (Some (mkRange "2025-01-01" "2025-12-31" true)).
Proof. by vm_compute. Qed.

(** ** The query handler, further *)

Lemma Mentions_existsb ks q : Mentions ks q ↔ existsb (includes q) ks = true.
Proof.
  rewrite existsb_exists. unfold Mentions. split.
  - intros (k & Hk & Hsub). exists k. by rewrite <- list_elem_of_In, includes_spec.
  - intros (k & Hk & Hsub). exists k. by rewrite list_elem_of_In, <- includes_spec.
Qed.

Lemma Mentions_app ks ks' q : Mentions (ks ++ ks') q ↔ Mentions ks q ∨ Mentions ks' q.
Proof.
  unfold Mentions. split.
  - intros (k & [Hk|Hk]%elem_of_app & Hsub); [left | right]; by exists k.
  - intros [(k & Hk & Hsub) | (k & Hk & Hsub)]; exists k; rewrite elem_of_app; auto.
Qed.

(** The classifier in terms of the four tests. *)
Lemma detect_flags query :
  detectRelevantDataTypes query
  = let q := toLowerCase query in
    let wantsSleep := existsb (includes q) sleepKeywords in
    let wantsActivity := existsb (includes q) activityKeywords in
    let wantsReadiness := existsb (includes q) readinessKeywords in
    let wantsHeartRate := existsb (includes q) heartRateKeywords in
    let noSpecificType :=
      negb wantsSleep && negb wantsActivity && negb wantsReadiness && negb wantsHeartRate in
    DataTypeFlags.mk (wantsSleep || noSpecificType) (wantsActivity || noSpecificType)
                     (wantsReadiness || noSpecificType) wantsHeartRate.
Proof.
  unfold detectRelevantDataTypes, sleepKeywords, activityKeywords, readinessKeywords,
    heartRateKeywords. cbv zeta. cbn [existsb].
  by rewrite !orb_false_r, !orb_assoc.
Qed.

(** X15. What the classifier answers, for every query: heart rate is
    selected iff the lower-cased query mentions one of its keywords;
    each of sleep, activity and readiness is selected iff the query
    mentions one of the category's keywords or no keyword of any
    category; and at least one category is always selected. *)
Theorem X15_classifier_by_keywords query :
  (DataTypeFlags.heartRate (detectRelevantDataTypes query) = true
   ↔ Mentions heartRateKeywords (toLowerCase query))
  ∧ (DataTypeFlags.sleep (detectRelevantDataTypes query) = true
     ↔ Mentions sleepKeywords (toLowerCase query)
       ∨ ¬ Mentions codeKeywords (toLowerCase query))
  ∧ (DataTypeFlags.activity (detectRelevantDataTypes query) = true
     ↔ Mentions activityKeywords (toLowerCase query)
       ∨ ¬ Mentions codeKeywords (toLowerCase query))
  ∧ (DataTypeFlags.readiness (detectRelevantDataTypes query) = true
     ↔ Mentions readinessKeywords (toLowerCase query)
       ∨ ¬ Mentions codeKeywords (toLowerCase query))
  ∧ DataTypeFlags.sleep (detectRelevantDataTypes query)
    || DataTypeFlags.activity (detectRelevantDataTypes query)
    || DataTypeFlags.readiness (detectRelevantDataTypes query)
    || DataTypeFlags.heartRate (detectRelevantDataTypes query) = true.
Proof.
  rewrite detect_flags. cbv zeta. cbn [DataTypeFlags.sleep DataTypeFlags.activity
    DataTypeFlags.readiness DataTypeFlags.heartRate].
  change codeKeywords
    with (sleepKeywords ++ activityKeywords ++ readinessKeywords ++ heartRateKeywords).
  rewrite !Mentions_app, !Mentions_existsb.
  destruct (existsb (includes (toLowerCase query)) sleepKeywords),
    (existsb (includes (toLowerCase query)) activityKeywords),
    (existsb (includes (toLowerCase query)) readinessKeywords),
    (existsb (includes (toLowerCase query)) heartRateKeywords);
    simpl; intuition congruence.
Qed.

Section HandlerInvariants.
Variable w : World.

Lemma errorMessage_nonempty e : errorMessage e ≠ "".
Proof.
  unfold errorMessage.
  destruct (truthy (default "" (err_message e))) eqn:H1; [by apply truthy_iff|].
  destruct (truthy (errorToString e)) eqn:H2; [by apply truthy_iff | done].
Qed.

Lemma noDataMsg_nonempty dateRange : noDataMsg dateRange ≠ "".
Proof. unfold noDataMsg. by destruct (usesCustomRange dateRange). Qed.

Lemma relay_contents stream : Forall ContentEvent (relay stream).
Proof.
  unfold relay. induction (chunks stream) as [|c cs IH]; [constructor|].
  cbn [omap list_omap]. destruct (truthy (chunkText c)) eqn:Hc; [|exact IH].
  constructor; [|exact IH]. exists (chunkText c). split; [done | by apply truthy_iff].
Qed.

Lemma fail_wellFormed events e : Forall ContentEvent events → WellFormed (fail events e).
Proof.
  intros Hev. unfold fail. destruct events as [|ev events].
  - split; [done|]. right. right. split; [done|].
    eexists. split; [done | apply errorMessage_nonempty].
  - exists (ev :: events), (Failed ("Failed to process query: " +:+ errorMessage e)).
    split_and!; [done | done | right; right; by eexists | done].
Qed.

Lemma respond_wellFormed query history dateRange dataTypes ouraData :
  DataTypeFlags.sleep dataTypes || DataTypeFlags.activity dataTypes
  || DataTypeFlags.readiness dataTypes || DataTypeFlags.heartRate dataTypes = true →
  WellFormed (respond w query history dateRange dataTypes ouraData).
Proof.
  intros Hflags. unfold respond. destruct (negb (hasData ouraData)).
  - exists [Content (noDataMsg dateRange)], Done.
    split_and!; [done | | by left | by intros [msg ?]].
    constructor; [|constructor]. eexists. split; [done | apply noDataMsg_nonempty].
  - cbv zeta.
    destruct (Gemini.generateWithRetry _ _ _ _).1 as [stream|e];
      [|apply fail_wellFormed; constructor].
    destruct (failure stream) as [e|]; [apply fail_wellFormed, relay_contents|].
    eexists (relay stream), _. split_and!; [done | apply relay_contents | | by intros [msg ?]].
    right. left. unfold buildRelevantDataPayload. rewrite Hflags. by eexists.
Qed.

Lemma detect_some_flag query :
  DataTypeFlags.sleep (detectRelevantDataTypes query)
  || DataTypeFlags.activity (detectRelevantDataTypes query)
  || DataTypeFlags.readiness (detectRelevantDataTypes query)
  || DataTypeFlags.heartRate (detectRelevantDataTypes query) = true.
Proof.
  rewrite detect_flags. cbv zeta. cbn [DataTypeFlags.sleep DataTypeFlags.activity
    DataTypeFlags.readiness DataTypeFlags.heartRate].
  by destruct (existsb (includes (toLowerCase query)) sleepKeywords),
    (existsb (includes (toLowerCase query)) activityKeywords),
    (existsb (includes (toLowerCase query)) readinessKeywords),
    (existsb (includes (toLowerCase query)) heartRateKeywords).
Qed.

(** X16. Whatever the request, the world and the cache, the handler
    finishes with one well-formed response: a JSON body with status
    400 or 401, or with status 500 and the error's message, which is
    never empty; or an event stream of content events, none with an
    empty text, closed by exactly one last event, which is done, the
    grounding data (never null) or the failure.  A failure event
    comes only after some content: an error before the first write
    is answered with status 500. *)
Theorem X16_response_well_formed req queryCache :
  WellFormed (handleQuery w req queryCache).1.
Proof.
  unfold handleQuery. destruct (safeParse req) as [issue|data].
  - split; [by destruct issue | by left].
  - cbv zeta. destruct (negb (session_connected req)); [split; [done | right; by left]|].
    destruct (extractDateRange _ _ _ _ _) as [dateRange|e];
      [|apply fail_wellFormed; constructor].
    destruct (resolveData w req dateRange _ queryCache) as [[range ouraData] queryCache'].
    apply respond_wellFormed, detect_some_flag.
Qed.

Lemma resolveData_cache req dateRange dataTypes queryCache :
  (resolveData w req dateRange dataTypes queryCache).2
  = match (OuraCache.get (clock_get w) (sessionID req) queryCache).1 with
    | Some cachedEntry =>
        if negb (usesCustomRange dateRange)
           || OuraCache.matches cachedEntry (startDate dateRange) (endDate dateRange)
                                dataTypes
        then queryCache
        else if truthy (sessionID req)
             then OuraCache.set (clock_set w) (sessionID req) (startDate dateRange)
                    (endDate dateRange) (fetched w req dateRange dataTypes) dataTypes
                    queryCache
             else queryCache
    | None =>
        if truthy (sessionID req)
        then OuraCache.set (clock_set w) (sessionID req) (startDate dateRange)
               (endDate dateRange) (fetched w req dateRange dataTypes) dataTypes
               (OuraCache.get (clock_get w) (sessionID req) queryCache).2
        else (OuraCache.get (clock_get w) (sessionID req) queryCache).2
    end.
Proof.
  unfold resolveData, OuraCache.get, fromCache, orFetch, fetched.
  destruct (OuraCache.cache queryCache !! sessionID req) as [entry|];
    [|by destruct (truthy (sessionID req))].
  destruct (OuraCache.expired queryCache (clock_get w) entry);
    [by destruct (truthy (sessionID req))|].
  cbn [fst snd]. destruct (usesCustomRange dateRange) eqn:Hcustom; cbn [negb orb]; [|done].
  destruct (OuraCache.matches entry (startDate dateRange) (endDate dateRange) dataTypes);
    [done|]. rewrite Hcustom. by destruct (truthy (sessionID req)).
Qed.

Lemma get_footprint now sid c :
  OuraCache.TTL (OuraCache.get now sid c).2 = OuraCache.TTL c
  ∧ ∀ k, k ≠ sid →
         OuraCache.cache (OuraCache.get now sid c).2 !! k = OuraCache.cache c !! k.
Proof.
  unfold OuraCache.get. destruct (OuraCache.cache c !! sid) as [entry|]; [|done].
  destruct (OuraCache.expired c now entry); [|done]. simpl.
  split; [done|]. intros k Hk. by apply lookup_delete_ne.
Qed.

(** X17. The handler touches no session's cache entry but that of the
    request: the entries of the other sessions and the TTL are what
    they were, whatever the response; and a request that is refused
    with status 400 or 401 leaves the whole cache as it was. *)
Theorem X17_cache_footprint req queryCache :
  OuraCache.TTL (handleQuery w req queryCache).2 = OuraCache.TTL queryCache
  ∧ (∀ k, k ≠ sessionID req →
          OuraCache.cache (handleQuery w req queryCache).2 !! k
          = OuraCache.cache queryCache !! k)
  ∧ (∀ status error details,
        (handleQuery w req queryCache).1 = Json status error details →
        status ≠ 500 → (handleQuery w req queryCache).2 = queryCache).
Proof.
  unfold handleQuery. destruct (safeParse req) as [issue|data]; [done|]. cbv zeta.
  destruct (negb (session_connected req)); [done|].
  destruct (extractDateRange _ _ _ _ _) as [dateRange|e].
  2:{ split_and!; [done | done |]. intros status error details.
      unfold fail. by intros [= <- _ _]. }
  pose proof (resolveData_cache req dateRange (detectRelevantDataTypes (data_query data))
                queryCache) as Hcache.
  pose proof (respond_wellFormed (data_query data) (data_conversationHistory data))
    as Hshape.
  destruct (resolveData w req dateRange _ queryCache) as [[range ouraData] queryCache'].
  cbn [fst snd] in *. subst queryCache'.
  destruct (get_footprint (clock_get w) (sessionID req) queryCache) as [Httl Hother].
  split_and!.
  - destruct (OuraCache.get _ _ _).1 as [entry|];
      repeat case_match; simpl; congruence.
  - intros k Hk. specialize (Hother k Hk).
    destruct (OuraCache.get _ _ _).1 as [entry|];
      repeat case_match; simpl; rewrite ?lookup_insert_ne by done; congruence.
  - intros status error details Hjson Hstatus.
    specialize (Hshape range _ ouraData (detect_some_flag (data_query data))).
    rewrite Hjson in Hshape. destruct Hshape as [_ [[-> _] | [[-> _] | [-> _]]]].
    + unfold respond in Hjson. destruct (negb (hasData ouraData)); [done|].
      cbv zeta in Hjson. destruct (Gemini.generateWithRetry _ _ _ _).1 as [stream|e].
      * destruct (failure stream); [|done]. unfold fail in Hjson.
        destruct (relay stream); [|done]. by injection Hjson.
      * unfold fail in Hjson. by injection Hjson.
    + unfold respond in Hjson. destruct (negb (hasData ouraData)); [done|].
      cbv zeta in Hjson. destruct (Gemini.generateWithRetry _ _ _ _).1 as [stream|e].
      * destruct (failure stream); [|done]. unfold fail in Hjson.
        destruct (relay stream); [|done]. by injection Hjson.
      * unfold fail in Hjson. by injection Hjson.
    + done.
Qed.


(** A read that finds nothing usable: the data is fetched and stored
    for the session. *)
Lemma resolveData_miss req dateRange dataTypes queryCache :
  (OuraCache.get (clock_get w) (sessionID req) queryCache).1 = None →
  resolveData w req dateRange dataTypes queryCache
  = (dateRange, fetched w req dateRange dataTypes,
     if truthy (sessionID req)
     then OuraCache.set (clock_set w) (sessionID req) (startDate dateRange)
            (endDate dateRange) (fetched w req dateRange dataTypes) dataTypes
            (OuraCache.get (clock_get w) (sessionID req) queryCache).2
     else (OuraCache.get (clock_get w) (sessionID req) queryCache).2).
Proof.
  intros Hmiss. unfold resolveData.
  destruct (OuraCache.get (clock_get w) (sessionID req) queryCache) as [cached queryCache'].
  cbn [fst snd] in *. subst cached. reflexivity.
Qed.

End HandlerInvariants.

(** X18. A question of a session without a usable cache entry stores
    what it fetched, under the range it was fetched for and stamped
    with the time of the write; the session's next question without a
    range of its own, asked before the entry is older than the TTL, is
    answered from that data and under that range, now marked as
    custom, without a fetch, whatever the vendor holds by then. *)
Theorem X18_miss_then_follow_up w1 w2 req1 req2 query1 query2 range weekRange queryCache :
  safeParse req1 = inr (mkParsed query1) →
  session_connected req1 = true →
  sessionID req1 ≠ "" →
  extractDateRange (tz w1) (ai_extract w1) (JSON_parse w1) query1 (clock_today w1)
    = Return range →
  (OuraCache.get (clock_get w1) (sessionID req1) queryCache).1 = None →
  safeParse req2 = inr (mkParsed query2) →
  session_connected req2 = true →
  sessionID req2 = sessionID req1 →
  extractDateRange (tz w2) (ai_extract w2) (JSON_parse w2) query2 (clock_today w2)
    = Return weekRange →
  usesCustomRange weekRange = false →
  clock_get w2 - clock_set w1 ≤ OuraCache.TTL queryCache →
  OuraCache.cache (handleQuery w1 req1 queryCache).2 !! sessionID req1
  = Some (CacheEntry.mk (startDate range) (endDate range)
            (fetched w1 req1 range (detectRelevantDataTypes query1))
            (detectRelevantDataTypes query1) (clock_set w1))
  ∧ handleQuery w2 req2 (handleQuery w1 req1 queryCache).2
    = (respond w2 query2 None (mkRange (startDate range) (endDate range) true)
         (detectRelevantDataTypes query2)
         (fetched w1 req1 range (detectRelevantDataTypes query1)),
       (handleQuery w1 req1 queryCache).2).
Proof.
  intros Hparse1 Hconn1 Hsid Hrange1 Hmiss Hparse2 Hconn2 Hsame Hrange2 Hdefault Hfresh.
  assert (Hstored :
    OuraCache.cache (handleQuery w1 req1 queryCache).2 !! sessionID req1
    = Some (CacheEntry.mk (startDate range) (endDate range)
              (fetched w1 req1 range (detectRelevantDataTypes query1))
              (detectRelevantDataTypes query1) (clock_set w1))
    ∧ OuraCache.TTL (handleQuery w1 req1 queryCache).2 = OuraCache.TTL queryCache).
  { unfold handleQuery. rewrite Hparse1. cbv zeta. cbn [data_query].
    rewrite Hconn1, Hrange1. cbn [negb].
    rewrite (resolveData_miss w1 req1 range _ queryCache Hmiss).
    apply truthy_iff in Hsid. rewrite Hsid. cbn [fst snd OuraCache.set OuraCache.cache
      OuraCache.TTL].
    split; [apply lookup_insert_eq | apply get_footprint]. }
  destruct Hstored as [Hstored Httl]. split; [exact Hstored|].
  unfold handleQuery at 1. rewrite Hparse2. cbv zeta. cbn [data_query].
  rewrite Hconn2, Hrange2. cbn [negb].
  rewrite (resolveData_follow_up w2 req2 _ _ weekRange _ 
             ltac:(rewrite Hsame; exact Hstored)
             ltac:(rewrite Httl; exact Hfresh) Hdefault).
  reflexivity.
Qed.

Lemma X18_miss_then_follow_up_witness :
  OuraCache.cache (handleQuery sleepWorld (ask "How did I sleep last night?") emptyCache).2
    !! sessionID (ask "How did I sleep last night?")
  = Some (CacheEntry.mk
            (startDate (mkRange "2026-11-01" "2026-11-01" true))
            (endDate (mkRange "2026-11-01" "2026-11-01" true))
            (fetched sleepWorld (ask "How did I sleep last night?")
               (mkRange "2026-11-01" "2026-11-01" true)
               (detectRelevantDataTypes "How did I sleep last night?"))
            (detectRelevantDataTypes "How did I sleep last night?") (clock_set sleepWorld))
  ∧ handleQuery sampleWorld (ask "What about my heart rate?")
      (handleQuery sleepWorld (ask "How did I sleep last night?") emptyCache).2
    = (respond sampleWorld "What about my heart rate?" None
         (mkRange (startDate (mkRange "2026-11-01" "2026-11-01" true))
                  (endDate (mkRange "2026-11-01" "2026-11-01" true)) true)
         (detectRelevantDataTypes "What about my heart rate?")
         (fetched sleepWorld (ask "How did I sleep last night?")
            (mkRange "2026-11-01" "2026-11-01" true)
            (detectRelevantDataTypes "How did I sleep last night?")),
       (handleQuery sleepWorld (ask "How did I sleep last night?") emptyCache).2).
Proof.
  apply (X18_miss_then_follow_up sleepWorld sampleWorld
           (ask "How did I sleep last night?") (ask "What about my heart rate?")
           "How did I sleep last night?" "What about my heart rate?"
           (mkRange "2026-11-01" "2026-11-01" true)
           (mkRange "2026-10-26" "2026-11-02" false) emptyCache).
  - reflexivity.
  - reflexivity.
  - discriminate.
  - by vm_compute.
  - reflexivity.
  - reflexivity.
  - reflexivity.
  - reflexivity.
  - by vm_compute.
  - reflexivity.
  - by vm_compute.
Defined.

(** The answers of the two sample questions: the second is grounded
    on the nights that the first one fetched. *)
Example sample_follow_up :
  (handleQuery sampleWorld (ask "What about my heart rate?")
     (handleQuery sleepWorld (ask "How did I sleep last night?") emptyCache).2).1
  = EventStream
      [Content "answer of gemini-3-flash-preview";
       Final (Some (mkRelevant None None None (Some [])))].
Proof. by vm_compute. Qed.

Section CachedRanges.
Variable w : World.

Lemma resolveData_custom req queryCache entry range dataTypes :
  OuraCache.cache queryCache !! sessionID req = Some entry →
  clock_get w - CacheEntry.timestamp entry ≤ OuraCache.TTL queryCache →
  usesCustomRange range = true →
  resolveData w req range dataTypes queryCache
  = if OuraCache.matches entry (startDate range) (endDate range) dataTypes
    then (range, OuraCache.filterData entry (startDate range) (endDate range), queryCache)
    else (range, fetched w req range dataTypes,
          if truthy (sessionID req)
          then OuraCache.set (clock_set w) (sessionID req) (startDate range) (endDate range)
                 (fetched w req range dataTypes) dataTypes queryCache
          else queryCache).
Proof.
  intros Hentry Hfresh Hcustom. unfold resolveData.
  rewrite (get_fresh _ _ _ entry) by done. unfold fromCache, fetched. rewrite Hcustom.
  cbn [negb].
  destruct (OuraCache.matches entry (startDate range) (endDate range) dataTypes); [done|].
  unfold orFetch. by rewrite Hcustom.
Qed.

(** X28. A question with a range of its own, asked by a session whose
    unexpired entry covers that range and the categories the question
    needs, is answered from the entry narrowed to the range: nothing
    is fetched and the cache is left as it was. *)
Theorem X28_covered_range_served_from_cache req queryCache query entry range :
  safeParse req = inr (mkParsed query) →
  session_connected req = true →
  OuraCache.cache queryCache !! sessionID req = Some entry →
  clock_get w - CacheEntry.timestamp entry ≤ OuraCache.TTL queryCache →
  extractDateRange (tz w) (ai_extract w) (JSON_parse w) query (clock_today w)
    = Return range →
  usesCustomRange range = true →
  OuraCache.matches entry (startDate range) (endDate range)
                    (detectRelevantDataTypes query) = true →
  handleQuery w req queryCache
  = (respond w query None range (detectRelevantDataTypes query)
       (OuraCache.filterData entry (startDate range) (endDate range)),
     queryCache).
Proof.
  intros Hparse Hconn Hentry Hfresh Hrange Hcustom Hcovers. unfold handleQuery.
  rewrite Hparse. cbv zeta. cbn [data_query]. rewrite Hconn, Hrange. cbn [negb].
  by rewrite (resolveData_custom _ _ entry), Hcovers.
Qed.

(** X29. When the entry does not cover the range or the categories
    of such a question, the data is fetched for the range and the
    categories of the question alone, and what was fetched replaces
    the session's entry, however much more that entry held. *)
Theorem X29_uncovered_range_replaces_entry req queryCache query entry range :
  safeParse req = inr (mkParsed query) →
  session_connected req = true →
  sessionID req ≠ "" →
  OuraCache.cache queryCache !! sessionID req = Some entry →
  clock_get w - CacheEntry.timestamp entry ≤ OuraCache.TTL queryCache →
  extractDateRange (tz w) (ai_extract w) (JSON_parse w) query (clock_today w)
    = Return range →
  usesCustomRange range = true →
  OuraCache.matches entry (startDate range) (endDate range)
                    (detectRelevantDataTypes query) = false →
  handleQuery w req queryCache
  = (respond w query None range (detectRelevantDataTypes query)
       (fetched w req range (detectRelevantDataTypes query)),
     OuraCache.set (clock_set w) (sessionID req) (startDate range) (endDate range)
       (fetched w req range (detectRelevantDataTypes query))
       (detectRelevantDataTypes query) queryCache)
  ∧ OuraCache.cache (handleQuery w req queryCache).2 !! sessionID req
    = Some (CacheEntry.mk (startDate range) (endDate range)
              (fetched w req range (detectRelevantDataTypes query))
              (detectRelevantDataTypes query) (clock_set w)).
Proof.
  intros Hparse Hconn Hsid Hentry Hfresh Hrange Hcustom Hcovers.
  assert (Hrun : handleQuery w req queryCache
    = (respond w query None range (detectRelevantDataTypes query)
         (fetched w req range (detectRelevantDataTypes query)),
       OuraCache.set (clock_set w) (sessionID req) (startDate range) (endDate range)
         (fetched w req range (detectRelevantDataTypes query))
         (detectRelevantDataTypes query) queryCache)).
  { unfold handleQuery.
    rewrite Hparse. cbv zeta. cbn [data_query]. rewrite Hconn, Hrange. cbn [negb].
    rewrite (resolveData_custom _ _ entry), Hcovers by done.
    apply truthy_iff in Hsid. by rewrite Hsid. }
  split; [exact Hrun|]. rewrite Hrun. cbn [snd OuraCache.set OuraCache.cache].
  apply lookup_insert_eq.
Qed.

End CachedRanges.

Lemma X28_covered_range_served_from_cache_witness :
  handleQuery sampleWorld (ask "How did I sleep last night?") sleepOnlyCache
  = (respond sampleWorld "How did I sleep last night?" None
       (mkRange "2026-11-01" "2026-11-01" true)
       (detectRelevantDataTypes "How did I sleep last night?")
       (OuraCache.filterData sleepOnlyEntry
          (startDate (mkRange "2026-11-01" "2026-11-01" true))
          (endDate (mkRange "2026-11-01" "2026-11-01" true))),
     sleepOnlyCache).
Proof.
  apply (X28_covered_range_served_from_cache sampleWorld
           (ask "How did I sleep last night?") sleepOnlyCache
           "How did I sleep last night?" sleepOnlyEntry
           (mkRange "2026-11-01" "2026-11-01" true)).
  - reflexivity.
  - reflexivity.
  - reflexivity.
  - by vm_compute.
  - by vm_compute.
  - reflexivity.
  - by vm_compute.
Defined.

(** A question about yesterday's heart rate: the entry that holds a
    week of sleep gives way to a day of heart-rate data. *)
Lemma X29_uncovered_range_replaces_entry_witness :
  handleQuery sampleWorld (ask "My heart rate yesterday?") sleepOnlyCache
  = (respond sampleWorld "My heart rate yesterday?" None
       (mkRange "2026-11-01" "2026-11-01" true)
       (detectRelevantDataTypes "My heart rate yesterday?")
       (fetched sampleWorld (ask "My heart rate yesterday?")
          (mkRange "2026-11-01" "2026-11-01" true)
          (detectRelevantDataTypes "My heart rate yesterday?")),
     OuraCache.set (clock_set sampleWorld) (sessionID (ask "My heart rate yesterday?"))
       (startDate (mkRange "2026-11-01" "2026-11-01" true))
       (endDate (mkRange "2026-11-01" "2026-11-01" true))
       (fetched sampleWorld (ask "My heart rate yesterday?")
          (mkRange "2026-11-01" "2026-11-01" true)
          (detectRelevantDataTypes "My heart rate yesterday?"))
       (detectRelevantDataTypes "My heart rate yesterday?") sleepOnlyCache)
  ∧ OuraCache.cache (handleQuery sampleWorld (ask "My heart rate yesterday?")
                       sleepOnlyCache).2 !! sessionID (ask "My heart rate yesterday?")
    = Some (CacheEntry.mk (startDate (mkRange "2026-11-01" "2026-11-01" true))
              (endDate (mkRange "2026-11-01" "2026-11-01" true))
              (fetched sampleWorld (ask "My heart rate yesterday?")
                 (mkRange "2026-11-01" "2026-11-01" true)
                 (detectRelevantDataTypes "My heart rate yesterday?"))
              (detectRelevantDataTypes "My heart rate yesterday?")
              (clock_set sampleWorld)).
Proof.
  apply (X29_uncovered_range_replaces_entry sampleWorld
           (ask "My heart rate yesterday?") sleepOnlyCache
           "My heart rate yesterday?" sleepOnlyEntry
           (mkRange "2026-11-01" "2026-11-01" true)).
  - reflexivity.
  - reflexivity.
  - discriminate.
  - reflexivity.
  - by vm_compute.
  - by vm_compute.
  - reflexivity.
  - by vm_compute.
Defined.

(** ** The daily heart-rate statistics *)

Section DailyStats.
Import OuraTs.

Lemma addReading_spec m reading :
  addReading m reading
  = match dayOf reading with
    | None => Return m
    | Some day =>
        match m !! day with
        | Some stats => Return (<[day := push stats reading]> m)
        | None =>
            if bool_decide (day ∈ inheritedKeys) then Throw notABucket
            else Return (<[day := push emptyBucket reading]> m)
        end
    end.
Proof.
  unfold addReading, dayOf. destruct (timestamp reading) as [ts|]; [|done]. cbn [fmap option_fmap option_map].
  destruct (truthy (beforeChar "T" ts)); cbn [negb]; [|done].
  destruct (m !! beforeChar "T" ts) as [stats|]; [done|].
  by destruct (bool_decide (beforeChar "T" ts ∈ inheritedKeys)).
Qed.

Lemma onDay_cons d reading rs :
  onDay d (reading :: rs)
  = if bool_decide (dayOf reading = Some d) then reading :: onDay d rs else onDay d rs.
Proof. reflexivity. Qed.

(** The buckets after the first loop. *)
Lemma forEach_addReading rs : ∀ m m',
  forEach addReading rs m = Return m' →
  ∀ d, m' !! d = match onDay d rs with
                 | [] => m !! d
                 | _ => Some (foldl push (default emptyBucket (m !! d)) (onDay d rs))
                 end.
Proof.
  induction rs as [|reading rs IH]; intros m m'; cbn [forEach].
  - intros [= <-] d. done.
  - rewrite addReading_spec. intros Hrun d. rewrite onDay_cons.
    destruct (dayOf reading) as [day|] eqn:Hday.
    + assert (Hstep : ∃ stats, forEach addReading rs (<[day := push stats reading]> m)
                               = Return m'
                               ∧ stats = default emptyBucket (m !! day)).
      { destruct (m !! day) as [stats|]; [by exists stats|].
        destruct (bool_decide (day ∈ inheritedKeys)); [done|]. by exists emptyBucket. }
      destruct Hstep as (stats & Hrest & ->).
      rewrite (IH _ _ Hrest d).
      destruct (decide (day = d)) as [->|Hne].
      * rewrite bool_decide_eq_true_2 by done. rewrite lookup_insert_eq. cbn [default foldl].
        by destruct (onDay d rs).
      * rewrite bool_decide_eq_false_2 by congruence. by rewrite lookup_insert_ne.
    + rewrite bool_decide_eq_false_2 by done. cbn [bindC] in Hrun. by apply IH.
Qed.

(** The first loop fails only on a day that is an inherited name. *)
Lemma forEach_addReading_returns rs : ∀ m,
  (∀ reading d, reading ∈ rs → dayOf reading = Some d → d ∉ inheritedKeys) →
  ∃ m', forEach addReading rs m = Return m'.
Proof.
  induction rs as [|reading rs IH]; intros m Hdays; cbn [forEach]; [by eexists|].
  rewrite addReading_spec.
  assert (Hrest : ∀ reading d, reading ∈ rs → dayOf reading = Some d → d ∉ inheritedKeys).
  { intros r d Hr. apply Hdays. by right. }
  destruct (dayOf reading) as [day|] eqn:Hday; [|by apply IH].
  destruct (m !! day) as [stats|]; [by apply IH|].
  rewrite bool_decide_eq_false_2 by (eapply Hdays; [by left | done]). by apply IH.
Qed.

Lemma foldl_push_app stats l reading :
  foldl push stats (l ++ [reading]) = push (foldl push stats l) reading.
Proof. by rewrite foldl_app. Qed.

(** A bucket that was filled from empty: its readings, and its least
    and greatest rate. *)
Lemma bucket_spec l :
  l ≠ [] →
  stat_readings (foldl push emptyBucket l) = l
  ∧ ∃ lo hi,
      stat_min (foldl push emptyBucket l) = Finite lo
      ∧ stat_max (foldl push emptyBucket l) = Finite hi
      ∧ (∃ r, r ∈ l ∧ bpm r = lo) ∧ (∃ r, r ∈ l ∧ bpm r = hi)
      ∧ ∀ r, r ∈ l → lo ≤ bpm r ≤ hi.
Proof.
  induction l as [|reading l IH] using rev_ind; [done|]. intros _.
  rewrite foldl_push_app. destruct l as [|r0 l0].
  - cbn. split; [done|]. exists (bpm reading), (bpm reading).
    split_and!; try done; try (exists reading; split; [by left | done]).
    intros r ->%list_elem_of_singleton. lia.
  - destruct IH as (Hreadings & lo & hi & Hmin & Hmax & (rlo & Hrlo & Hlo) & (rhi & Hrhi & Hhi)
                    & Hall); [done|].
    generalize dependent (foldl push emptyBucket (r0 :: l0)). intros st Hreadings Hmin Hmax.
    unfold push. cbn [stat_readings stat_min stat_max]. rewrite Hreadings, Hmin, Hmax.
    split; [done|]. cbn [below above].
    destruct (Z.ltb_spec (bpm reading) lo), (Z.ltb_spec hi (bpm reading)).
    + exists (bpm reading), (bpm reading). split_and!; try done;
        try (exists reading; split; [apply elem_of_app; right; by left | done]).
      intros r [Hr| ->%list_elem_of_singleton]%elem_of_app; [specialize (Hall r Hr)|]; lia.
    + exists (bpm reading), hi. split_and!; try done.
      * exists reading; split; [apply elem_of_app; right; by left | done].
      * exists rhi. split; [apply elem_of_app; by left | done].
      * intros r [Hr| ->%list_elem_of_singleton]%elem_of_app; [specialize (Hall r Hr)|]; lia.
    + exists lo, (bpm reading). split_and!; try done.
      * exists rlo. split; [apply elem_of_app; by left | done].
      * exists reading; split; [apply elem_of_app; right; by left | done].
      * intros r [Hr| ->%list_elem_of_singleton]%elem_of_app; [specialize (Hall r Hr)|]; lia.
    + exists lo, hi. split_and!; try done.
      * exists rlo. split; [apply elem_of_app; by left | done].
      * exists rhi. split; [apply elem_of_app; by left | done].
      * intros r [Hr| ->%list_elem_of_singleton]%elem_of_app; [specialize (Hall r Hr)|]; lia.
Qed.

Lemma bpmSum_bounds lo hi l :
  (∀ r, r ∈ l → lo ≤ bpm r ≤ hi) →
  Z.of_nat (length l) * lo ≤ bpmSum l ≤ Z.of_nat (length l) * hi.
Proof.
  unfold bpmSum. induction l as [|reading l IH] using rev_ind; intros Hall; [simpl; lia|].
  rewrite foldl_app, length_app. cbn [foldl length].
  specialize (IH ltac:(intros r Hr; apply Hall, elem_of_app; by left)).
  specialize (Hall reading ltac:(apply elem_of_app; right; by left)). nia.
Qed.

(** The rounded mean of rates between [lo] and [hi] lies between
    them, within a half of the mean. *)
Lemma roundDiv_bounds lo hi sum n :
  0 < n → n * lo ≤ sum ≤ n * hi →
  lo ≤ roundDiv sum n ≤ hi
  ∧ 2 * sum - n < 2 * n * roundDiv sum n ≤ 2 * sum + n.
Proof.
  intros Hn Hsum. unfold roundDiv.
  pose proof (Z.div_mod (2 * sum + n) (2 * n) ltac:(lia)) as Hdiv.
  pose proof (Z.mod_pos_bound (2 * sum + n) (2 * n) ltac:(lia)) as Hmod.
  split; [|lia]. split.
  - apply Z.div_le_lower_bound; lia.
  - apply Z.lt_succ_r, Z.div_lt_upper_bound; lia.
Qed.

(** The statistics of a day, after both loops. *)
Lemma compute_lookup rs m d :
  computeHeartRateDailyStats rs = Return m →
  m !! d = match onDay d rs with
           | [] => None
           | _ => Some (setAvg (foldl push emptyBucket (onDay d rs)))
           end.
Proof.
  unfold computeHeartRateDailyStats.
  destruct (forEach addReading rs ∅) as [m0|] eqn:Hrun; [|done]. cbn [bindC].
  intros [= <-]. rewrite lookup_fmap, (forEach_addReading _ _ _ Hrun d), lookup_empty.
  by destruct (onDay d rs).
Qed.

Lemma onDay_elem_of d rs reading : reading ∈ onDay d rs ↔ reading ∈ rs ∧ dayOf reading = Some d.
Proof.
  unfold onDay. by rewrite !list_elem_of_In, filter_In, bool_decide_eq_true.
Qed.

(** X20. The statistics partition the readings by day: the object has
    a key for a day iff some reading is of that day, and the bucket
    of a day holds exactly the readings of that day, in their order;
    so no bucket is empty, and a reading without a timestamp or whose
    timestamp has no date part is in no bucket. *)
Theorem X20_buckets_partition_readings rs m :
  computeHeartRateDailyStats rs = Return m →
  ∀ d, (m !! d = None ↔ onDay d rs = [])
       ∧ (∀ stats, m !! d = Some stats →
                   stat_readings stats = onDay d rs ∧ stat_readings stats ≠ [])
       ∧ (∀ reading, reading ∈ onDay d rs ↔ reading ∈ rs ∧ dayOf reading = Some d).
Proof.
  intros Hrun d. rewrite (compute_lookup _ _ d Hrun).
  split_and!; [| |apply onDay_elem_of].
  - by destruct (onDay d rs).
  - intros stats Hstats. destruct (onDay d rs) as [|r l] eqn:Hl; [done|].
    destruct (bucket_spec (r :: l)) as [Hbucket _]; [done|].
    generalize dependent (foldl push emptyBucket (r :: l)). intros st [= <-] Hbucket.
    unfold setAvg. cbn [stat_readings]. by rewrite Hbucket.
Qed.

(** X21. In the statistics of every day, min and max are the least
    and the greatest rate of the day's readings, so that neither is
    infinite, and avg is their mean rounded to the nearest integer,
    a half upwards: it lies between min and max. *)
Theorem X21_min_avg_max rs m d stats :
  computeHeartRateDailyStats rs = Return m →
  m !! d = Some stats →
  ∃ lo hi,
    stat_min stats = Finite lo ∧ stat_max stats = Finite hi
    ∧ (∃ reading, reading ∈ onDay d rs ∧ bpm reading = lo)
    ∧ (∃ reading, reading ∈ onDay d rs ∧ bpm reading = hi)
    ∧ (∀ reading, reading ∈ onDay d rs → lo ≤ bpm reading ≤ hi)
    ∧ lo ≤ stat_avg stats ≤ hi
    ∧ 2 * bpmSum (onDay d rs) - Z.of_nat (length (onDay d rs))
      < 2 * Z.of_nat (length (onDay d rs)) * stat_avg stats
      ≤ 2 * bpmSum (onDay d rs) + Z.of_nat (length (onDay d rs)).
Proof.
  intros Hrun Hstats. rewrite (compute_lookup _ _ d Hrun) in Hstats.
  destruct (onDay d rs) as [|r l] eqn:Hl; [done|].
  destruct (bucket_spec (r :: l)) as (Hreadings & lo & hi & Hmin & Hmax & Hlo & Hhi & Hall);
    [done|].
  exists lo, hi. generalize dependent (foldl push emptyBucket (r :: l)).
  intros st [= <-] Hreadings Hmin Hmax. unfold setAvg. cbn [stat_min stat_max stat_avg].
  rewrite Hreadings. fold (bpmSum (r :: l)).
  pose proof (bpmSum_bounds lo hi (r :: l) Hall) as Hsum.
  pose proof (roundDiv_bounds lo hi (bpmSum (r :: l)) (Z.of_nat (length (r :: l)))
                ltac:(cbn [length]; lia) Hsum) as [Havg Hround].
  do 5 (split; [done|]). split; [exact Havg | exact Hround].
Qed.

Lemma list_to_map_filter_key {A} (P : string → bool) (l : list (string * A)) k :
  (list_to_map (List.filter (fun kv => P kv.1) l) : gmap string A) !! k
  = if P k then (list_to_map l : gmap string A) !! k else None.
Proof.
  induction l as [|[k' v] l IH]; cbn [List.filter list_to_map foldr fst].
  - rewrite lookup_empty. by destruct (P k).
  - destruct (P k') eqn:Hk'; cbn [list_to_map foldr].
    + destruct (decide (k' = k)) as [->|Hne].
      * by rewrite !lookup_insert_eq, Hk'.
      * by rewrite !lookup_insert_ne.
    + rewrite IH. destruct (decide (k' = k)) as [->|Hne].
      * by rewrite Hk'.
      * by rewrite lookup_insert_ne.
Qed.

Lemma dayOf_readingDay reading d :
  dayOf reading = Some d → OuraCache.readingDay reading = Some d.
Proof.
  unfold dayOf, OuraCache.readingDay. destruct (timestamp reading) as [ts|]; [|done].
  cbn [fmap option_fmap option_map]. by destruct (truthy (beforeChar "T" ts)).
Qed.

Lemma onDay_filterHeartRate s e d rs stats :
  onDay d (readings (OuraCache.filterHeartRate s e (mkHeartRate rs stats)))
  = if OuraCache.within s e d then onDay d rs else [].
Proof.
  cbn [OuraCache.filterHeartRate readings].
  induction rs as [|reading rs IH]; cbn [List.filter];
    [by destruct (OuraCache.within s e d)|].
  rewrite (onDay_cons d reading rs).
  destruct (decide (dayOf reading = Some d)) as [Hday|Hday].
  - rewrite (dayOf_readingDay _ _ Hday), (bool_decide_eq_true_2 _ Hday).
    destruct (OuraCache.within s e d) eqn:Hin; [|exact IH].
    rewrite onDay_cons, (bool_decide_eq_true_2 _ Hday). by rewrite IH.
  - rewrite (bool_decide_eq_false_2 _ Hday).
    destruct (match OuraCache.readingDay reading with
              | Some d0 => OuraCache.within s e d0
              | None => false
              end); [|exact IH].
    rewrite onDay_cons, (bool_decide_eq_false_2 _ Hday). exact IH.
Qed.

(** A reading of a day that is an inherited name makes the first
    loop throw. *)
Lemma forEach_addReading_throws rs : ∀ m : gmap string DailyStat,
  (∀ k, k ∈ inheritedKeys → m !! k = None) →
  (∃ reading d, reading ∈ rs ∧ dayOf reading = Some d ∧ d ∈ inheritedKeys) →
  forEach addReading rs m = Throw notABucket.
Proof.
  induction rs as [|r rs IH]; intros m Hinv (reading & d & Hin & Hday & Hd).
  { by apply elem_of_nil in Hin. }
  cbn [forEach]. rewrite addReading_spec.
  destruct (dayOf r) as [day|] eqn:Hr.
  - destruct (decide (day ∈ inheritedKeys)) as [Hbad|Hgood].
    + rewrite (Hinv _ Hbad). by rewrite bool_decide_eq_true_2.
    + assert (Hrest : ∃ reading d, reading ∈ rs ∧ dayOf reading = Some d ∧ d ∈ inheritedKeys).
      { apply elem_of_cons in Hin as [->|Hin]; [|by exists reading, d].
        rewrite Hr in Hday. injection Hday as <-. done. }
      assert (Hinsert : ∀ stats k, k ∈ inheritedKeys → <[day := stats]> m !! k = None).
      { intros stats k Hk. assert (day ≠ k) by (by intros ->).
        rewrite lookup_insert_ne by done. by apply Hinv. }
      destruct (m !! day) as [stats|]; cbn [bindC];
        [apply IH; [apply Hinsert | exact Hrest]|].
      rewrite bool_decide_eq_false_2 by done. apply IH; [apply Hinsert | exact Hrest].
  - cbn [bindC]. apply IH; [done|].
    apply elem_of_cons in Hin as [->|Hin]; [|by exists reading, d].
    rewrite Hr in Hday. discriminate.
Qed.

(** X23. The statistics are computed for every list of readings but
    those with a reading whose date part is a name that every object
    inherits, such as [constructor] or [toString]: then, and only
    then, the function throws a TypeError. *)
Theorem X23_throws_on_inherited_names rs :
  ((∃ m, computeHeartRateDailyStats rs = Return m)
   ↔ ∀ reading d, reading ∈ rs → dayOf reading = Some d → d ∉ inheritedKeys)
  ∧ (computeHeartRateDailyStats rs = Throw notABucket
     ↔ ∃ reading d, reading ∈ rs ∧ dayOf reading = Some d ∧ d ∈ inheritedKeys).
Proof.
  assert (Hthrows : (∃ reading d, reading ∈ rs ∧ dayOf reading = Some d ∧ d ∈ inheritedKeys) →
                    computeHeartRateDailyStats rs = Throw notABucket).
  { intros Hbad. unfold computeHeartRateDailyStats.
    by rewrite (forEach_addReading_throws rs ∅ ltac:(intros; apply lookup_empty) Hbad). }
  assert (Hreturns : (∀ reading d, reading ∈ rs → dayOf reading = Some d → d ∉ inheritedKeys) →
                     ∃ m, computeHeartRateDailyStats rs = Return m).
  { intros Hgood. unfold computeHeartRateDailyStats.
    destruct (forEach_addReading_returns rs ∅ Hgood) as [m ->]. by eexists. }
  split; split.
  - intros [m Hm] reading d Hin Hday Hd.
    rewrite Hthrows in Hm by (by exists reading, d). done.
  - exact Hreturns.
  - intros Hthrow.
    destruct (existsb (fun reading => match dayOf reading with
                                      | Some d => bool_decide (d ∈ inheritedKeys)
                                      | None => false
                                      end) rs) eqn:Hex.
    + apply existsb_exists in Hex as (reading & Hin%list_elem_of_In & Hbad).
      destruct (dayOf reading) as [d|] eqn:Hday; [|done].
      apply bool_decide_eq_true in Hbad. by exists reading, d.
    + destruct Hreturns as [m Hm]; [|congruence].
      intros reading d Hin Hday Hd. apply not_true_iff_false in Hex. apply Hex.
      apply existsb_exists. exists reading. split; [by apply list_elem_of_In|].
      rewrite Hday. by apply bool_decide_eq_true.
  - exact Hthrows.
Qed.

(** X22. A heart-rate result whose daily statistics are those of its
    readings stays such under the cache's filter: the statistics that
    [filterData] keeps are the statistics of the readings that it
    keeps. *)
Theorem X22_filter_keeps_stats_of_readings s e hr :
  computeHeartRateDailyStats (readings hr) = Return (list_to_map (dailyStats hr)) →
  computeHeartRateDailyStats (readings (OuraCache.filterHeartRate s e hr))
  = Return (list_to_map (dailyStats (OuraCache.filterHeartRate s e hr))).
Proof.
  intros Hrun. destruct hr as [rs stats]. cbn [readings dailyStats] in Hrun.
  assert (Hdays : ∀ reading d, reading ∈ rs → dayOf reading = Some d → d ∉ inheritedKeys).
  { intros reading d Hin Hday Hd. unfold computeHeartRateDailyStats in Hrun.
    by rewrite (forEach_addReading_throws rs ∅ ltac:(intros; apply lookup_empty)
                  ltac:(by exists reading, d)) in Hrun. }
  destruct (forEach_addReading_returns
              (readings (OuraCache.filterHeartRate s e (mkHeartRate rs stats))) ∅)
    as [m0 Hloop].
  { intros reading d Hin. apply Hdays. cbn [OuraCache.filterHeartRate readings] in Hin.
    apply list_elem_of_In, filter_In in Hin as [Hin _]. by apply list_elem_of_In. }
  assert (Hrun' : computeHeartRateDailyStats
                    (readings (OuraCache.filterHeartRate s e (mkHeartRate rs stats)))
                  = Return (setAvg <$> m0)).
  { unfold computeHeartRateDailyStats. by rewrite Hloop. }
  rewrite Hrun'. f_equal. apply map_eq. intros k.
  rewrite (compute_lookup _ _ k Hrun'), onDay_filterHeartRate.
  cbn [OuraCache.filterHeartRate dailyStats].
  rewrite (list_to_map_filter_key (OuraCache.within s e)).
  rewrite (compute_lookup _ _ k Hrun).
  by destruct (OuraCache.within s e k).
Qed.

Lemma compute_nil : computeHeartRateDailyStats [] = Return ∅.
Proof. unfold computeHeartRateDailyStats. cbn [forEach bindC]. by rewrite fmap_empty. Qed.

(** X24. The heart-rate result of a fetch never fails and is always
    consistent: its statistics are those of its readings.  When it
    holds readings, they are the readings that the vendor answered;
    and one reading whose date part is an inherited name empties the
    result, readings included, the TypeError being caught with the
    failures of the request. *)
Theorem X24_fetch_result_consistent headers request :
  computeHeartRateDailyStats (getHeartRateDataByDateRange headers request).1
  = Return (getHeartRateDataByDateRange headers request).2
  ∧ ((getHeartRateDataByDateRange headers request).1 ≠ [] →
     ∃ token, headers = Some token
              ∧ request token = Return (getHeartRateDataByDateRange headers request).1)
  ∧ (∀ token rs reading d,
       headers = Some token → request token = Return rs →
       reading ∈ rs → dayOf reading = Some d → d ∈ inheritedKeys →
       getHeartRateDataByDateRange headers request = ([], ∅)).
Proof.
  unfold getHeartRateDataByDateRange. destruct headers as [token|].
  - destruct (request token) as [rs|e] eqn:Hreq; cbn [bindC].
    + destruct (computeHeartRateDailyStats rs) as [m|e] eqn:Hrun; cbn [bindC fst snd].
      * split_and!; [done | by exists token |].
        intros token' rs' reading d [= <-]. rewrite Hreq. intros [= <-] Hin Hday Hd.
        unfold computeHeartRateDailyStats in Hrun.
        rewrite (forEach_addReading_throws rs ∅ ltac:(intros; apply lookup_empty)
                   ltac:(by exists reading, d)) in Hrun. done.
      * split_and!; [apply compute_nil | done | done].
    + split_and!; [apply compute_nil | done | done].
  - split_and!; [apply compute_nil | done | done].
Qed.

Lemma token_held refresh now now' session token :
  (ensureValidAccessToken refresh now now' session).1 = Some token →
  ouraAccessToken (ensureValidAccessToken refresh now now' session).2 = Some token.
Proof.
  unfold ensureValidAccessToken.
  destruct (ouraAccessToken session) as [token0|] eqn:Htoken; [|done].
  destruct (truthy token0); cbn [negb]; [|done].
  destruct (ouraTokenExpiry session) as [expiry|]; [|by intros [= <-]].
  destruct (expiry =? 0); [by intros [= <-]|].
  destruct (now <? expiry - 60000); [by intros [= <-]|].
  destruct (ouraRefreshToken session) as [old|]; [|done].
  destruct (truthy old); cbn [negb]; [|done].
  destruct (refresh old) as [tokens|]; [|done]. by intros [= <-].
Qed.

(** X25. The token of a session.  A token that is returned is the
    access token that the session holds afterwards; when none is
    returned, the session is left as it was, its stale tokens
    included; and the session changes only by a refresh that was due,
    the expiry being less than a minute away, and that the vendor
    granted: the new tokens are stored with the expiry counted from
    the second reading of the clock. *)
Theorem X25_token_and_session refresh now now' session :
  (∀ token, (ensureValidAccessToken refresh now now' session).1 = Some token →
            ouraAccessToken (ensureValidAccessToken refresh now now' session).2 = Some token)
  ∧ ((ensureValidAccessToken refresh now now' session).1 = None →
     (ensureValidAccessToken refresh now now' session).2 = session)
  ∧ ((ensureValidAccessToken refresh now now' session).2 ≠ session →
     ∃ expiry old tokens,
       ouraTokenExpiry session = Some expiry ∧ expiry - 60000 ≤ now
       ∧ ouraRefreshToken session = Some old ∧ refresh old = Some tokens
       ∧ ensureValidAccessToken refresh now now' session
         = (Some (tokens_access tokens),
            mkSession (Some (tokens_access tokens)) (Some (tokens_refresh tokens))
                      (Some (now' + expiresIn tokens * 1000)))).
Proof.
  unfold ensureValidAccessToken.
  destruct (ouraAccessToken session) as [token0|] eqn:Htoken; [|done].
  destruct (truthy token0); cbn [negb]; [|done].
  destruct (ouraTokenExpiry session) as [expiry|] eqn:Hexpiry;
    [|by split_and!; [intros ? [= <-]|..]].
  destruct (expiry =? 0); [by split_and!; [intros ? [= <-]|..]|].
  destruct (Z.ltb_spec now (expiry - 60000)); [by split_and!; [intros ? [= <-]|..]|].
  destruct (ouraRefreshToken session) as [old|] eqn:Hold; [|done].
  destruct (truthy old); cbn [negb]; [|done].
  destruct (refresh old) as [tokens|] eqn:Hrefresh; [|done].
  cbn [fst snd ouraAccessToken]. split_and!; [by intros ? [= <-] | done |].
  intros _. exists expiry, old, tokens. by split_and!.
Qed.

(** X26. Once a token that is not empty has been returned, the next
    call returns the same token and leaves the session as it is,
    without a word to the vendor, for as long as the expiry of the
    session is more than a minute away (or the session has none). *)
Theorem X26_token_reused_until_expiry refresh refresh' now now' now2 now2' session token :
  (ensureValidAccessToken refresh now now' session).1 = Some token →
  token ≠ "" →
  match ouraTokenExpiry (ensureValidAccessToken refresh now now' session).2 with
  | Some expiry => expiry = 0 ∨ now2 < expiry - 60000
  | None => True
  end →
  ensureValidAccessToken refresh' now2 now2'
    (ensureValidAccessToken refresh now now' session).2
  = (Some token, (ensureValidAccessToken refresh now now' session).2).
Proof.
  intros Hreturned Htoken Hvalid.
  pose proof (token_held refresh now now' session token Hreturned) as Hheld.
  generalize dependent (ensureValidAccessToken refresh now now' session).2.
  intros session' Hvalid Hheld. unfold ensureValidAccessToken. rewrite Hheld.
  apply truthy_iff in Htoken. rewrite Htoken. cbn [negb].
  destruct (ouraTokenExpiry session') as [expiry|]; [|done].
  destruct Hvalid as [-> | Hlt]; [done|].
  destruct (expiry =? 0); [done|].
  by destruct (Z.ltb_spec now2 (expiry - 60000)); [|lia].
Qed.

End DailyStats.


Lemma sample_statistics :
  OuraTs.computeHeartRateDailyStats sampleReadings = Return (list_to_map sampleDailyStats).
Proof. by vm_compute. Qed.

Lemma X20_buckets_partition_readings_witness :
  ((list_to_map sampleDailyStats : gmap string DailyStat) !! "2026-10-31" = None
   ↔ onDay "2026-10-31" sampleReadings = [])
  ∧ (∀ stats,
       (list_to_map sampleDailyStats : gmap string DailyStat) !! "2026-10-31" = Some stats →
       stat_readings stats = onDay "2026-10-31" sampleReadings ∧ stat_readings stats ≠ [])
  ∧ (∀ reading, reading ∈ onDay "2026-10-31" sampleReadings
                ↔ reading ∈ sampleReadings ∧ dayOf reading = Some "2026-10-31").
Proof.
  apply (X20_buckets_partition_readings sampleReadings (list_to_map sampleDailyStats)
           sample_statistics "2026-10-31").
Defined.

Lemma X21_min_avg_max_witness :
  ∃ lo hi,
    stat_min (mkStat [sample1; sample3] (Finite 52) (Finite 57) 55) = Finite lo
    ∧ stat_max (mkStat [sample1; sample3] (Finite 52) (Finite 57) 55) = Finite hi
    ∧ (∃ reading, reading ∈ onDay "2026-10-31" sampleReadings ∧ bpm reading = lo)
    ∧ (∃ reading, reading ∈ onDay "2026-10-31" sampleReadings ∧ bpm reading = hi)
    ∧ (∀ reading, reading ∈ onDay "2026-10-31" sampleReadings → lo ≤ bpm reading ≤ hi)
    ∧ lo ≤ stat_avg (mkStat [sample1; sample3] (Finite 52) (Finite 57) 55) ≤ hi
    ∧ 2 * bpmSum (onDay "2026-10-31" sampleReadings)
        - Z.of_nat (length (onDay "2026-10-31" sampleReadings))
      < 2 * Z.of_nat (length (onDay "2026-10-31" sampleReadings))
        * stat_avg (mkStat [sample1; sample3] (Finite 52) (Finite 57) 55)
      ≤ 2 * bpmSum (onDay "2026-10-31" sampleReadings)
        + Z.of_nat (length (onDay "2026-10-31" sampleReadings)).
Proof.
  apply (X21_min_avg_max sampleReadings (list_to_map sampleDailyStats) "2026-10-31"
           (mkStat [sample1; sample3] (Finite 52) (Finite 57) 55)).
  - exact sample_statistics.
  - reflexivity.
Defined.

Lemma X22_filter_keeps_stats_of_readings_witness :
  OuraTs.computeHeartRateDailyStats
    (readings (OuraCache.filterHeartRate "2026-11-01" "2026-11-02"
                 (mkHeartRate sampleReadings sampleDailyStats)))
  = Return (list_to_map
              (dailyStats (OuraCache.filterHeartRate "2026-11-01" "2026-11-02"
                             (mkHeartRate sampleReadings sampleDailyStats)))).
Proof.
  apply (X22_filter_keeps_stats_of_readings "2026-11-01" "2026-11-02"
           (mkHeartRate sampleReadings sampleDailyStats)).
  exact sample_statistics.
Defined.

(** A reading dated [constructor] makes the computation throw. *)
Example statistics_throw :
  OuraTs.computeHeartRateDailyStats [sample1; mkReading 60 "rest" (Some "constructorT00:00")]
  = Throw OuraTs.notABucket.
Proof. by vm_compute. Qed.

Lemma X26_token_reused_until_expiry_witness :
  OuraTs.ensureValidAccessToken refusing (noon + 1800000) (noon + 1800000)
    (OuraTs.ensureValidAccessToken granting noon (noon + 250) staleSession).2
  = (Some "access-2",
     (OuraTs.ensureValidAccessToken granting noon (noon + 250) staleSession).2).
Proof.
  apply (X26_token_reused_until_expiry granting refusing noon (noon + 250)
           (noon + 1800000) (noon + 1800000) staleSession "access-2").
  - reflexivity.
  - discriminate.
  - right. by vm_compute.
Defined.

(** When the vendor refuses the refresh, no token is returned and the
    session keeps its expired token: it still counts as connected. *)
Example refused_refresh_keeps_session :
  OuraTs.ensureValidAccessToken refusing noon noon staleSession = (None, staleSession)
  ∧ OuraTs.isConnected staleSession = true.
Proof. by vm_compute. Qed.
